(** * Account pool scheduler and media collector of instagram-api-extractor

    Shallow embedding of [app/models.py], [app/core/account_pool.py],
    [app/core/media_collector.py], [app/core/collection_service.py] and the
    collection route of [app/api/routes.py].

    Modelling conventions.
    - A Python [datetime] is the record of its fields; differences between
      datetimes are taken in microseconds, the resolution of [timedelta].
    - A Python [float] is an exact rational [Q]: the scores and health values
      are compared and combined as the formulas in the source write them.
    - The remote platform (instagrapi [Client]) is a [gateway] record: one
      function per remote call the source makes, each answering with a value
      or with the message of the exception it raised.
    - The pool ([AccountPool]) is a state record; a write of the pool file
      ([_save_pool]) appends the snapshot written to [saved].
    - Python exceptions are the values of [exn]; the collector runs in a
      state-and-exception monad. *)

From Stdlib Require Import Arith ZArith QArith Qminmax List String Ascii Bool Lia Lqa Sorted.
Import ListNotations.
Open Scope Z_scope.

(** ** Date and time *)

Module DateTime.

Record datetime := mkDateTime {
  year : nat; month : nat; day : nat;
  hour : nat; minute : nat; second : nat; microsecond : nat }.

(** Days since 1970-01-01 of a proleptic Gregorian date. *)
Definition days_from_civil (y m d : Z) : Z :=
  let y' := if m <=? 2 then y - 1 else y in
  let era := y' / 400 in
  let yoe := y' - era * 400 in
  let mp := if 2 <? m then m - 3 else m + 9 in
  let doy := (153 * mp + 2) / 5 + d - 1 in
  let doe := yoe * 365 + yoe / 4 - yoe / 100 + doy in
  era * 146097 + doe - 719468.

(** A datetime as microseconds since the epoch. *)
Definition to_us (t : datetime) : Z :=
  (days_from_civil (Z.of_nat (year t)) (Z.of_nat (month t)) (Z.of_nat (day t))
     * 86400
   + Z.of_nat (hour t) * 3600 + Z.of_nat (minute t) * 60 + Z.of_nat (second t))
  * 1000000 + Z.of_nat (microsecond t).

(** [timedelta(minutes=m)] and [timedelta(hours=h)] in microseconds. *)
Definition minutes_us (m : Z) : Z := m * 60 * 1000000.
Definition hours_us (h : Z) : Z := h * 3600 * 1000000.

(** [a.date() < b.date()]: dates compare by (year, month, day). *)
Definition date_lt (a b : datetime) : bool :=
  (year a <? year b)%nat
  || ((year a =? year b)%nat
      && ((month a <? month b)%nat
          || ((month a =? month b)%nat && (day a <? day b)%nat))).

End DateTime.

Import DateTime.

(** ** Data model ([app/models.py]) *)

Module Models.

Inductive AccountStatus := ACTIVE | COOLDOWN | DEAD | CHALLENGE | LOGIN_REQUIRED.

Definition AccountStatus_eqb (a b : AccountStatus) : bool :=
  match a, b with
  | ACTIVE, ACTIVE | COOLDOWN, COOLDOWN | DEAD, DEAD
  | CHALLENGE, CHALLENGE | LOGIN_REQUIRED, LOGIN_REQUIRED => true
  | _, _ => false
  end.

Record InstagramAccount := mkAccount {
  username : string;
  password : string;
  proxy : option string;
  session_file : string;
  status : AccountStatus;
  last_used : option datetime;
  operations_today : Z;
  health_score : Q;
  total_operations : Z;
  total_errors : Z;
  created_at : datetime }.

(** Python's [min(a, b)] and [max(a, b)] keep the first argument unless the
    second is strictly smaller (larger). *)
Definition py_min (a b : Q) : Q := if negb (Qle_bool a b) then b else a.
Definition py_max (a b : Q) : Q := if negb (Qle_bool b a) then b else a.

(** [InstagramAccount.is_available]: the constants 120 minutes and 100
    operations are written in the method itself. *)
Definition is_available (now : datetime) (acc : InstagramAccount) : bool :=
  if negb (AccountStatus_eqb (status acc) ACTIVE) then false
  else if match last_used acc with
          | Some lu => to_us now - to_us lu <? minutes_us 120
          | None => false
          end then false
  else if 100 <=? operations_today acc then false
  else true.

Definition set_health (acc : InstagramAccount) (h : Q) : InstagramAccount :=
  {| username := username acc; password := password acc; proxy := proxy acc;
     session_file := session_file acc; status := status acc;
     last_used := last_used acc; operations_today := operations_today acc;
     health_score := h; total_operations := total_operations acc;
     total_errors := total_errors acc; created_at := created_at acc |}.

Definition set_status (acc : InstagramAccount) (s : AccountStatus) : InstagramAccount :=
  {| username := username acc; password := password acc; proxy := proxy acc;
     session_file := session_file acc; status := s;
     last_used := last_used acc; operations_today := operations_today acc;
     health_score := health_score acc; total_operations := total_operations acc;
     total_errors := total_errors acc; created_at := created_at acc |}.

Definition set_operations_today (acc : InstagramAccount) (n : Z) : InstagramAccount :=
  {| username := username acc; password := password acc; proxy := proxy acc;
     session_file := session_file acc; status := status acc;
     last_used := last_used acc; operations_today := n;
     health_score := health_score acc; total_operations := total_operations acc;
     total_errors := total_errors acc; created_at := created_at acc |}.

(** [InstagramAccount.update_health_score]. *)
Definition update_health_score (acc : InstagramAccount) (success : bool)
  : InstagramAccount :=
  if success then set_health acc (py_min 100 (health_score acc + 1))
  else
    {| username := username acc; password := password acc; proxy := proxy acc;
       session_file := session_file acc; status := status acc;
       last_used := last_used acc; operations_today := operations_today acc;
       health_score := py_max 0 (health_score acc - 5);
       total_operations := total_operations acc;
       total_errors := total_errors acc + 1; created_at := created_at acc |}.

(** [InstagramAccount.mark_used]. *)
Definition mark_used (now : datetime) (acc : InstagramAccount) : InstagramAccount :=
  {| username := username acc; password := password acc; proxy := proxy acc;
     session_file := session_file acc; status := status acc;
     last_used := Some now; operations_today := operations_today acc + 1;
     health_score := health_score acc;
     total_operations := total_operations acc + 1;
     total_errors := total_errors acc; created_at := created_at acc |}.

End Models.

Import Models.

(** ** Settings ([app/config.py]), the two pool settings the claims use *)

Record Settings := mkSettings {
  account_cooldown_minutes : Z;
  max_daily_operations_per_account : Z }.

(** The defaults of [Settings.__init__] (no environment overrides). *)
Definition default_settings : Settings := mkSettings 120 100.

(** ** Account pool ([app/core/account_pool.py]) *)

Module AccountPool.

(** The pool object: its account list, the usernames with a cached client
    ([self.clients]) and the snapshots written by [_save_pool]. *)
Record pool := mkPool {
  accounts : list InstagramAccount;
  clients : list string;
  saved : list (list InstagramAccount) }.

(** [_save_pool]: the current account list is written to the pool file. *)
Definition _save_pool (p : pool) : pool :=
  mkPool (accounts p) (clients p) (saved p ++ [accounts p]).

(** [self.accounts[i] = acc] on the shared account object. *)
Fixpoint replace_nth {A} (l : list A) (i : nat) (x : A) : list A :=
  match l, i with
  | [], _ => []
  | _ :: r, O => x :: r
  | y :: r, S i' => y :: replace_nth r i' x
  end.

Definition update_account (p : pool) (i : nat) (f : InstagramAccount -> InstagramAccount)
  : pool :=
  match nth_error (accounts p) i with
  | Some acc => mkPool (replace_nth (accounts p) i (f acc)) (clients p) (saved p)
  | None => p
  end.

(** The loop of [get_available_account] that builds [available_accounts],
    keeping the position of each account in the pool. *)
Fixpoint available_from (now : datetime) (i : nat) (accs : list InstagramAccount)
  : list (nat * InstagramAccount) :=
  match accs with
  | [] => []
  | acc :: r =>
      if is_available now acc then (i, acc) :: available_from now (S i) r
      else available_from now (S i) r
  end.

(** The fallback loop: the first account whose status is ACTIVE. *)
Fixpoint first_active (i : nat) (accs : list InstagramAccount) : option nat :=
  match accs with
  | [] => None
  | acc :: r =>
      if AccountStatus_eqb (status acc) ACTIVE then Some i else first_active (S i) r
  end.

Local Open Scope Q_scope.

(** [calculate_score], nested in [get_available_account]. Python's true
    division [operations_today / max_daily_operations_per_account] raises
    [ZeroDivisionError] when the limit is 0; [selection_raises] below says
    when that happens, and the score is then never used. The score is
    computed in exact rationals, where Python uses floats: candidates whose
    exact scores are equal, or closer than the rounding error, can be
    ordered differently by Python. *)
Definition calculate_score (settings : Settings) (now : datetime)
    (account : InstagramAccount) : Q :=
  let health_weight := health_score account / 100 in
  let time_weight :=
    match last_used account with
    | Some lu =>
        let hours_since_last_use :=
          inject_Z (to_us now - to_us lu) / inject_Z (3600 * 1000000) in
        py_min 1 (hours_since_last_use / 24)
    | None => 1
    end in
  let usage_weight :=
    1 - inject_Z (operations_today account)
        / inject_Z (max_daily_operations_per_account settings) in
  health_weight * (2 # 5) + time_weight * (2 # 5) + usage_weight * (1 # 5).

Local Close Scope Q_scope.

(** Python's [max(xs, key=k)] on a non-empty list: an element replaces the
    current maximum only when its key is strictly greater. *)
Fixpoint max_by_from {A} (key : A -> Q) (best : A) (l : list A) : A :=
  match l with
  | [] => best
  | x :: r =>
      if negb (Qle_bool (key x) (key best)) then max_by_from key x r
      else max_by_from key best r
  end.

(** [max(available_accounts, key=calculate_score)] calls the key on every
    candidate: with at least one candidate and a daily limit of 0, the
    division in [calculate_score] raises [ZeroDivisionError], which
    [get_available_account] does not catch. *)
Definition selection_raises (settings : Settings) (now : datetime) (p : pool) : bool :=
  match available_from now 0 (accounts p) with
  | [] => false
  | _ :: _ => (max_daily_operations_per_account settings =? 0)%Z
  end.

(** [get_available_account]: the position of the chosen account, when it
    returns ([selection_raises] is false). *)
Definition get_available_account (settings : Settings) (now : datetime) (p : pool)
  : option nat :=
  match available_from now 0 (accounts p) with
  | [] => first_active 0 (accounts p)
  | a :: r =>
      Some (fst (max_by_from (fun ia => calculate_score settings now (snd ia)) a r))
  end.

(** The account object [get_available_account] returns. *)
Definition get_available_account_obj (settings : Settings) (now : datetime) (p : pool)
  : option InstagramAccount :=
  match get_available_account settings now p with
  | Some i => nth_error (accounts p) i
  | None => None
  end.

(** [mark_account_used]. *)
Definition mark_account_used_acc (settings : Settings) (now : datetime)
    (success : bool) (account : InstagramAccount) : InstagramAccount :=
  let account := update_health_score (mark_used now account) success in
  if max_daily_operations_per_account settings <=? operations_today account
  then set_status account COOLDOWN
  else account.

Definition mark_account_used (settings : Settings) (now : datetime)
    (i : nat) (success : bool) (p : pool) : pool :=
  _save_pool (update_account p i (mark_account_used_acc settings now success)).

(** Outcomes of the login attempts made by [_test_account_login]: [client.login]
    returning true or false, or raising [ChallengeRequired] or any other
    exception. *)
Inductive login_outcome := LoginOk | LoginFalse | LoginChallenge | LoginError.

(** [_test_account_login]: whether the test passed, and the account with the
    status its handlers set. *)
Definition _test_account_login (test_login : string -> login_outcome)
    (account : InstagramAccount) : bool * InstagramAccount :=
  match test_login (username account) with
  | LoginOk => (true, account)
  | LoginFalse => (false, account)
  | LoginChallenge => (false, set_status account CHALLENGE)
  | LoginError => (false, set_status account DEAD)
  end.

(** One iteration of the loop of [health_check]. *)
Definition health_check_account (settings : Settings) (now : datetime)
    (test_login : string -> login_outcome) (account : InstagramAccount)
  : InstagramAccount :=
  let account :=
    match last_used account with
    | Some lu =>
        if date_lt lu now then
          let account := set_operations_today account 0 in
          if AccountStatus_eqb (status account) COOLDOWN
          then set_status account ACTIVE else account
        else account
    | None => account
    end in
  let account :=
    if AccountStatus_eqb (status account) COOLDOWN then
      match last_used account with
      | Some lu =>
          if minutes_us (account_cooldown_minutes settings) <=? to_us now - to_us lu
          then set_status account ACTIVE else account
      | None => account
      end
    else account in
  if AccountStatus_eqb (status account) CHALLENGE
     || AccountStatus_eqb (status account) LOGIN_REQUIRED then
    if Qlt_le_dec 50 (health_score account) then
      let (ok, account) := _test_account_login test_login account in
      if ok then set_status account ACTIVE else account
    else account
  else account.

(** [health_check]. *)
Definition health_check (settings : Settings) (now : datetime)
    (test_login : string -> login_outcome) (p : pool) : pool :=
  _save_pool (mkPool (map (health_check_account settings now test_login) (accounts p))
                     (clients p) (saved p)).

End AccountPool.

Import AccountPool.

(** ** Strings: [str.lower] and the [in] operator on strings *)

Module PyString.

Definition lower_char (c : ascii) : ascii :=
  let n := nat_of_ascii c in
  if (65 <=? n)%nat && (n <=? 90)%nat then ascii_of_nat (n + 32) else c.

Fixpoint lower (s : string) : string :=
  match s with
  | EmptyString => EmptyString
  | String c r => String (lower_char c) (lower r)
  end.

(** [needle in hay]. *)
Fixpoint contains (needle hay : string) : bool :=
  prefix needle hay
  || match hay with
     | EmptyString => false
     | String _ r => contains needle r
     end.

(** Truthiness of a Python [str]. *)
Definition truthy (s : string) : bool :=
  match s with EmptyString => false | _ => true end.

End PyString.

Import PyString.

(** ** Exceptions, the collector monad and the remote platform *)

Module Runtime.

(** The exceptions raised on the paths of [collect_user_media]: the
    instagrapi ones, [AttributeError], the [Exception(msg)] raised by
    [_get_user_info_safe], the [ZeroDivisionError] of [calculate_score] and
    the [OSError] of [os.remove]. *)
Inductive exn :=
  | UserNotFound (msg : string)
  | PrivateError (msg : string)
  | LoginRequired (msg : string)
  | RateLimitError (msg : string)
  | PleaseWaitFewMinutes (msg : string)
  | AttributeError (msg : string)
  | Exception_ (msg : string)
  | ZeroDivisionError (msg : string)
  | OSError (msg : string).

(** [str(e)]. *)
Definition exn_str (e : exn) : string :=
  match e with
  | UserNotFound m | PrivateError m | LoginRequired m | RateLimitError m
  | PleaseWaitFewMinutes m | AttributeError m | Exception_ m
  | ZeroDivisionError m | OSError m => m
  end.

Inductive outcome (A : Type) := Ret (a : A) | Raise (e : exn).
Arguments Ret {A} a.
Arguments Raise {A} e.

(** Computations over the pool that may raise. *)
Definition M (A : Type) : Type := pool -> outcome A * pool.

Definition ret {A} (a : A) : M A := fun p => (Ret a, p).
Definition raise {A} (e : exn) : M A := fun p => (Raise e, p).
Definition bind {A B} (m : M A) (k : A -> M B) : M B :=
  fun p => match m p with
           | (Ret a, p') => k a p'
           | (Raise e, p') => (Raise e, p')
           end.
(** [try: m except ...: h(e)]; a handler that does not match re-raises. *)
Definition try_except {A} (m : M A) (h : exn -> M A) : M A :=
  fun p => match m p with
           | (Ret a, p') => (Ret a, p')
           | (Raise e, p') => h e p'
           end.
Definition get : M pool := fun p => (Ret p, p).
Definition modify (f : pool -> pool) : M unit := fun p => (Ret tt, f p).

Notation "x <- m ;; k" := (bind m (fun x => k))
  (at level 61, m at next level, right associativity).
Notation "m ;;; k" := (bind m (fun _ => k)) (at level 61, right associativity).

(** A computation that returns on every pool: no exception leaves it. *)
Definition noraise {A} (m : M A) : Prop :=
  forall p, exists a p', m p = (Ret a, p').

(** What a remote call returns: a value, or the message of the exception. *)
Inductive gres (A : Type) := GOk (a : A) | GErr (msg : string).
Arguments GOk {A} a.
Arguments GErr {A} msg.

Record story := mkStory {
  story_pk : Z; story_media_type : Z; story_taken_at : option datetime }.
Record resource := mkResource { resource_pk : Z; resource_media_type : Z }.
Record media := mkMedia {
  media_pk : Z; media_media_type : Z; media_taken_at : option datetime;
  media_resources : list resource }.

(** What [client.login] does in [get_client]: return, or raise
    [ChallengeRequired], [LoginRequired] or another exception. *)
Inductive client_login := ClientOk | ClientChallenge | ClientLoginRequired | ClientError.

(** The remote platform, one field per client call of the source. *)
Record gateway := mkGateway {
  gw_get_timeline_feed : string -> bool;        (** liveness of a cached client *)
  gw_login : string -> client_login;            (** [client.login] in [get_client] *)
  gw_user_info_by_username : string -> gres Z;  (** the user's pk *)
  gw_user_id_from_username : string -> gres Z;
  gw_user_info : Z -> gres Z;
  gw_user_stories : Z -> gres (list story);
  gw_user_medias : Z -> Z -> gres (list media); (** user id, [amount] *)
  gw_download : Z -> gres (list Byte.byte) }.   (** photo/video download, file bytes *)

End Runtime.

Import Runtime.

(** ** Media collector ([app/core/media_collector.py]) *)

Module MediaCollector.

Inductive MediaType := IMAGE | VIDEO | CAROUSEL.

(** The [id] of a [MediaFile]: [story.pk], [post.pk] or [f"{post.pk}_{i+1}"]
    for a carousel item. *)
Inductive media_id := PkId (pk : Z) | CarouselId (pk : Z) (index : Z).

(** [MediaFile]; the file name and the metadata dictionary are not modelled. *)
Record MediaFile := mkMediaFile {
  mf_id : media_id; mf_type : MediaType;
  binary_data : list Byte.byte; size_bytes : nat }.

(** The arguments of [collect_user_media] that [username] may be: a [str],
    or any other object with its truthiness. *)
Inductive pyarg := PyStr (s : string) | PyOther (truthy : bool).

(** The [error_message] strings of [collect_user_media], by the path that
    builds them. *)
Inductive error_message :=
  | InvalidUsername                          (** "Nome de usuário inválido" *)
  | NoAccountAvailable                       (** "Nenhuma conta disponível no pool" *)
  | NoClient (account : string)
  | UserNotFoundOrPrivate (target : string)  (** "... não encontrado ou perfil privado" *)
  | UserLookupError (target msg : string)    (** "Erro ao buscar usuário ..." *)
  | ProfilePrivate (target : string)
  | RateLimitReached (account : string)
  | LoginRequiredFor (account : string)
  | UnexpectedError (msg : string).

(** [CollectionResult]; the timestamp is not modelled. *)
Record CollectionResult := mkResult {
  cr_username : pyarg;
  cr_success : bool;
  cr_error_message : option error_message;
  cr_account_used : option string;
  cr_stories : list MediaFile;
  cr_feed_posts : list MediaFile }.

Definition failed (u : pyarg) (acc : option string) (e : error_message) : CollectionResult :=
  mkResult u false (Some e) acc [] [].

(** [_random_delay]: a sleep, no effect on the pool. *)
Definition _random_delay : M unit := ret tt.

(** [AccountPool.get_client] on the account at position [i]: whether a
    client is returned. *)
Definition get_client (gw : gateway) (i : nat) : M bool :=
  p <- get ;;
  match nth_error (accounts p) i with
  | None => ret false
  | Some account =>
      let u := username account in
      let cached := existsb (String.eqb u) (clients p) in
      if cached && gw_get_timeline_feed gw u then ret true
      else
        (if cached
         then modify (fun p => mkPool (accounts p)
                                  (filter (fun v => negb (String.eqb u v)) (clients p))
                                  (saved p))
         else ret tt) ;;;
        let fail_with (s : AccountStatus) : M bool :=
          modify (fun p => _save_pool
                    (update_account p i
                       (fun a => set_status (update_health_score a false) s))) ;;;
          ret false in
        match gw_login gw u with
        | ClientOk =>
            modify (fun p => mkPool (accounts p) (u :: clients p) (saved p)) ;;; ret true
        | ClientChallenge => fail_with CHALLENGE
        | ClientLoginRequired => fail_with LOGIN_REQUIRED
        | ClientError => fail_with DEAD
        end
  end.

(** [_get_user_sync], nested in [_get_user_info_safe]: [(user, error)]. *)
Definition _get_user_sync (gw : gateway) (u : string) : option Z * option string :=
  match gw_user_info_by_username gw u with
  | GOk user => (Some user, None)
  | GErr _ =>
      match gw_user_id_from_username gw u with
      | GOk user_id =>
          match gw_user_info gw user_id with
          | GOk user => (Some user, None)
          | GErr e2 => (None, Some e2)
          end
      | GErr e2 => (None, Some e2)
      end
  end.

(** [_get_user_info_safe]. *)
Definition _get_user_info_safe (gw : gateway) (u : string) : M (option Z) :=
  _random_delay ;;;
  let (user, error) := _get_user_sync gw u in
  match error with
  | Some e =>
      if truthy e && contains "not found"%string (lower e) then raise (UserNotFound e)
      else if truthy e then raise (Exception_ e)
      else ret user
  | None => ret user
  end.

(** [_collect_stories_safe]. *)
Definition _collect_stories_safe (gw : gateway) (user_id : Z) : M (list story) :=
  try_except
    (_random_delay ;;;
     let (stories, error) :=
       match gw_user_stories gw user_id with
       | GOk s => (s, None)
       | GErr e => ([], Some e)
       end in
     match error with
     | Some e =>
         if truthy e then
           if contains "login_required"%string (lower e) then raise (LoginRequired e)
           else ret []
         else ret stories
     | None => ret stories
     end)
    (fun _ => ret []).

(** The filtering loop of [_collect_feed_posts_safe]: keep recent posts,
    stop at the first one that is not recent, or once [max_posts] are kept. *)
Fixpoint scan_recent (max_posts threshold count : Z) (l : list media) : list media :=
  match l with
  | [] => []
  | m :: r =>
      match media_taken_at m with
      | Some t =>
          if threshold <=? to_us t then
            if max_posts <=? count + 1 then [m]
            else m :: scan_recent max_posts threshold (count + 1) r
          else []
      | None => []
      end
  end.

(** [_collect_feed_posts_safe]. *)
Definition _collect_feed_posts_safe (gw : gateway) (now : datetime) (user_id : Z)
    (max_posts : Z) : M (list media) :=
  try_except
    (_random_delay ;;;
     let search_limit := Z.min (max_posts * 5) 50 in
     let all_medias :=
       match gw_user_medias gw user_id search_limit with
       | GOk l => l
       | GErr _ => []
       end in
     match all_medias with
     | [] => ret []
     | _ =>
         let twenty_four_hours_ago := to_us now - hours_us 24 in
         ret (scan_recent max_posts twenty_four_hours_ago 0 all_medias)
     end)
    (fun _ => ret []).

(** The [(temp_file, error, media_type)] triple of the download helpers, the
    file read back as its bytes. *)
Definition download_sync (gw : gateway) (pk media_type : Z)
  : option (list Byte.byte) * option string * option MediaType :=
  if media_type =? 1 then
    match gw_download gw pk with
    | GOk b => (Some b, None, Some IMAGE)
    | GErr e => (None, Some e, None)
    end
  else if media_type =? 2 then
    match gw_download gw pk with
    | GOk b => (Some b, None, Some VIDEO)
    | GErr e => (None, Some e, None)
    end
  else (None, Some "Tipo nao suportado"%string, None).

(** [_download_story_file_safe] and [_download_single_post_safe]. *)
Definition _download_file_safe (gw : gateway) (pk media_type : Z) : M (option MediaFile) :=
  try_except
    (let '(temp_file, error, mt) := download_sync gw pk media_type in
     match error with
     | Some e =>
         if truthy e then
           if contains "login_required"%string (lower e) then raise (LoginRequired e)
           else ret None
         else ret None
     | None =>
         match temp_file, mt with
         | Some b, Some t => ret (Some (mkMediaFile (PkId pk) t b (List.length b)))
         | _, _ => ret None
         end
     end)
    (fun _ => ret None).

(** The [except] clause of the download loops: a login-required message is
    raised again as [LoginRequired], anything else skips the item. *)
Definition reraise_login {A} (e : exn) (skip : A) : M A :=
  if contains "login_required"%string (lower (exn_str e)) then raise (LoginRequired (exn_str e))
  else ret skip.

(** [_download_stories_safe]. *)
Fixpoint _download_stories_safe (gw : gateway) (stories : list story)
  : M (list MediaFile) :=
  match stories with
  | [] => ret []
  | s :: r =>
      got <- try_except
               (mf <- _download_file_safe gw (story_pk s) (story_media_type s) ;;
                ret (option_map (fun f => [f]) mf))
               (fun e => reraise_login e None) ;;
      rest <- _download_stories_safe gw r ;;
      ret (match got with Some fs => fs ++ rest | None => rest end)
  end.

(** The loop of [_download_carousel_post_safe]: every failure skips the item. *)
Fixpoint download_carousel_items (gw : gateway) (pk i : Z) (resources : list resource)
  : list MediaFile :=
  match resources with
  | [] => []
  | rsc :: r =>
      let '(temp_file, error, mt) :=
        download_sync gw (resource_pk rsc) (resource_media_type rsc) in
      match error, temp_file, mt with
      | None, Some b, Some t =>
          mkMediaFile (CarouselId pk (i + 1)) t b (List.length b)
            :: download_carousel_items gw pk (i + 1) r
      | _, _, _ => download_carousel_items gw pk (i + 1) r
      end
  end.

Definition _download_carousel_post_safe (gw : gateway) (post : media) : M (list MediaFile) :=
  ret (download_carousel_items gw (media_pk post) 0 (media_resources post)).

(** [_download_feed_posts_safe]. *)
Fixpoint _download_feed_posts_safe (gw : gateway) (posts : list media)
  : M (list MediaFile) :=
  match posts with
  | [] => ret []
  | post :: r =>
      got <- try_except
               (if media_media_type post =? 8 then
                  fs <- _download_carousel_post_safe gw post ;; ret (Some fs)
                else
                  mf <- _download_file_safe gw (media_pk post) (media_media_type post) ;;
                  ret (Some (match mf with Some f => [f] | None => [] end)))
               (fun e => reraise_login e None) ;;
      rest <- _download_feed_posts_safe gw r ;;
      ret (match got with Some fs => fs ++ rest | None => rest end)
  end.

(** [if not username or not isinstance(username, str)]. *)
Definition valid_username (u : pyarg) : option string :=
  match u with
  | PyStr s => if truthy s then Some s else None
  | PyOther _ => None
  end.

(** [collect_user_media]. [i] is the position of the account in the pool
    once [get_available_account] has chosen it; the [ZeroDivisionError] of
    the selection (line 93, outside any [try]) leaves the function. *)
Definition collect_user_media (gw : gateway) (settings : Settings) (now : datetime)
    (user : pyarg) (include_stories include_feed : bool) (max_feed_posts : Z)
  : M CollectionResult :=
  match valid_username user with
  | None => ret (failed user None InvalidUsername)
  | Some u =>
      p <- get ;;
      if selection_raises settings now p then
        raise (ZeroDivisionError "division by zero"%string)
      else
      match get_available_account settings now p with
      | None => ret (failed user None NoAccountAvailable)
      | Some i =>
          let acc_name :=
            match nth_error (accounts p) i with Some a => username a | None => EmptyString end in
          ok <- get_client gw i ;;
          if negb ok then ret (failed user None (NoClient acc_name))
          else
            let mark (success : bool) : M unit :=
              modify (mark_account_used settings now i success) in
            let fail_run (e : error_message) := failed user (Some acc_name) e in
            try_except
              (step <- try_except
                         (target_user <- _get_user_info_safe gw u ;;
                          match target_user with
                          | None => raise (UserNotFound u)
                          | Some pk => ret (inl pk)
                          end)
                         (fun e =>
                            match e with
                            | UserNotFound _ =>
                                mark true ;;; ret (inr (fail_run (UserNotFoundOrPrivate u)))
                            | _ =>
                                mark false ;;;
                                ret (inr (fail_run (UserLookupError u (exn_str e))))
                            end) ;;
               match step with
               | inr r => ret r
               | inl pk =>
                   _random_delay ;;;
                   story_files <-
                     (if include_stories then
                        try_except
                          (stories <- _collect_stories_safe gw pk ;;
                           match stories with
                           | [] => ret []
                           | _ => _download_stories_safe gw stories
                           end)
                          (fun _ => ret [])
                      else ret []) ;;
                   _random_delay ;;;
                   feed_files <-
                     (if include_feed then
                        try_except
                          (feed_posts <- _collect_feed_posts_safe gw now pk max_feed_posts ;;
                           match feed_posts with
                           | [] => ret []
                           | _ => _download_feed_posts_safe gw feed_posts
                           end)
                          (fun _ => ret [])
                      else ret []) ;;
                   mark true ;;;
                   ret (mkResult user true None (Some acc_name) story_files feed_files)
               end)
              (fun e =>
                 match e with
                 | PrivateError _ => mark true ;;; ret (fail_run (ProfilePrivate u))
                 | RateLimitError _ | PleaseWaitFewMinutes _ =>
                     modify (fun p => update_account p i (fun a => set_status a COOLDOWN)) ;;;
                     mark false ;;; ret (fail_run (RateLimitReached acc_name))
                 | LoginRequired _ =>
                     (* [account.status = AccountStatus.ERROR]: the enum has no
                        member [ERROR], the attribute lookup raises. *)
                     raise (AttributeError "ERROR"%string)
                 | _ => mark false ;;; ret (fail_run (UnexpectedError (exn_str e)))
                 end)
      end
  end.

End MediaCollector.

Import MediaCollector.

(** ** Persistence of the pool ([_save_pool], [_load_pool]) *)

Module Persistence.

(** *** [str(datetime)] and pydantic's [parse_datetime] *)

Local Open Scope nat_scope.

Definition digit (k : nat) : ascii := ascii_of_nat (48 + k).

Definition is_digit (c : ascii) : bool :=
  let n := nat_of_ascii c in (48 <=? n)%nat && (n <=? 57)%nat.

Definition digit_value (c : ascii) : nat := nat_of_ascii c - 48.

(** ["%0wd" % n]. *)
Fixpoint pad (w n : nat) : list ascii :=
  match w with
  | O => []
  | S w' => pad w' (n / 10) ++ [digit (n mod 10)]
  end.

(** [str(dt)], i.e. [dt.isoformat(" ")]. *)
Definition str_datetime_chars (t : datetime) : list ascii :=
  pad 4 (year t) ++ ["-"%char] ++ pad 2 (month t) ++ ["-"%char] ++ pad 2 (day t)
  ++ [" "%char] ++ pad 2 (hour t) ++ [":"%char] ++ pad 2 (minute t)
  ++ [":"%char] ++ pad 2 (second t)
  ++ (if (microsecond t =? 0)%nat then [] else "."%char :: pad 6 (microsecond t)).

Definition str_datetime (t : datetime) : string :=
  string_of_list_ascii (str_datetime_chars t).

(** Greedy [\d{0,fuel}]: value, number of digits read, rest. *)
Fixpoint take_digits (fuel acc cnt : nat) (l : list ascii) : nat * nat * list ascii :=
  match fuel with
  | O => (acc, cnt, l)
  | S f =>
      match l with
      | c :: r =>
          if is_digit c then take_digits f (acc * 10 + digit_value c) (S cnt) r
          else (acc, cnt, l)
      | [] => (acc, cnt, l)
      end
  end.

(** [\d{lo,hi}]. *)
Definition digits (lo hi : nat) (l : list ascii) : option (nat * list ascii) :=
  let '(v, n, r) := take_digits hi 0 0 l in
  if (lo <=? n)%nat then Some (v, r) else None.

Definition expect (ok : ascii -> bool) (l : list ascii) : option (list ascii) :=
  match l with
  | c :: r => if ok c then Some r else None
  | [] => None
  end.

Definition is_char (c : ascii) : ascii -> bool := Ascii.eqb c.

Definition is_leap (y : nat) : bool :=
  ((y mod 4 =? 0) && negb (y mod 100 =? 0) || (y mod 400 =? 0))%nat.

Definition days_in_month (y m : nat) : nat :=
  match m with
  | 2 => if is_leap y then 29 else 28
  | 4 | 6 | 9 | 11 => 30
  | _ => 31
  end.

(** The range checks of the [datetime] constructor. *)
Definition valid_datetime (t : datetime) : bool :=
  ((1 <=? year t) && (year t <=? 9999)
   && (1 <=? month t) && (month t <=? 12)
   && (1 <=? day t) && (day t <=? days_in_month (year t) (month t))
   && (hour t <? 24) && (minute t <? 60) && (second t <? 60)
   && (microsecond t <? 1000000))%nat.

Local Notation "'let*' p := m 'in' k" :=
  (match m with Some p => k | None => None end)
  (at level 200, p pattern, m at level 100, k at level 200).

(** pydantic's [parse_datetime] on a string: the regular expression
    [(\d{4})-(\d{1,2})-(\d{1,2})[T ](\d{1,2}):(\d{1,2})(?::(\d{1,2})(?:\.(\d{1,6})\d{0,6})?)?$]
    (naive datetimes: the time-zone suffix is not modelled), the microsecond
    digits padded on the right to six, then the [datetime] constructor. *)
Definition parse_datetime_chars (l : list ascii) : option datetime :=
  let* (y, r) := digits 4 4 l in
  let* r := expect (is_char "-"%char) r in
  let* (mo, r) := digits 1 2 r in
  let* r := expect (is_char "-"%char) r in
  let* (d, r) := digits 1 2 r in
  let* r := expect (fun c => is_char "T"%char c || is_char " "%char c) r in
  let* (h, r) := digits 1 2 r in
  let* r := expect (is_char ":"%char) r in
  let* (mi, r) := digits 1 2 r in
  let* (s, us, r) :=
    match r with
    | c :: r' =>
        if is_char ":"%char c then
          let* (s, r) := digits 1 2 r' in
          match r with
          | c' :: r'' =>
              if is_char "."%char c' then
                let '(v, n, r) := take_digits 6 0 0 r'' in
                if (1 <=? n)%nat then
                  let '(_, _, r) := take_digits 6 0 0 r in
                  Some (s, v * 10 ^ (6 - n), r)
                else None
              else Some (s, 0%nat, r)
          | [] => Some (s, 0%nat, r)
          end
        else Some (0%nat, 0%nat, r)
    | [] => Some (0%nat, 0%nat, r)
    end in
  match r with
  | [] =>
      let t := mkDateTime y mo d h mi s us in
      if valid_datetime t then Some t else None
  | _ => None
  end.

Definition parse_datetime (s : string) : option datetime :=
  parse_datetime_chars (list_ascii_of_string s).

Local Close Scope nat_scope.

(** *** The pool file *)

(** A JSON document as [json.load] returns it: [None], [bool], [int],
    [float], [str], [list] and [dict] (an association list). *)
#[warnings="-register-all"]
Inductive json :=
  | JNull | JBool (b : bool) | JInt (z : Z) | JFloat (q : Q) | JStr (s : string)
  | JArr (l : list json) | JObj (kvs : list (string * json)).

(** The pool file: absent, text [json.load] rejects, or the document read. *)
Inductive pool_file := NoFile | Unparsable | Document (j : json).

(** [AccountStatus.value] and [AccountStatus(value)]. *)
Definition status_value (s : AccountStatus) : string :=
  match s with
  | ACTIVE => "active" | COOLDOWN => "cooldown" | DEAD => "dead"
  | CHALLENGE => "challenge" | LOGIN_REQUIRED => "login_required"
  end.

Definition status_of_value (v : string) : option AccountStatus :=
  if String.eqb v "active" then Some ACTIVE
  else if String.eqb v "cooldown" then Some COOLDOWN
  else if String.eqb v "dead" then Some DEAD
  else if String.eqb v "challenge" then Some CHALLENGE
  else if String.eqb v "login_required" then Some LOGIN_REQUIRED
  else None.

(** [acc.dict()] as [json.dump(..., default=str)] writes it. *)
Definition account_to_json (acc : InstagramAccount) : json :=
  JObj [("username", JStr (username acc));
        ("password", JStr (password acc));
        ("proxy", match proxy acc with Some s => JStr s | None => JNull end);
        ("session_file", JStr (session_file acc));
        ("status", JStr (status_value (status acc)));
        ("last_used", match last_used acc with
                      | Some t => JStr (str_datetime t) | None => JNull end);
        ("operations_today", JInt (operations_today acc));
        ("health_score", JFloat (health_score acc));
        ("total_operations", JInt (total_operations acc));
        ("total_errors", JInt (total_errors acc));
        ("created_at", JStr (str_datetime (created_at acc)))]%string.

(** The document [_save_pool] writes for an account list. *)
Definition pool_document (accs : list InstagramAccount) : pool_file :=
  Document (JArr (map account_to_json accs)).

(** [data[key]] of a JSON object: the last occurrence of a key wins. *)
Definition lookup (k : string) (kvs : list (string * json)) : option json :=
  option_map snd (find (fun kv => String.eqb (fst kv) k) (rev kvs)).

Local Notation "'let*' p := m 'in' k" :=
  (match m with Some p => k | None => None end)
  (at level 200, p pattern, m at level 100, k at level 200).

(** pydantic's validation of each field of [InstagramAccount]; a missing
    optional field takes its default. Coercions pydantic would apply to
    other JSON types (numbers to [str], [bool] to [int], ...) are not
    modelled: such input is rejected as a validation error. *)
Definition field_str (v : option json) : option string :=
  match v with Some (JStr s) => Some s | _ => None end.

Definition field_opt_str (v : option json) : option (option string) :=
  match v with
  | None | Some JNull => Some None
  | Some (JStr s) => Some (Some s)
  | _ => None
  end.

Definition field_status (v : option json) : option AccountStatus :=
  match v with
  | None => Some ACTIVE
  | Some (JStr s) => status_of_value s
  | _ => None
  end.

Definition field_opt_datetime (v : option json) : option (option datetime) :=
  match v with
  | None | Some JNull => Some None
  | Some (JStr s) => option_map Some (parse_datetime s)
  | _ => None
  end.

Definition field_datetime (default : datetime) (v : option json) : option datetime :=
  match v with
  | None => Some default
  | Some (JStr s) => parse_datetime s
  | _ => None
  end.

Definition field_int (default : Z) (v : option json) : option Z :=
  match v with
  | None => Some default
  | Some (JInt z) => Some z
  | _ => None
  end.

Definition field_float (default : Q) (v : option json) : option Q :=
  match v with
  | None => Some default
  | Some (JFloat q) => Some q
  | Some (JInt z) => Some (inject_Z z)
  | _ => None
  end.

(** [InstagramAccount] called with the keys of [acc_data] as keyword
    arguments; [created_at_default] is the value of
    [datetime.now()] evaluated when the class was defined. *)
Definition account_of_json (created_at_default : datetime) (j : json)
  : option InstagramAccount :=
  match j with
  | JObj kvs =>
      let* u := field_str (lookup "username" kvs) in
      let* pw := field_str (lookup "password" kvs) in
      let* px := field_opt_str (lookup "proxy" kvs) in
      let* sf := field_str (lookup "session_file" kvs) in
      let* st := field_status (lookup "status" kvs) in
      let* lu := field_opt_datetime (lookup "last_used" kvs) in
      let* ops := field_int 0 (lookup "operations_today" kvs) in
      let* hs := field_float 100 (lookup "health_score" kvs) in
      let* tops := field_int 0 (lookup "total_operations" kvs) in
      let* terr := field_int 0 (lookup "total_errors" kvs) in
      let* ca := field_datetime created_at_default (lookup "created_at" kvs) in
      Some (mkAccount u pw px sf st lu ops hs tops terr ca)
  | _ => None
  end%string.

Fixpoint map_option {A B} (f : A -> option B) (l : list A) : option (list B) :=
  match l with
  | [] => Some []
  | x :: r =>
      let* y := f x in
      let* ys := map_option f r in
      Some (y :: ys)
  end.

(** The body of the [try] of [_load_pool] once [json.load] succeeded:
    one [InstagramAccount] per [acc_data] of [data]. Iterating a
    non-list document either yields nothing (an empty [dict] or [str]) or
    raises [TypeError]. *)
Definition accounts_of_document (created_at_default : datetime) (j : json)
  : option (list InstagramAccount) :=
  match j with
  | JArr items => map_option (account_of_json created_at_default) items
  | JObj [] | JStr EmptyString => Some []
  | _ => None
  end.

(** [_load_pool], run by [__init__] on the empty account list. *)
Definition _load_pool (created_at_default : datetime) (f : pool_file)
  : list InstagramAccount :=
  match f with
  | NoFile => []
  | Unparsable => []
  | Document j =>
      match accounts_of_document created_at_default j with
      | Some accs => accs
      | None => []
      end
  end.

(** Every datetime of an account is a valid [datetime]. *)
Definition account_datetimes_valid (acc : InstagramAccount) : bool :=
  valid_datetime (created_at acc)
  && match last_used acc with Some t => valid_datetime t | None => true end.

End Persistence.

Import Persistence.

(** ** Concrete pools and gateways used by the scenarios below *)

Module Scenarios.

Local Open Scope string_scope.

Definition at_time (y mo d h mi : nat) : datetime := mkDateTime y mo d h mi 0 0.

Definition now0 : datetime := at_time 2024 8 5 15 30.
Definition created0 : datetime := at_time 2024 8 1 9 0.

Definition sample_account (name : string) (st : AccountStatus) (lu : option datetime)
    (ops : Z) (h : Q) : InstagramAccount :=
  mkAccount name "secret" None
    (String.append "data/sessions/" (String.append name "_session.json"))
    st lu ops h 0 0 created0.

Definition pool_of (accs : list InstagramAccount) : AccountPool.pool := mkPool accs [] [].

(** An ACTIVE account used one minute ago, inside its 120-minute cooldown. *)
Definition cooling_account : InstagramAccount :=
  sample_account "alice" ACTIVE (Some (at_time 2024 8 5 15 29)) 0 100.

(** A: health 100, never used; B: health 50, used one hour ago. *)
Definition account_A (ops : Z) : InstagramAccount :=
  sample_account "account_a" ACTIVE None ops 100.
Definition account_B (ops : Z) : InstagramAccount :=
  sample_account "account_b" ACTIVE (Some (at_time 2024 8 5 14 30)) ops 50.

(** An ACTIVE account (health 50) used three and a half hours ago, past
    its cooldown. *)
Definition account_C : InstagramAccount :=
  sample_account "account_c" ACTIVE (Some (at_time 2024 8 5 12 0)) 0 50.

(** A gateway on which every call succeeds; target pk 42, no stories,
    no posts. *)
Definition ok_gateway : gateway :=
  mkGateway (fun _ => true) (fun _ => ClientOk)
    (fun _ => GOk 42) (fun _ => GOk 42) (fun _ => GOk 42)
    (fun _ => GOk []) (fun _ _ => GOk []) (fun _ => GOk []).

(** The stories call answers with a re-authentication-required error. *)
Definition login_required_gateway : gateway :=
  mkGateway (fun _ => true) (fun _ => ClientOk)
    (fun _ => GOk 42) (fun _ => GOk 42) (fun _ => GOk 42)
    (fun _ => GErr "login_required") (fun _ _ => GOk []) (fun _ => GOk []).

(** Both user lookups answer that the target profile is private. *)
Definition private_target_gateway : gateway :=
  mkGateway (fun _ => true) (fun _ => ClientOk)
    (fun _ => GErr "Profile is private") (fun _ => GErr "Profile is private")
    (fun _ => GOk 42)
    (fun _ => GOk []) (fun _ _ => GOk []) (fun _ => GOk []).

(** A fresh, never used account. *)
Definition fresh_account : InstagramAccount :=
  sample_account "collector" ACTIVE None 0 100.

(** Feed candidates, newest first: items 1..6 taken within the last hours,
    item 7 taken 25 hours before [now0], items 8..50 older still. *)
Definition post_at (k : nat) (t : datetime) : media :=
  mkMedia (Z.of_nat k) 1 (Some t) [].

Definition feed_candidates : list media :=
  app (map (fun k => post_at k (at_time 2024 8 5 (15 - k) 0)) (seq 1 6))
    (post_at 7 (at_time 2024 8 4 14 30)
       :: map (fun k => post_at k (at_time 2024 7 1 12 0)) (seq 8 43)).

(** A pool with two accounts of distinct shapes, for the round trip. *)
Definition roundtrip_accounts : list InstagramAccount :=
  [mkAccount "alice" "pa$$w0rd" (Some "http://proxy:8080") "data/sessions/alice_session.json"
     COOLDOWN (Some (mkDateTime 2024 8 5 15 29 7 123456)) 100 (95 # 1) 340 12 created0;
   sample_account "bob" CHALLENGE None 0 (1 # 2)].

(** The target lookup answers that the user does not exist. *)
Definition not_found_gateway : gateway :=
  mkGateway (fun _ => true) (fun _ => ClientOk)
    (fun _ => GErr "User not found") (fun _ => GErr "User not found")
    (fun _ => GOk 42)
    (fun _ => GOk []) (fun _ _ => GOk []) (fun _ => GOk []).

(** Both user lookups answer with a re-authentication-required error. *)
Definition login_required_lookup_gateway : gateway :=
  mkGateway (fun _ => true) (fun _ => ClientOk)
    (fun _ => GErr "login_required") (fun _ => GErr "login_required")
    (fun _ => GOk 42)
    (fun _ => GOk []) (fun _ _ => GOk []) (fun _ => GOk []).

(** The target is found, its stories call answers that the profile is private. *)
Definition private_stories_gateway : gateway :=
  mkGateway (fun _ => true) (fun _ => ClientOk)
    (fun _ => GOk 42) (fun _ => GOk 42) (fun _ => GOk 42)
    (fun _ => GErr "Profile is private") (fun _ _ => GOk []) (fun _ => GOk []).

(** A gateway whose feed call answers [feed_candidates] for any amount. *)
Definition feed_gateway : gateway :=
  mkGateway (fun _ => true) (fun _ => ClientOk)
    (fun _ => GOk 42) (fun _ => GOk 42) (fun _ => GOk 42)
    (fun _ => GOk []) (fun _ _ => GOk feed_candidates) (fun _ => GOk []).

(** The recency test of the loop of [_collect_feed_posts_safe]:
    [media.taken_at and media.taken_at >= twenty_four_hours_ago]. *)
Definition is_recent (twenty_four_hours_ago : Z) (m : media) : bool :=
  match media_taken_at m with
  | Some t => Z.leb twenty_four_hours_ago (to_us t)
  | None => false
  end.

Local Close Scope string_scope.

End Scenarios.

Import Scenarios.

(** ** Pool administration ([add_account], [remove_account],
    [_is_account_available_fallback], [get_pool_status]) *)

Module PoolAdmin.

Local Open Scope string_scope.

(** [os.path.join(a, b)] on POSIX. *)
Definition ends_with_slash (a : string) : bool :=
  match String.get (String.length a - 1) a with
  | Some c => Ascii.eqb c "/"%char
  | None => false
  end.

Definition os_path_join (a b : string) : string :=
  if prefix "/" b then b
  else if negb (truthy a) || ends_with_slash a then a ++ b
  else a ++ "/" ++ b.

(** The session directory of the settings ([SESSION_DIR]). *)
Definition default_session_dir : string := "data/sessions".

(** The account [add_account] builds: the fields it passes, the class
    defaults for the others. *)
Definition new_account (session_dir : string) (created_at_default : datetime)
    (u pw : string) (px : option string) : InstagramAccount :=
  mkAccount u pw px (os_path_join session_dir (u ++ "_session.json"))
    ACTIVE None 0 100 0 0 created_at_default.

(** [add_account]. When the login test fails, the [else] branch reads
    [sys], which the later [import sys] of the function makes a local that
    is not bound yet: the [UnboundLocalError] is caught and the result is
    [False] as well. *)
Definition add_account (session_dir : string) (created_at_default : datetime)
    (test_login : string -> login_outcome) (u pw : string) (px : option string)
    (p : pool) : bool * pool :=
  if existsb (fun acc => String.eqb (username acc) u) (accounts p) then (false, p)
  else
    let account := new_account session_dir created_at_default u pw px in
    let (ok, account) := _test_account_login test_login account in
    if ok then (true, _save_pool (mkPool (accounts p ++ [account]) (clients p) (saved p)))
    else (false, p).

(** [del self.accounts[i]] for the first [i] whose username matches. *)
Fixpoint remove_first (u : string) (l : list InstagramAccount)
  : option (list InstagramAccount) :=
  match l with
  | [] => None
  | a :: r =>
      if String.eqb (username a) u then Some r
      else option_map (cons a) (remove_first u r)
  end.

(** What [if os.path.exists(path): os.remove(path)] does to a session
    file: there is none, it is removed, or [os.remove] raises an [OSError]
    (a directory, a read-only folder, ...) with its message. *)
Inductive file_removal := NoSessionFile | SessionRemoved | RemoveFails (msg : string).

(** [remove_account]. [fs] gives what the disk does with each session
    file. The cached client is dropped first; an [OSError] of [os.remove]
    then leaves the account in the list and the pool unsaved. *)
Definition remove_account (fs : string -> file_removal) (u : string) : M bool :=
  p <- get ;;
  match find (fun acc => String.eqb (username acc) u) (accounts p), remove_first u (accounts p) with
  | Some account, Some accs =>
      modify (fun p => mkPool (accounts p) (filter (fun v => negb (String.eqb u v)) (clients p))
                              (saved p)) ;;;
      match fs (session_file account) with
      | RemoveFails msg => raise (OSError msg)
      | NoSessionFile | SessionRemoved =>
          modify (fun p => _save_pool (mkPool accs (clients p) (saved p))) ;;;
          ret true
      end
  | _, _ => ret false
  end.

Local Close Scope string_scope.

(** [_is_account_available_fallback]; [if account.last_used:] is the
    truthiness of a [datetime], always true. *)
Definition _is_account_available_fallback (settings : Settings) (now : datetime)
    (account : InstagramAccount) : bool :=
  if negb (AccountStatus_eqb (status account) ACTIVE) then false
  else if max_daily_operations_per_account settings <=? operations_today account then false
  else match last_used account with
       | Some lu =>
           if to_us now - to_us lu <? minutes_us (account_cooldown_minutes settings)
           then false else true
       | None => true
       end.

(** The members of [AccountStatus], in definition order. *)
Definition all_statuses : list AccountStatus :=
  [ACTIVE; COOLDOWN; DEAD; CHALLENGE; LOGIN_REQUIRED].

(** [get_pool_status]; the average health and the timestamp are not
    modelled. [acc.is_available()] never raises, so the fallback of the
    counting loop is not taken. *)
Record pool_status := mkPoolStatus {
  total_accounts : nat;
  available_accounts : nat;
  status_breakdown : list (string * nat);
  total_operations_today : Z }.

Definition get_pool_status (now : datetime) (p : pool) : pool_status :=
  let status_counts :=
    map (fun s => (status_value s,
                   List.length (filter (fun acc => AccountStatus_eqb (status acc) s)
                                       (accounts p))))
        all_statuses in
  let available_count :=
    fold_left (fun n acc => if is_available now acc then S n else n) (accounts p) O in
  mkPoolStatus (List.length (accounts p)) available_count status_counts
    (fold_left (fun s acc => s + operations_today acc) (accounts p) 0).

End PoolAdmin.

Import PoolAdmin.

(** ** Collection service ([app/core/collection_service.py]) *)

Module Service.

Local Open Scope string_scope.

(** [CollectionResult.error_message] as the text [collect_user_media]
    writes. The type name of [Erro inesperado na coleta] is not kept by
    [UnexpectedError]; that path is never taken. *)
Definition error_message_text (e : error_message) : string :=
  match e with
  | InvalidUsername => "Nome de usuário inválido"
  | NoAccountAvailable => "Nenhuma conta disponível no pool"
  | NoClient a => "Não foi possível obter cliente para " ++ a
  | UserNotFoundOrPrivate t => "Usuário " ++ t ++ " não encontrado ou perfil privado"
  | UserLookupError t m => "Erro ao buscar usuário " ++ t ++ ": " ++ m
  | ProfilePrivate t => "Perfil @" ++ t ++ " é privado"
  | RateLimitReached a => "Rate limit atingido para " ++ a
  | LoginRequiredFor a => "Login requerido para conta " ++ a
  | UnexpectedError m => "Erro inesperado na coleta: " ++ m
  end.

(** A converted media item ([_convert_media_item_safe]); [binary_data]
    holds the bytes of its base64 text, the file name and the metadata
    are not modelled. *)
Record api_item := mkItem {
  item_id : media_id;
  item_type : MediaType;
  item_size_bytes : Z;
  item_binary_data : list Byte.byte;
  item_binary_data_raw : bool }.

(** [_convert_media_item_safe] on a [MediaFile]: every attribute is
    present, so no default is used and the [except] is not taken. *)
Definition _convert_media_item_safe (mf : MediaFile) : api_item :=
  mkItem (mf_id mf) (mf_type mf) (Z.of_nat (size_bytes mf)) (binary_data mf)
    (0 <? List.length (binary_data mf))%nat.

(** [_calculate_statistics_safe]; [total_size_mb] is not modelled. *)
Record statistics := mkStatistics {
  total_files : nat;
  stories_count : nat;
  feed_posts_count : nat;
  total_size_bytes : Z }.

Definition _calculate_statistics_safe (stories feed_posts : list api_item) : statistics :=
  let total_size_bytes :=
    fold_left (fun t item => if Z.ltb 0 (item_size_bytes item) then (t + item_size_bytes item)%Z else t)
      (app stories feed_posts) 0%Z in
  mkStatistics (List.length stories + List.length feed_posts)
    (List.length stories) (List.length feed_posts) total_size_bytes.

(** The dictionaries the service returns; the timestamps are not modelled. *)
Inductive service_response :=
  | ErrorResponse (user : pyarg) (error : option string) (error_code : string)
  | SuccessResponse (user : pyarg) (account_used : option string)
      (stories feed_posts : list api_item) (stats : statistics).

(** [_create_error_response]. *)
Definition _create_error_response (user : pyarg) (error : option string) (code : string)
  : service_response :=
  ErrorResponse user error code.

(** [_build_success_response_safe]. *)
Definition _build_success_response_safe (result : CollectionResult) (user : pyarg)
  : service_response :=
  let stories := map _convert_media_item_safe (cr_stories result) in
  let feed_posts := map _convert_media_item_safe (cr_feed_posts result) in
  SuccessResponse user (cr_account_used result) stories feed_posts
    (_calculate_statistics_safe stories feed_posts).

(** The [except Exception] branch of [collect_user_content]: the error
    code chosen from the text of the exception. *)
Definition exception_response (user : pyarg) (e : exn) : service_response :=
  let error_message := lower (exn_str e) in
  if contains "login_required" error_message then
    _create_error_response user (Some "Todas as contas precisam de reautenticação")
      "LOGIN_REQUIRED"
  else if contains "rate limit" error_message || contains "too many requests" error_message then
    _create_error_response user
      (Some "Rate limit atingido. Tente novamente em alguns minutos") "RATE_LIMIT"
  else if contains "user not found" error_message || contains "doesn't exist" error_message then
    _create_error_response user (Some "Usuário não encontrado ou perfil privado")
      "USER_NOT_FOUND"
  else if contains "validation error" error_message || contains "pydantic" error_message then
    _create_error_response user
      (Some "Erro na estrutura de dados retornada pelo Instagram") "VALIDATION_ERROR"
  else if contains "buffer has been detached" error_message then
    _create_error_response user (Some "Erro no processamento de dados binários")
      "BUFFER_ERROR"
  else
    _create_error_response user (Some ("Erro interno: " ++ exn_str e)) "INTERNAL_ERROR".

(** [CollectionService.collect_user_content]. The pre-check counts the
    accounts whose status is ACTIVE. [collect_user_media] never returns
    [None] and raises no [KeyError] in this model, so those branches are
    not written. *)
Definition collect_user_content (gw : gateway) (settings : Settings) (now : datetime)
    (user : pyarg) (include_stories include_feed : bool) (max_feed_posts : Z)
  : M service_response :=
  p <- get ;;
  let available_accounts :=
    filter (fun acc => AccountStatus_eqb (status acc) ACTIVE) (accounts p) in
  if (List.length available_accounts =? 0)%nat then
    ret (_create_error_response user (Some "Nenhuma conta disponível no pool")
           "NO_ACCOUNTS_AVAILABLE")
  else
    step <- try_except
              (result <- collect_user_media gw settings now user include_stories include_feed
                           max_feed_posts ;;
               ret (inl result))
              (fun e => ret (inr (exception_response user e))) ;;
    match step with
    | inr response => ret response
    | inl result =>
        if negb (cr_success result) then
          ret (_create_error_response user (option_map error_message_text
                                              (cr_error_message result))
                 "COLLECTION_FAILED")
        else ret (_build_success_response_safe result user)
    end.

Local Close Scope string_scope.

End Service.

Import Service.

(** ** The collection route ([app/api/routes.py]) *)

Module Routes.

Local Open Scope string_scope.

(** The characters [str.strip] removes from an ASCII string. *)
Definition is_space (c : ascii) : bool :=
  let n := nat_of_ascii c in
  ((9 <=? n) && (n <=? 13) || (28 <=? n) && (n <=? 32))%nat.

Fixpoint lstrip_by (f : ascii -> bool) (s : string) : string :=
  match s with
  | EmptyString => EmptyString
  | String c r => if f c then lstrip_by f r else s
  end.

Fixpoint rstrip_by (f : ascii -> bool) (s : string) : string :=
  match s with
  | EmptyString => EmptyString
  | String c r =>
      match rstrip_by f r with
      | EmptyString => if f c then EmptyString else String c EmptyString
      | r' => String c r'
      end
  end.

(** [s.strip()]. *)
Definition strip (s : string) : string := rstrip_by is_space (lstrip_by is_space s).

(** [s.replace(c, '')] for a one-character [c]. *)
Fixpoint remove_char (c : ascii) (s : string) : string :=
  match s with
  | EmptyString => EmptyString
  | String d r => if Ascii.eqb d c then remove_char c r else String d (remove_char c r)
  end.

Definition is_alnum_char (c : ascii) : bool :=
  let n := nat_of_ascii c in
  ((48 <=? n) && (n <=? 57) || (65 <=? n) && (n <=? 90) || (97 <=? n) && (n <=? 122))%nat.

(** [s.isalnum()] on an ASCII string. *)
Fixpoint all_alnum (s : string) : bool :=
  match s with
  | EmptyString => true
  | String c r => is_alnum_char c && all_alnum r
  end.

Definition isalnum (s : string) : bool := truthy s && all_alnum s.

(** The ASCII strings, on which [str.strip], [str.lower] and
    [str.isalnum] are the functions above. *)
Definition is_ascii (s : string) : bool :=
  forallb (fun c => (nat_of_ascii c <? 128)%nat) (list_ascii_of_string s).

(** The two checks of the route on the [username] path parameter: the
    detail of the 400 answer, or the cleaned username. The functions above
    are Python's [str] methods on ASCII strings ([is_ascii]); on other
    strings Python uses the Unicode tables (it accepts ["josé"], for
    instance), which this model does not cover. *)
Definition check_username (username : string) : string + string :=
  if negb (truthy username) || negb (truthy (strip username)) then
    inl "Username é obrigatório"
  else
    let clean_username := lstrip_by (Ascii.eqb "@"%char) (lower (strip username)) in
    if negb (isalnum (remove_char "." (remove_char "_" clean_username))) then
      inl "Username contém caracteres inválidos"
    else inr clean_username.

(** The HTTP status the route gives to a failed collection, from its
    [error] text. *)
Definition http_status_of_error (error_msg : string) : Z :=
  let m := lower error_msg in
  if contains "não encontrado" m then 404
  else if contains "privado" m then 403
  else if contains "rate limit" m then 429
  else if contains "nenhuma conta" m then 503
  else 422.

(** What the route answers: an [HTTPException], or the service's
    successful response. *)
Inductive route_result :=
  | HTTPError (status_code : Z) (detail : string)
  | RouteOk (response : service_response).

(** [convert_collection_result_to_response] on a successful response, as
    the route's [try] sees it. Each item's [binary_data] is the base64
    text ([str]) built by [_convert_media_item_safe]; [base64.b64encode] on
    a [str] raises [TypeError], which the route turns into a 500. With no
    item, the response model is built. *)
Definition convert_collection_result_to_response (result : service_response)
    (stories feed_posts : list api_item) : M route_result :=
  match app stories feed_posts with
  | [] => ret (RouteOk result)
  | _ :: _ =>
      ret (HTTPError 500
             "Erro interno do servidor: a bytes-like object is required, not 'str'")
  end.

(** The route [collect_user_content]; [max_feed_posts] has passed the
    query validation [1 <= max_feed_posts <= 50]. *)
Definition route_collect (gw : gateway) (settings : Settings) (now : datetime)
    (username : string) (include_stories include_feed : bool) (max_feed_posts : Z)
  : M route_result :=
  match check_username username with
  | inl detail => ret (HTTPError 400 detail)
  | inr clean_username =>
      p <- get ;;
      if (available_accounts (get_pool_status now p) =? 0)%nat then
        ret (HTTPError 503
               "Nenhuma conta disponível no pool. Tente novamente em alguns minutos.")
      else
        result <- collect_user_content gw settings now (PyStr clean_username)
                    include_stories include_feed max_feed_posts ;;
        match result with
        | ErrorResponse _ (Some error_msg) _ =>
            ret (HTTPError (http_status_of_error error_msg) error_msg)
        | ErrorResponse _ None _ =>
            (* [None.lower()] raises [AttributeError], caught as a 500. *)
            ret (HTTPError 500 "Erro interno do servidor: 'NoneType' object has no attribute 'lower'")
        | SuccessResponse _ _ stories feed_posts _ =>
            convert_collection_result_to_response result stories feed_posts
        end
  end.

Local Close Scope string_scope.

End Routes.

Import Routes.

(** ** Predicates on computations and pools *)

Module Invariants.

(** Computations that leave the pool as they found it. *)
Definition pure_state {A} (m : M A) : Prop := forall p, snd (m p) = p.

(** A computation relates, by [R], every pool to the pool it leaves. *)
Definition keeps (R : pool -> pool -> Prop) {A} (m : M A) : Prop :=
  forall p, R p (snd (m p)).

(** Every value a computation returns satisfies [Q]. *)
Definition post_ok {A} (Q : A -> Prop) (m : M A) : Prop :=
  forall p a p', m p = (Ret a, p') -> Q a.

(** The accounts other than the one at position [i] are left as they are. *)
Definition frame_except (i : nat) (p p' : AccountPool.pool) : Prop :=
  List.length (accounts p') = List.length (accounts p)
  /\ forall j, j <> i -> nth_error (accounts p') j = nth_error (accounts p) j.

(** Every account of the pool has its health in [0, 100]. *)
Definition health_ok (p : AccountPool.pool) : Prop :=
  forall acc, In acc (accounts p) -> (0 <= health_score acc <= 100)%Q.

(** A file built from downloaded bytes: its size is the number of bytes. *)
Definition file_ok (f : MediaFile) : Prop := size_bytes f = List.length (binary_data f).

(** The characters of a username the route accepts, once lowered:
    [a-z], [0-9], [_] and [.]. *)
Definition user_char (c : ascii) : bool :=
  let n := nat_of_ascii c in
  ((97 <=? n) && (n <=? 122) || (48 <=? n) && (n <=? 57))%nat
  || Ascii.eqb c "_"%char || Ascii.eqb c "."%char.

End Invariants.

Import Invariants.

(** ** Further scenarios *)

Module MoreScenarios.

(** Every login attempt asks for a challenge. *)
Definition challenge_gateway : gateway :=
  mkGateway (fun _ => true) (fun _ => ClientChallenge)
    (fun _ => GOk 42) (fun _ => GOk 42) (fun _ => GOk 42)
    (fun _ => GOk []) (fun _ _ => GOk []) (fun _ => GOk []).

(** A target with three stories (an image, an empty video, an unsupported
    type) and two recent posts (an image and a two-item carousel). *)
Definition media_gateway : gateway :=
  mkGateway (fun _ => true) (fun _ => ClientOk)
    (fun _ => GOk 42) (fun _ => GOk 42) (fun _ => GOk 42)
    (fun _ => GOk [mkStory 11 1 None; mkStory 12 2 None; mkStory 13 3 None])
    (fun _ _ => GOk [mkMedia 21 1 (Some (at_time 2024 8 5 12 0)) [];
                     mkMedia 22 8 (Some (at_time 2024 8 5 11 0))
                       [mkResource 31 1; mkResource 32 2]])
    (fun pk => if pk =? 12 then GOk [] else GOk [Byte.x01; Byte.x02; Byte.x03]).

End MoreScenarios.

Import MoreScenarios.

(** * Theorems *)

(** ** Helper lemmas *)

Section QLemmas.
Local Open Scope Q_scope.

Lemma py_min_Qmin (a b : Q) : py_min a b = Qmin a b.
Proof.
  unfold py_min, Qmin, GenericMinMax.gmin.
  destruct (Qle_bool a b) eqn:E; simpl.
  - apply Qle_bool_iff in E; rewrite Qle_alt in E. destruct (a ?= b); congruence.
  - assert (N : ~ a <= b) by (intro H; apply Qle_bool_iff in H; congruence).
    rewrite Qle_alt in N. destruct (a ?= b); try reflexivity; exfalso; apply N; discriminate.
Qed.

Lemma py_max_Qmax (a b : Q) : py_max a b = Qmax a b.
Proof.
  unfold py_max, Qmax, GenericMinMax.gmax.
  destruct (Qle_bool b a) eqn:E; simpl.
  - apply Qle_bool_iff in E.
    destruct (a ?= b) eqn:C; try reflexivity.
    apply Qlt_alt in C. exfalso. apply (Qlt_not_le a b); assumption.
  - assert (N : ~ b <= a) by (intro H; apply Qle_bool_iff in H; congruence).
    apply Qnot_le_lt in N. rewrite Qlt_alt in N.
    destruct (a ?= b); congruence.
Qed.

Lemma health_score_mark_account_used_acc settings now success acc :
  health_score (mark_account_used_acc settings now success acc)
  = health_score (update_health_score acc success).
Proof.
  unfold mark_account_used_acc.
  destruct success; simpl;
    destruct (_ <=? _); reflexivity.
Qed.

Lemma Qmax_step (h : Q) (z : Z) :
  h == inject_Z z -> Qmax 0 (h - 5) == inject_Z (Z.max 0 (z - 5)).
Proof.
  intro H.
  assert (E : h - 5 == inject_Z (z - 5)).
  { rewrite H. unfold Z.sub. rewrite inject_Z_plus. reflexivity. }
  destruct (Z.max_spec 0 (z - 5)) as [[Hlt Hm] | [Hle Hm]]; rewrite Hm.
  - rewrite Q.max_r; [exact E |].
    rewrite E. change 0 with (inject_Z 0). rewrite <- Zle_Qle. lia.
  - rewrite Q.max_l; [reflexivity |].
    rewrite E. change 0 with (inject_Z 0). rewrite <- Zle_Qle. lia.
Qed.

End QLemmas.

Lemma nth_error_replace_nth_same {A} (l : list A) i x y :
  nth_error l i = Some y -> nth_error (replace_nth l i x) i = Some x.
Proof.
  revert i; induction l as [| a l IH]; intros [| i] H; simpl in *; try discriminate.
  - reflexivity.
  - apply IH; assumption.
Qed.

Lemma nth_error_replace_nth_other {A} (l : list A) i j x :
  j <> i -> nth_error (replace_nth l i x) j = nth_error l j.
Proof.
  revert i j; induction l as [| a l IH]; intros [| i] [| j] H; simpl; try reflexivity.
  - congruence.
  - apply IH. lia.
Qed.

(** ** C5: the health-score rule *)

(** C5. On success the health score becomes [min(100, h + 1)] and
    [total_errors] is unchanged; on failure it becomes [max(0, h - 5)] and
    [total_errors] grows by one. Starting from 100, after [N] failed
    [mark_account_used] calls the health score is [max(0, 100 - 5N)]. *)
Theorem health_score_update_rule :
  forall (settings : Settings) (now : datetime) (acc : InstagramAccount) (N : nat),
    health_score (update_health_score acc true) = Qmin 100 (health_score acc + 1)
    /\ total_errors (update_health_score acc true) = total_errors acc
    /\ health_score (update_health_score acc false) = Qmax 0 (health_score acc - 5)
    /\ total_errors (update_health_score acc false) = total_errors acc + 1
    /\ (health_score
          (Nat.iter N (mark_account_used_acc settings now false) (set_health acc 100))
        == inject_Z (Z.max 0 (100 - 5 * Z.of_nat N)))%Q.
Proof.
  intros settings now acc N.
  split; [apply py_min_Qmin |].
  split; [reflexivity |].
  split; [apply py_max_Qmax |].
  split; [reflexivity |].
  induction N as [| N IH].
  - reflexivity.
  - simpl Nat.iter.
    rewrite health_score_mark_account_used_acc. simpl health_score.
    rewrite py_max_Qmax.
    rewrite (Qmax_step _ _ IH).
    apply inject_Z_injective. lia.
Qed.

(** ** C6: [mark_account_used] *)

(** C6. [mark_account_used] on the account at position [i] sets
    [last_used] to now, adds one to [operations_today] and to
    [total_operations], applies [update_health_score], moves the account to
    COOLDOWN when [operations_today] reaches the daily limit, leaves the
    other accounts alone and writes the pool file. *)
Theorem mark_account_used_effects :
  forall (settings : Settings) (now : datetime) (i : nat) (success : bool)
         (p : AccountPool.pool) (acc : InstagramAccount),
    nth_error (accounts p) i = Some acc ->
    let p' := mark_account_used settings now i success p in
    exists acc',
      nth_error (accounts p') i = Some acc'
      /\ last_used acc' = Some now
      /\ operations_today acc' = operations_today acc + 1
      /\ total_operations acc' = total_operations acc + 1
      /\ health_score acc' = health_score (update_health_score acc success)
      /\ total_errors acc' = total_errors (update_health_score acc success)
      /\ status acc' = (if max_daily_operations_per_account settings
                              <=? operations_today acc + 1
                        then COOLDOWN else status acc)
      /\ (forall j, j <> i -> nth_error (accounts p') j = nth_error (accounts p) j)
      /\ saved p' = saved p ++ [accounts p'].
Proof.
  intros settings now i success p acc Hacc p'.
  exists (mark_account_used_acc settings now success acc).
  unfold p', mark_account_used, update_account. rewrite Hacc. simpl.
  split; [eapply nth_error_replace_nth_same; eassumption |].
  unfold mark_account_used_acc.
  destruct success; simpl;
    destruct (max_daily_operations_per_account settings <=? operations_today acc + 1);
    simpl; repeat split; try reflexivity;
    intros j Hj; apply nth_error_replace_nth_other; assumption.
Qed.

Lemma mark_account_used_effects_witness :
  nth_error (accounts (pool_of [fresh_account])) 0 = Some fresh_account
  /\ exists acc',
       nth_error (accounts (mark_account_used default_settings now0 0 false
                              (pool_of [fresh_account]))) 0 = Some acc'
       /\ last_used acc' = Some now0.
Proof.
  split; [reflexivity |].
  destruct (mark_account_used_effects default_settings now0 0 false
              (pool_of [fresh_account]) fresh_account eq_refl)
    as [acc' [H1 [H2 _]]].
  exists acc'. split; assumption.
Defined.

(** ** C1: no ineligible account is handed out *)

(** C1 (code_bug). The only account of the pool is ACTIVE but was used one
    minute ago, so [is_available] rejects it; [get_available_account]
    returns it anyway through its "force an ACTIVE account" fallback. *)
Theorem get_available_account_fallback_ineligible :
  is_available now0 cooling_account = false
  /\ available_from now0 0 [cooling_account] = []
  /\ get_available_account_obj default_settings now0 (pool_of [cooling_account])
     = Some cooling_account.
Proof. repeat split; vm_compute; reflexivity. Qed.

(** ** C10: an invalid username touches nothing *)

(** C10. With an empty or non-[str] username, [collect_user_media] returns
    a failed result and the pool comes back unchanged: no account chosen,
    no account field changed, no write of the pool file. *)
Theorem collect_user_media_invalid_username_frame :
  forall (gw : gateway) (settings : Settings) (now : datetime) (user : pyarg)
         (include_stories include_feed : bool) (max_feed_posts : Z)
         (p : AccountPool.pool),
    (user = PyStr EmptyString \/ exists b, user = PyOther b) ->
    exists r,
      collect_user_media gw settings now user include_stories include_feed
        max_feed_posts p = (Ret r, p)
      /\ cr_success r = false.
Proof.
  intros gw settings now user st fd mx p H.
  exists (failed user None InvalidUsername). split; [| reflexivity].
  destruct H as [-> | [b ->]]; reflexivity.
Qed.

Lemma collect_user_media_invalid_username_frame_witness :
  (PyStr EmptyString = PyStr EmptyString
   \/ exists b, PyStr EmptyString = PyOther b)
  /\ exists r,
      collect_user_media ok_gateway default_settings now0 (PyStr EmptyString)
        true true 10 (pool_of [fresh_account])
      = (Ret r, pool_of [fresh_account])
      /\ cr_success r = false.
Proof.
  split; [left; reflexivity |].
  apply collect_user_media_invalid_username_frame. left; reflexivity.
Defined.

(** ** C2: the score and the choice among eligible accounts *)

Section MaxBy.
Local Open Scope Q_scope.
Context {A : Type} (key : A -> Q).



End MaxBy.

Lemma available_from_spec (now : datetime) (l : list InstagramAccount) (k i : nat)
    (acc : InstagramAccount) :
  In (i, acc) (available_from now k l)
  <-> exists j, i = (k + j)%nat /\ nth_error l j = Some acc /\ is_available now acc = true.
Proof.
  revert k; induction l as [| a l IH]; intro k; simpl.
  - split; [tauto |]. intros [[| j] [_ [H _]]]; discriminate.
  - destruct (is_available now a) eqn:Ha; simpl; rewrite ?IH; split.
    + intros [H | [j [-> [Hj Hv]]]].
      * injection H as <- <-. exists O. repeat split; [lia | assumption].
      * exists (S j). repeat split; [lia | assumption | assumption].
    + intros [[| j] [-> [Hj Hv]]]; simpl in Hj.
      * injection Hj as <-. left. f_equal. lia.
      * right. exists j. repeat split; [lia | assumption | assumption].
    + intros [j [-> [Hj Hv]]]. exists (S j). repeat split; [lia | assumption | assumption].
    + intros [[| j] [-> [Hj Hv]]]; simpl in Hj.
      * injection Hj as <-. congruence.
      * exists j. repeat split; [lia | assumption | assumption].
Qed.





(** ** C7: the feed window and the recency scan *)

Lemma collect_feed_posts_safe_eq (gw : gateway) (now : datetime) (user_id max_posts : Z)
    (p : AccountPool.pool) :
  _collect_feed_posts_safe gw now user_id max_posts p
  = (Ret (scan_recent max_posts (to_us now - hours_us 24) 0
            (match gw_user_medias gw user_id (Z.min (max_posts * 5) 50) with
             | GOk l => l
             | GErr _ => []
             end)), p).
Proof.
  unfold _collect_feed_posts_safe, try_except, bind, _random_delay, ret.
  destruct (gw_user_medias gw user_id (Z.min (max_posts * 5) 50)) as [l |]; [| reflexivity].
  destruct l; reflexivity.
Qed.

Lemma scan_recent_spec (max_posts thr : Z) (l : list media) (count : Z) :
  0 <= count < max_posts ->
  exists rest,
    l = scan_recent max_posts thr count l ++ rest
    /\ Forall (fun m => is_recent thr m = true) (scan_recent max_posts thr count l)
    /\ count + Z.of_nat (List.length (scan_recent max_posts thr count l)) <= max_posts
    /\ (count + Z.of_nat (List.length (scan_recent max_posts thr count l)) < max_posts ->
        match rest with [] => True | m :: _ => is_recent thr m = false end).
Proof.
  revert count; induction l as [| m r IH]; intros count Hc; simpl.
  - exists []. repeat split; [constructor | lia].
  - idtac.
    destruct (media_taken_at m) as [t |] eqn:Ht.
    2: { exists (m :: r). simpl. repeat split; [constructor | lia |].
         intros _. unfold is_recent. rewrite Ht. reflexivity. }
    destruct (thr <=? to_us t) eqn:Hthr.
    2: { exists (m :: r). simpl. repeat split; [constructor | lia |].
         intros _. unfold is_recent. rewrite Ht. exact Hthr. }
    assert (Hm : is_recent thr m = true) by (unfold is_recent; rewrite Ht; exact Hthr).
    destruct (max_posts <=? count + 1) eqn:Hmax.
    + apply Z.leb_le in Hmax. exists r. simpl.
      repeat split; [constructor; [exact Hm | constructor] | lia | lia].
    + apply Z.leb_gt in Hmax.
      destruct (IH (count + 1) ltac:(lia)) as [rest [Hl [Hf [Hlen Hstop]]]].
      exists rest. cbn [List.length]. rewrite Nat2Z.inj_succ.
      repeat split.
      * simpl. f_equal. exact Hl.
      * constructor; assumption.
      * lia.
      * intro H. apply Hstop. lia.
Qed.

Lemma scan_recent_prefix (max_posts thr count : Z) (pre : list media) (m : media)
    (rest : list media) :
  Forall (fun x => is_recent thr x = true) pre ->
  is_recent thr m = false ->
  count + Z.of_nat (List.length pre) < max_posts ->
  scan_recent max_posts thr count (pre ++ m :: rest) = pre.
Proof.
  revert count; induction pre as [| x pre IH]; intros count Hpre Hm Hlen; simpl.
  - unfold is_recent in Hm. destruct (media_taken_at m); [rewrite Hm |]; reflexivity.
  - inversion Hpre as [| ? ? Hx Hpre']; subst.
    cbn [List.length] in Hlen. rewrite Nat2Z.inj_succ in Hlen.
    unfold is_recent in Hx. destruct (media_taken_at x) as [t |]; [| discriminate].
    rewrite Hx.
    destruct (max_posts <=? count + 1) eqn:Hmax; [apply Z.leb_le in Hmax; lia |].
    f_equal. apply IH; [assumption | assumption | lia].
Qed.

(** C7. [_collect_feed_posts_safe] asks the platform for
    [min(max_posts * 5, 50)] posts, and returns the longest run of recent
    posts (taken at most 24 hours ago) at the head of the answer, cut at
    [max_posts]: the posts returned are a prefix of the answer, all recent,
    at most [max_posts] of them, and when fewer the next post is not recent.
    With 50 candidates whose 7th is 25 hours old, exactly the first six are
    kept. [max_posts] is at least 1, the bound the API route enforces. *)
Theorem feed_posts_window_and_recency :
  (forall (gw : gateway) (now : datetime) (user_id max_posts : Z) (p : AccountPool.pool),
     1 <= max_posts ->
     let all_medias :=
       match gw_user_medias gw user_id (Z.min (max_posts * 5) 50) with
       | GOk l => l
       | GErr _ => []
       end in
     exists kept rest,
       _collect_feed_posts_safe gw now user_id max_posts p = (Ret kept, p)
       /\ all_medias = kept ++ rest
       /\ Forall (fun m => is_recent (to_us now - hours_us 24) m = true) kept
       /\ Z.of_nat (List.length kept) <= max_posts
       /\ (Z.of_nat (List.length kept) < max_posts ->
           match rest with [] => True | m :: _ => is_recent (to_us now - hours_us 24) m = false end))
  /\ (forall (gw : gateway) (max_posts : Z) (p : AccountPool.pool),
        10 <= max_posts ->
        gw_user_medias gw 42 50 = GOk feed_candidates ->
        List.length feed_candidates = 50%nat
        /\ is_recent (to_us now0 - hours_us 24) (nth 6 feed_candidates (post_at 0 now0)) = false
        /\ _collect_feed_posts_safe gw now0 42 max_posts p
           = (Ret (firstn 6 feed_candidates), p)).
Proof.
  split.
  - intros gw now user_id max_posts p Hmax all_medias.
    destruct (scan_recent_spec max_posts (to_us now - hours_us 24) all_medias 0 ltac:(lia))
      as [rest [Hl [Hf [Hlen Hstop]]]].
    exists (scan_recent max_posts (to_us now - hours_us 24) 0 all_medias), rest.
    split; [apply collect_feed_posts_safe_eq |].
    split; [exact Hl |]. split; [exact Hf |]. split; [lia |].
    intro H. apply Hstop. lia.
  - intros gw max_posts p Hmax Hgw.
    split; [reflexivity |]. split; [vm_compute; reflexivity |].
    rewrite collect_feed_posts_safe_eq.
    replace (Z.min (max_posts * 5) 50) with 50 by lia.
    rewrite Hgw. do 2 f_equal.
    assert (Hsplit : feed_candidates
      = app (firstn 6 feed_candidates)
            (post_at 7 (at_time 2024 8 4 14 30) :: skipn 7 feed_candidates))
      by reflexivity.
    rewrite Hsplit at 1.
    apply scan_recent_prefix.
    + apply Forall_forall. apply forallb_forall. vm_compute. reflexivity.
    + vm_compute. reflexivity.
    + simpl. lia.
Qed.

Lemma feed_posts_window_and_recency_witness :
  10 <= 10
  /\ gw_user_medias feed_gateway 42 50 = GOk feed_candidates
  /\ _collect_feed_posts_safe feed_gateway now0 42 10 (pool_of [])
     = (Ret (firstn 6 feed_candidates), pool_of []).
Proof.
  split; [lia |]. split; [reflexivity |].
  apply (proj2 feed_posts_window_and_recency feed_gateway 10 (pool_of [])); [lia | reflexivity].
Defined.

(** ** C8: the daily reset of [health_check] *)

Lemma nth_error_health_check (settings : Settings) (now : datetime)
    (test_login : string -> login_outcome) (p : AccountPool.pool) (i : nat) :
  nth_error (accounts (health_check settings now test_login p)) i
  = option_map (health_check_account settings now test_login) (nth_error (accounts p) i).
Proof. unfold health_check, _save_pool. simpl. apply nth_error_map. Qed.

Lemma health_check_account_reset (settings : Settings) (now : datetime)
    (test_login : string -> login_outcome) (acc : InstagramAccount) (lu : datetime) :
  last_used acc = Some lu ->
  date_lt lu now = true ->
  operations_today (health_check_account settings now test_login acc) = 0
  /\ last_used (health_check_account settings now test_login acc) = Some lu
  /\ (status acc = COOLDOWN \/ status acc = ACTIVE ->
      status (health_check_account settings now test_login acc) = ACTIVE).
Proof.
  destruct acc as [u pw px sf st lu0 ops h tops terr cr]; simpl.
  intros Hlu Hlt; subst lu0.
  unfold health_check_account; simpl. rewrite Hlt.
  destruct st; simpl;
    try (split; [reflexivity | split; [reflexivity | intros [H | H]; discriminate H]]);
    try (split; [reflexivity | split; [reflexivity | intros _; reflexivity]]).
  - destruct (Qlt_le_dec 50 h); [| simpl; split; [reflexivity | split; [reflexivity |]];
      intros [H | H]; discriminate H].
    unfold _test_account_login; simpl.
    destruct (test_login u); simpl;
      (split; [reflexivity | split; [reflexivity | intros [H | H]; discriminate H]]).
  - destruct (Qlt_le_dec 50 h); [| simpl; split; [reflexivity | split; [reflexivity |]];
      intros [H | H]; discriminate H].
    unfold _test_account_login; simpl.
    destruct (test_login u); simpl;
      (split; [reflexivity | split; [reflexivity | intros [H | H]; discriminate H]]).
Qed.

(** C8. After one [health_check], every account whose last use falls on a
    calendar day before today has [operations_today = 0] and, if it was in
    COOLDOWN, is ACTIVE again; in particular an account at the daily limit
    of 100 operations, last used yesterday, ACTIVE or COOLDOWN and past the
    120-minute cooldown window, is available afterwards. *)
Theorem health_check_daily_reset :
  (forall (settings : Settings) (now : datetime) (test_login : string -> login_outcome)
          (p : AccountPool.pool) (i : nat) (acc : InstagramAccount) (lu : datetime),
     nth_error (accounts p) i = Some acc ->
     last_used acc = Some lu ->
     date_lt lu now = true ->
     exists acc',
       nth_error (accounts (health_check settings now test_login p)) i = Some acc'
       /\ operations_today acc' = 0
       /\ (status acc = COOLDOWN -> status acc' = ACTIVE))
  /\ (forall (settings : Settings) (now : datetime) (test_login : string -> login_outcome)
             (p : AccountPool.pool) (i : nat) (acc : InstagramAccount) (lu : datetime),
        nth_error (accounts p) i = Some acc ->
        last_used acc = Some lu ->
        date_lt lu now = true ->
        operations_today acc = 100 ->
        (status acc = ACTIVE \/ status acc = COOLDOWN) ->
        minutes_us 120 <= to_us now - to_us lu ->
        is_available now acc = false
        /\ exists acc',
             nth_error (accounts (health_check settings now test_login p)) i = Some acc'
             /\ is_available now acc' = true).
Proof.
  split.
  - intros settings now test_login p i acc lu Hi Hlu Hlt.
    exists (health_check_account settings now test_login acc).
    rewrite nth_error_health_check, Hi.
    destruct (health_check_account_reset settings now test_login acc lu Hlu Hlt)
      as [Hops [_ Hst]].
    split; [reflexivity |]. split; [exact Hops |].
    intro H. apply Hst. left. exact H.
  - intros settings now test_login p i acc lu Hi Hlu Hlt Hops Hst Hwin.
    split.
    + unfold is_available. rewrite Hops.
      destruct Hst as [Hst | Hst]; rewrite Hst; simpl; [| reflexivity].
      rewrite Hlu. destruct (to_us now - to_us lu <? minutes_us 120); reflexivity.
    + exists (health_check_account settings now test_login acc).
      rewrite nth_error_health_check, Hi.
      split; [reflexivity |].
      destruct (health_check_account_reset settings now test_login acc lu Hlu Hlt)
        as [Hops' [Hlu' Hst']].
      unfold is_available. rewrite Hops', Hlu', Hst' by (destruct Hst; auto).
      simpl.
      replace (to_us now - to_us lu <? minutes_us 120) with false
        by (symmetry; apply Z.ltb_ge; exact Hwin).
      reflexivity.
Qed.

Lemma health_check_daily_reset_witness :
  let acc := sample_account "daily" COOLDOWN (Some (at_time 2024 8 4 10 0)) 100 (80 # 1) in
  nth_error (accounts (pool_of [acc])) 0%nat = Some acc
  /\ is_available now0 acc = false
  /\ exists acc',
       nth_error (accounts (health_check default_settings now0 (fun _ => LoginOk) (pool_of [acc]))) 0%nat
       = Some acc'
       /\ is_available now0 acc' = true.
Proof.
  intro acc.
  split; [reflexivity |].
  apply (proj2 health_check_daily_reset default_settings now0 (fun _ => LoginOk)
           (pool_of [acc]) 0%nat acc (at_time 2024 8 4 10 0));
    [reflexivity | reflexivity | vm_compute; reflexivity | reflexivity
    | right; reflexivity | vm_compute; discriminate].
Defined.

(** ** C3 and C4: the exceptions that [collect_user_media] handles *)

Lemma noraise_ret {A} (a : A) : noraise (ret a).
Proof. intro p. exists a, p. reflexivity. Qed.

Lemma noraise_get : noraise get.
Proof. intro p. exists p, p. reflexivity. Qed.

Lemma noraise_modify (f : AccountPool.pool -> AccountPool.pool) : noraise (modify f).
Proof. intro p. exists tt, (f p). reflexivity. Qed.

Lemma noraise_bind {A B} (m : M A) (k : A -> M B) :
  noraise m -> (forall a, noraise (k a)) -> noraise (bind m k).
Proof.
  intros Hm Hk p. unfold bind. destruct (Hm p) as [a [p' E]]. rewrite E. apply Hk.
Qed.

Lemma noraise_try_handler {A} (m : M A) (h : exn -> M A) :
  (forall e, noraise (h e)) -> noraise (try_except m h).
Proof.
  intros Hh p. unfold try_except.
  destruct (m p) as [[a | e] p']; [exists a, p'; reflexivity | apply Hh].
Qed.

Lemma noraise_try_body {A} (m : M A) (h : exn -> M A) :
  noraise m -> noraise (try_except m h).
Proof.
  intros Hm p. unfold try_except. destruct (Hm p) as [a [p' E]]. rewrite E.
  exists a, p'. reflexivity.
Qed.

Lemma available_from_nil (now : datetime) (k : nat) (l : list InstagramAccount) :
  available_from now k l = [] <-> forall acc, In acc l -> is_available now acc = false.
Proof.
  revert k; induction l as [| a l IH]; intro k; simpl; [split; [tauto | reflexivity] |].
  destruct (is_available now a) eqn:E.
  - split; [discriminate | intro H; rewrite (H a (or_introl eq_refl)) in E; discriminate].
  - rewrite IH. split.
    + intros H acc [<- | Hin]; [exact E | apply H, Hin].
    + intros H acc Hin. apply H. right. exact Hin.
Qed.

Lemma selection_raises_spec (settings : Settings) (now : datetime) (p : AccountPool.pool) :
  selection_raises settings now p = true
  <-> max_daily_operations_per_account settings = 0%Z
      /\ exists acc, In acc (accounts p) /\ is_available now acc = true.
Proof.
  unfold selection_raises. destruct (available_from now 0 (accounts p)) as [| a r] eqn:Ea.
  - split; [discriminate |]. intros [_ [acc [Hin Hv]]].
    rewrite (proj1 (available_from_nil now 0 (accounts p)) Ea acc Hin) in Hv. discriminate.
  - rewrite Z.eqb_eq. split; [intro H; split; [exact H |] | intros [H _]; exact H].
    destruct (existsb (is_available now) (accounts p)) eqn:Ex.
    + apply existsb_exists in Ex. exact Ex.
    + exfalso.
      assert (Hn : available_from now 0 (accounts p) = []).
      { apply available_from_nil. intros acc Hin.
        destruct (is_available now acc) eqn:Hv; [| reflexivity].
        assert (Ht : existsb (is_available now) (accounts p) = true)
          by (apply existsb_exists; exists acc; split; assumption).
        congruence. }
      congruence.
Qed.

Lemma selection_raises_nonzero (settings : Settings) (now : datetime) (p : AccountPool.pool) :
  max_daily_operations_per_account settings <> 0%Z -> selection_raises settings now p = false.
Proof.
  intro H. unfold selection_raises.
  destruct (available_from now 0 (accounts p)); [reflexivity | apply Z.eqb_neq; exact H].
Qed.

Ltac noraise_tac :=
  match goal with
  | |- noraise (ret _) => apply noraise_ret
  | |- noraise get => apply noraise_get
  | |- noraise (modify _) => apply noraise_modify
  | |- noraise (bind _ _) => apply noraise_bind; [noraise_tac | intro; noraise_tac]
  | |- noraise (try_except _ _) =>
      first [ apply noraise_try_handler; intro; solve [noraise_tac]
            | apply noraise_try_body; noraise_tac ]
  | H : max_daily_operations_per_account ?s <> 0%Z
    |- noraise (if selection_raises ?s ?n ?q then _ else _) =>
      rewrite (selection_raises_nonzero s n q H); noraise_tac
  | |- noraise (if ?b then _ else _) => destruct b; noraise_tac
  | |- noraise (match ?x with _ => _ end) => destruct x; noraise_tac
  | |- noraise (let _ := _ in _) => cbv zeta; noraise_tac
  | |- noraise _ => progress unfold _random_delay, get_client; noraise_tac
  end.

Lemma collect_user_media_noraise (gw : gateway) (settings : Settings) (now : datetime)
    (user : pyarg) (include_stories include_feed : bool) (max_feed_posts : Z) :
  max_daily_operations_per_account settings <> 0%Z ->
  noraise (collect_user_media gw settings now user include_stories include_feed max_feed_posts).
Proof. intro Hz. unfold collect_user_media. cbv zeta. noraise_tac. Qed.

(** With a daily limit of 0 and an available account, [collect_user_media]
    raises [ZeroDivisionError] before it touches the pool. *)
Lemma collect_user_media_zero_limit (gw : gateway) (settings : Settings) (now : datetime)
    (u : string) (include_stories include_feed : bool) (max_feed_posts : Z)
    (p : AccountPool.pool) :
  max_daily_operations_per_account settings = 0%Z ->
  (exists acc, In acc (accounts p) /\ is_available now acc = true) ->
  truthy u = true ->
  collect_user_media gw settings now (PyStr u) include_stories include_feed max_feed_posts p
  = (Raise (ZeroDivisionError "division by zero"%string), p).
Proof.
  intros Hz Hacc Hu. unfold collect_user_media, valid_username. rewrite Hu.
  unfold bind at 1, get. cbv beta iota.
  rewrite (proj2 (selection_raises_spec settings now p) (conj Hz Hacc)). reflexivity.
Qed.

(** C3 (code_bug). No exception leaves [collect_user_media] while the
    daily limit is not 0; with a limit of 0 and an available account, the
    [ZeroDivisionError] of [calculate_score] leaves it. And an
    explicit re-authentication-required answer does not end the run as a
    failure that puts the account in an error status. Raised by the stories
    call, the [LoginRequired] is swallowed by [_collect_stories_safe]: the
    run succeeds, the outcome is a success, the account stays ACTIVE.
    Answered by the user lookup, it is turned into a plain [Exception]: the
    run fails as a lookup error, and the account, outcome failure, stays
    ACTIVE. The outer [except LoginRequired] handler, which would set the
    non-existent [AccountStatus.ERROR], is never reached. *)
Theorem collect_user_media_login_required_not_terminal :
  (forall (gw : gateway) (settings : Settings) (now : datetime) (user : pyarg)
          (include_stories include_feed : bool) (max_feed_posts : Z) (p : AccountPool.pool),
     max_daily_operations_per_account settings <> 0%Z ->
     exists r p',
       collect_user_media gw settings now user include_stories include_feed max_feed_posts p
       = (Ret r, p'))
  /\ (forall (gw : gateway) (settings : Settings) (now : datetime) (u : string)
             (include_stories include_feed : bool) (max_feed_posts : Z) (p : AccountPool.pool),
        max_daily_operations_per_account settings = 0%Z ->
        (exists acc, In acc (accounts p) /\ is_available now acc = true) ->
        truthy u = true ->
        collect_user_media gw settings now (PyStr u) include_stories include_feed max_feed_posts p
        = (Raise (ZeroDivisionError "division by zero"), p))
  /\ collect_user_media login_required_gateway (mkSettings 120 0) now0 (PyStr "target")
       true false 10 (pool_of [fresh_account])
     = (Raise (ZeroDivisionError "division by zero"), pool_of [fresh_account])
  /\ (exists r p' acc',
        collect_user_media login_required_gateway default_settings now0 (PyStr "target")
          true false 10 (pool_of [fresh_account]) = (Ret r, p')
        /\ nth_error (accounts p') 0 = Some acc'
        /\ cr_success r = true
        /\ cr_error_message r = None
        /\ status acc' = ACTIVE
        /\ total_errors acc' = 0
        /\ health_score acc' == 100)
  /\ (exists r p' acc',
        collect_user_media login_required_lookup_gateway default_settings now0
          (PyStr "target") true false 10 (pool_of [fresh_account]) = (Ret r, p')
        /\ nth_error (accounts p') 0 = Some acc'
        /\ cr_success r = false
        /\ cr_error_message r = Some (UserLookupError "target" "login_required")
        /\ status acc' = ACTIVE
        /\ total_errors acc' = 1
        /\ health_score acc' == 95).
Proof.
  split; [| split; [| split; [| split]]].
  - intros gw settings now user include_stories include_feed max_feed_posts p Hz.
    exact (collect_user_media_noraise gw settings now user include_stories include_feed
             max_feed_posts Hz p).
  - intros gw settings now u include_stories include_feed max_feed_posts p.
    apply collect_user_media_zero_limit.
  - vm_compute. reflexivity.
  - do 3 eexists. split; [vm_compute; reflexivity |].
    split; [vm_compute; reflexivity |].
    vm_compute. repeat split; reflexivity.
  - do 3 eexists. split; [vm_compute; reflexivity |].
    split; [vm_compute; reflexivity |].
    vm_compute. repeat split; reflexivity.
Qed.

(** C4 (code_bug). Only a lookup error whose message contains "not found"
    is classified as target unavailable with a success outcome. A target
    reported private by the user lookup ends as a lookup error with a
    failure outcome (health 100 to 95, one more error); reported private by
    the stories call, the run succeeds. The [except PrivateError] handler is
    never reached. *)
Theorem collect_user_media_private_target :
  (exists r p' acc',
     collect_user_media private_target_gateway default_settings now0 (PyStr "target")
       true false 10 (pool_of [fresh_account]) = (Ret r, p')
     /\ nth_error (accounts p') 0 = Some acc'
     /\ cr_success r = false
     /\ cr_error_message r = Some (UserLookupError "target" "Profile is private")
     /\ total_errors acc' = 1
     /\ health_score acc' == 95)
  /\ (exists r p' acc',
        collect_user_media private_stories_gateway default_settings now0 (PyStr "target")
          true false 10 (pool_of [fresh_account]) = (Ret r, p')
        /\ nth_error (accounts p') 0 = Some acc'
        /\ cr_success r = true
        /\ total_errors acc' = 0
        /\ health_score acc' == 100)
  /\ (exists r p' acc',
        collect_user_media not_found_gateway default_settings now0 (PyStr "target")
          true false 10 (pool_of [fresh_account]) = (Ret r, p')
        /\ nth_error (accounts p') 0 = Some acc'
        /\ cr_success r = false
        /\ cr_error_message r = Some (UserNotFoundOrPrivate "target")
        /\ total_errors acc' = 0
        /\ health_score acc' == 100).
Proof.
  split; [| split];
    (do 3 eexists; split; [vm_compute; reflexivity |];
     split; [vm_compute; reflexivity |];
     vm_compute; repeat split; reflexivity).
Qed.

(** ** C9: the pool file round trip *)

Section PersistenceProofs.
Local Open Scope nat_scope.

Lemma digit_facts (k : nat) : k < 10 -> is_digit (digit k) = true /\ digit_value (digit k) = k.
Proof.
  intro H. do 10 (destruct k as [| k]; [split; reflexivity |]). lia.
Qed.

Lemma take_digits_pad (w : nat) : forall n fuel acc cnt rest,
  n < 10 ^ w ->
  take_digits (w + fuel) acc cnt (pad w n ++ rest)
  = take_digits fuel (acc * 10 ^ w + n) (cnt + w) rest.
Proof.
  induction w as [| w IH]; intros n fuel acc cnt rest Hn.
  - simpl in *. assert (n = 0) by lia. subst. rewrite Nat.add_0_r, Nat.mul_1_r, Nat.add_0_r.
    reflexivity.
  - change (pad (S w) n) with (pad w (n / 10) ++ [digit (n mod 10)]).
    assert (Hq : n / 10 < 10 ^ w)
      by (rewrite Nat.pow_succ_r' in Hn; apply Nat.Div0.div_lt_upper_bound; lia).
    rewrite <- app_assoc. cbn [app].
    rewrite Nat.add_succ_l, <- Nat.add_succ_r.
    rewrite IH by exact Hq.
    destruct (digit_facts (n mod 10) ltac:(apply Nat.mod_upper_bound; lia)) as [Hd Hv].
    cbn [take_digits]. rewrite Hd, Hv.
    f_equal; [| lia].
    rewrite Nat.pow_succ_r'.
    pose proof (Nat.div_mod_eq n 10) as Hdm.
    remember (n / 10) as q. remember (n mod 10) as r.
    rewrite Hdm. ring.
Qed.

Lemma digits_pad (lo w n : nat) (rest : list ascii) :
  n < 10 ^ w -> lo <= w -> digits lo w (pad w n ++ rest) = Some (n, rest).
Proof.
  intros Hn Hlo. unfold digits.
  pose proof (take_digits_pad w n 0 0 0 rest Hn) as E.
  rewrite Nat.add_0_r in E. rewrite E. simpl.
  replace (lo <=? w) with true by (symmetry; apply Nat.leb_le; exact Hlo).
  reflexivity.
Qed.

Lemma take_digits_pad_exact (w n : nat) :
  n < 10 ^ w -> take_digits w 0 0 (pad w n) = (n, w, []).
Proof.
  intro Hn. rewrite <- (app_nil_r (pad w n)), <- (Nat.add_0_r w) at 1.
  rewrite take_digits_pad by exact Hn. reflexivity.
Qed.

Lemma bound_le (n b w : nat) : (n <=? b) = true -> (S b <=? 10 ^ w) = true -> n < 10 ^ w.
Proof. intros H1 H2. apply Nat.leb_le in H1, H2. lia. Qed.

Lemma bound_lt (n b w : nat) : (n <? b) = true -> (b <=? 10 ^ w) = true -> n < 10 ^ w.
Proof. intros H1 H2. apply Nat.ltb_lt in H1. apply Nat.leb_le in H2. lia. Qed.

Lemma days_in_month_le (y m : nat) : days_in_month y m <= 31.
Proof.
  unfold days_in_month.
  do 12 (destruct m as [| m]; [try destruct (is_leap y); repeat constructor |]).
  repeat constructor.
Qed.

Lemma parse_str_datetime (t : datetime) :
  valid_datetime t = true -> parse_datetime (str_datetime t) = Some t.
Proof.
  destruct t as [y mo d h mi s us]. intro Hv. assert (Hv' := Hv).
  unfold valid_datetime in Hv. cbn [year month day hour minute second microsecond] in Hv.
  apply andb_prop in Hv as [Hv Hus]. apply andb_prop in Hv as [Hv Hs].
  apply andb_prop in Hv as [Hv Hmi]. apply andb_prop in Hv as [Hv Hh].
  apply andb_prop in Hv as [Hv Hd2]. apply andb_prop in Hv as [Hv Hd1].
  apply andb_prop in Hv as [Hv Hm2]. apply andb_prop in Hv as [Hy1 Hm1].
  apply andb_prop in Hy1 as [Hy1 Hy2].
  assert (By : y < 10 ^ 4) by (apply (bound_le y 9999 4 Hy2); vm_compute; reflexivity).
  assert (Bmo : mo < 10 ^ 2) by (apply (bound_le mo 12 2 Hm2); vm_compute; reflexivity).
  assert (Bd : d < 10 ^ 2)
    by (apply Nat.leb_le in Hd2; pose proof (days_in_month_le y mo); cbn; lia).
  assert (Bh : h < 10 ^ 2) by (apply (bound_lt h 24 2 Hh); vm_compute; reflexivity).
  assert (Bmi : mi < 10 ^ 2) by (apply (bound_lt mi 60 2 Hmi); vm_compute; reflexivity).
  assert (Bs : s < 10 ^ 2) by (apply (bound_lt s 60 2 Hs); vm_compute; reflexivity).
  assert (Bus : us < 10 ^ 6)
    by (apply (bound_lt us 1000000 6 Hus); vm_compute; reflexivity).
  clear Hy1 Hy2 Hm1 Hm2 Hd1 Hd2 Hh Hmi Hs Hus.
  unfold parse_datetime, str_datetime. rewrite list_ascii_of_string_of_list_ascii.
  unfold str_datetime_chars, parse_datetime_chars.
  cbn [year month day hour minute second microsecond app].
  rewrite (digits_pad 4 4 y) by first [exact By | constructor].
  cbn [expect is_char Ascii.eqb Bool.eqb orb andb].
  rewrite (digits_pad 1 2 mo) by first [exact Bmo | repeat constructor].
  cbn [expect is_char Ascii.eqb Bool.eqb orb andb].
  rewrite (digits_pad 1 2 d) by first [exact Bd | repeat constructor].
  cbn [expect is_char Ascii.eqb Bool.eqb orb andb].
  rewrite (digits_pad 1 2 h) by first [exact Bh | repeat constructor].
  cbn [expect is_char Ascii.eqb Bool.eqb orb andb].
  rewrite (digits_pad 1 2 mi) by first [exact Bmi | repeat constructor].
  cbn [expect is_char Ascii.eqb Bool.eqb orb andb].
  rewrite (digits_pad 1 2 s) by first [exact Bs | repeat constructor].
  cbn [expect is_char Ascii.eqb Bool.eqb orb andb].
  destruct (us =? 0) eqn:Hu.
  - apply Nat.eqb_eq in Hu. subst us. rewrite Hv'. reflexivity.
  - rewrite take_digits_pad_exact by exact Bus.
    cbn [take_digits Nat.leb Nat.sub Nat.pow].
    rewrite Nat.mul_1_r, Hv'. reflexivity.
Qed.

Lemma status_roundtrip (st : AccountStatus) : status_of_value (status_value st) = Some st.
Proof. destruct st; reflexivity. Qed.

Lemma account_json_roundtrip (created_at_default : datetime) (acc : InstagramAccount) :
  account_datetimes_valid acc = true ->
  account_of_json created_at_default (account_to_json acc) = Some acc.
Proof.
  destruct acc as [u pw px sf st lu ops hs tops terr ca].
  unfold account_datetimes_valid. cbn [created_at last_used].
  intro H. apply andb_prop in H as [Hca Hlu].
  unfold account_of_json, account_to_json.
  cbn -[parse_datetime str_datetime status_of_value status_value].
  rewrite status_roundtrip, parse_str_datetime by exact Hca.
  destruct px as [px |]; destruct lu as [lu |]; cbn -[parse_datetime str_datetime];
    try rewrite parse_str_datetime by exact Hlu; reflexivity.
Qed.

Lemma accounts_roundtrip (created_at_default : datetime) (accs : list InstagramAccount) :
  forallb account_datetimes_valid accs = true ->
  map_option (account_of_json created_at_default) (map account_to_json accs) = Some accs.
Proof.
  induction accs as [| a r IH]; intro H; [reflexivity |].
  apply andb_prop in H as [Ha Hr]. cbn [map map_option].
  rewrite account_json_roundtrip by exact Ha. rewrite IH by exact Hr. reflexivity.
Qed.

End PersistenceProofs.

(** C9. The pool file that [_save_pool] writes for the current accounts is
    read back by [_load_pool] as exactly those accounts, every field equal,
    passwords included (every datetime of an account is a valid [datetime],
    as the [datetime] constructor guarantees). A missing pool file, a file
    [json.load] rejects, or a document that does not validate, loads as the
    empty pool. *)
Theorem pool_persistence_roundtrip :
  (forall (created_at_default : datetime) (p : AccountPool.pool),
     forallb account_datetimes_valid (accounts p) = true ->
     last (saved (_save_pool p)) [] = accounts p
     /\ _load_pool created_at_default (pool_document (last (saved (_save_pool p)) []))
        = accounts p)
  /\ (forall created_at_default : datetime,
        _load_pool created_at_default NoFile = []
        /\ _load_pool created_at_default Unparsable = []
        /\ (forall j, accounts_of_document created_at_default j = None ->
            _load_pool created_at_default (Document j) = [])).
Proof.
  split.
  - intros d p H.
    assert (Hl : last (saved (_save_pool p)) [] = accounts p)
      by (unfold _save_pool; cbn [saved]; apply last_last).
    split; [exact Hl |]. rewrite Hl.
    unfold _load_pool, pool_document, accounts_of_document.
    rewrite accounts_roundtrip by exact H. reflexivity.
  - intro d. split; [reflexivity | split; [reflexivity |]].
    intros j Hj. unfold _load_pool. rewrite Hj. reflexivity.
Qed.

Lemma pool_persistence_roundtrip_witness :
  forallb account_datetimes_valid (accounts (pool_of roundtrip_accounts)) = true
  /\ _load_pool created0
       (pool_document (last (saved (_save_pool (pool_of roundtrip_accounts))) []))
     = roundtrip_accounts.
Proof.
  split; [vm_compute; reflexivity |].
  exact (proj2 (proj1 pool_persistence_roundtrip created0 (pool_of roundtrip_accounts)
                   ltac:(vm_compute; reflexivity))).
Defined.

(** * Further properties: pool administration, collection, service and route *)

Lemma AccountStatus_eqb_eq (a b : AccountStatus) : AccountStatus_eqb a b = true <-> a = b.
Proof. destruct a, b; simpl; split; congruence. Qed.

Lemma max_by_from_in {A} (key : A -> Q) (best : A) (l : list A) :
  In (max_by_from key best l) (best :: l).
Proof.
  revert best; induction l as [| x r IH]; intro best; simpl; [left; reflexivity |].
  destruct (negb (Qle_bool (key x) (key best))).
  - destruct (IH x) as [H | H]; [right; left; exact H | right; right; exact H].
  - destruct (IH best) as [H | H]; [left; exact H | right; right; exact H].
Qed.

Lemma first_active_spec (l : list InstagramAccount) (k i : nat) :
  first_active k l = Some i ->
  exists acc, (k <= i)%nat /\ nth_error l (i - k) = Some acc /\ status acc = ACTIVE.
Proof.
  revert k; induction l as [| a l IH]; intro k; simpl; [discriminate |].
  destruct (AccountStatus_eqb (status a) ACTIVE) eqn:E.
  - intros [= <-]. exists a. rewrite Nat.sub_diag. apply AccountStatus_eqb_eq in E. auto.
  - intro H. destruct (IH (S k) H) as [acc [Hle [Hn Hs]]]. exists acc.
    replace (i - k)%nat with (S (i - S k)) by lia. auto with arith.
Qed.

Lemma first_active_none (l : list InstagramAccount) (k : nat) :
  first_active k l = None <-> forall acc, In acc l -> status acc <> ACTIVE.
Proof.
  revert k; induction l as [| a l IH]; intro k; simpl; [split; [tauto | reflexivity] |].
  destruct (AccountStatus_eqb (status a) ACTIVE) eqn:E.
  - apply AccountStatus_eqb_eq in E. split; [discriminate | intro H; exfalso; exact (H a (or_introl eq_refl) E)].
  - rewrite IH. split.
    + intros H acc [<- | Hin]; [| apply H, Hin]. intro E'. rewrite E' in E. discriminate.
    + intros H acc Hin. apply H. right. exact Hin.
Qed.

Lemma get_available_account_some (settings : Settings) (now : datetime) (p : AccountPool.pool) (i : nat) :
  get_available_account settings now p = Some i ->
  exists acc, nth_error (accounts p) i = Some acc /\ status acc = ACTIVE
              /\ (available_from now 0 (accounts p) <> [] -> is_available now acc = true).
Proof.
  unfold get_available_account.
  destruct (available_from now 0 (accounts p)) as [| a r] eqn:Ea.
  - intro H. destruct (first_active_spec _ _ _ H) as [acc [_ [Hn Hs]]].
    rewrite Nat.sub_0_r in Hn. exists acc. repeat split; auto.
  - intros [= <-].
    pose proof (max_by_from_in (fun ia => calculate_score settings now (snd ia)) a r) as Hin.
    destruct (max_by_from (fun ia => calculate_score settings now (snd ia)) a r) as [j acc].
    rewrite <- Ea in Hin. apply available_from_spec in Hin.
    destruct Hin as [j' [-> [Hn Hv]]]. exists acc. simpl.
    assert (Es : status acc = ACTIVE).
    { unfold is_available in Hv.
      destruct (AccountStatus_eqb (status acc) ACTIVE) eqn:Es; [| discriminate].
      apply AccountStatus_eqb_eq in Es. exact Es. }
    refine (conj Hn (conj Es _)). intros _. exact Hv.
Qed.

Lemma fold_count {A} (f : A -> bool) (l : list A) (n : nat) :
  fold_left (fun n a => if f a then S n else n) l n = (n + List.length (filter f l))%nat.
Proof.
  revert n; induction l as [| a l IH]; intro n; simpl; [lia |].
  destruct (f a); rewrite IH; simpl; lia.
Qed.

Lemma is_available_active (now : datetime) (acc : InstagramAccount) :
  is_available now acc = true -> status acc = ACTIVE.
Proof.
  unfold is_available. destruct (AccountStatus_eqb (status acc) ACTIVE) eqn:E; [| discriminate].
  intros _. apply AccountStatus_eqb_eq, E.
Qed.

Lemma get_available_account_none (settings : Settings) (now : datetime) (p : AccountPool.pool) :
  get_available_account settings now p = None
  <-> forall acc, In acc (accounts p) -> status acc <> ACTIVE.
Proof.
  unfold get_available_account.
  destruct (available_from now 0 (accounts p)) as [| a r] eqn:Ea.
  - apply first_active_none.
  - split; [discriminate |]. intro H. exfalso.
    assert (Hin : In a (available_from now 0 (accounts p))) by (rewrite Ea; left; reflexivity).
    destruct a as [j acc]. apply available_from_spec in Hin.
    destruct Hin as [j' [_ [Hn Hv]]].
    apply (H acc); [exact (nth_error_In _ _ Hn) | exact (is_available_active _ _ Hv)].
Qed.

(** X1. get_available_account returns no account exactly when no account of the pool is ACTIVE, and any account it returns is ACTIVE. *)
Theorem get_available_account_selects_active (settings : Settings) (now : datetime)
    (p : AccountPool.pool) :
  (get_available_account settings now p = None
   <-> forall acc, In acc (accounts p) -> status acc <> ACTIVE)
  /\ (forall i, get_available_account settings now p = Some i ->
      exists acc, nth_error (accounts p) i = Some acc /\ status acc = ACTIVE).
Proof.
  split; [apply get_available_account_none |].
  intros i Hi. destruct (get_available_account_some _ _ _ _ Hi) as [acc [Hn [Hs _]]].
  exists acc. auto.
Qed.

Lemma get_available_account_selects_active_witness :
  get_available_account default_settings now0 (pool_of [cooling_account]) = Some 0%nat
  /\ exists acc, nth_error (accounts (pool_of [cooling_account])) 0 = Some acc /\ status acc = ACTIVE.
Proof.
  split; [vm_compute; reflexivity |].
  apply (proj2 (get_available_account_selects_active default_settings now0
                  (pool_of [cooling_account])) 0%nat).
  vm_compute. reflexivity.
Defined.

(** X2. When the daily limit is not 0 and get_pool_status reports at least one available account, the account selection does not raise and get_available_account returns an account that is available at that time, not one taken by the fallback. *)
Theorem pool_status_available_selects_available (settings : Settings) (now : datetime)
    (p : AccountPool.pool) :
  max_daily_operations_per_account settings <> 0%Z ->
  available_accounts (get_pool_status now p) <> 0%nat ->
  selection_raises settings now p = false
  /\ exists i acc, get_available_account settings now p = Some i
                   /\ nth_error (accounts p) i = Some acc /\ is_available now acc = true.
Proof.
  intros Hz H0. split; [exact (selection_raises_nonzero settings now p Hz) |]. revert H0.
  unfold get_pool_status. simpl. rewrite fold_count. simpl. intro H.
  assert (Hne : available_from now 0 (accounts p) <> []).
  { rewrite available_from_nil. intro Hall.
    destruct (filter (is_available now) (accounts p)) as [| a r] eqn:Ef; [apply H; reflexivity |].
    assert (Ha : In a (filter (is_available now) (accounts p))) by (rewrite Ef; left; reflexivity).
    apply filter_In in Ha. destruct Ha as [Ha1 Ha2]. rewrite (Hall a Ha1) in Ha2. discriminate. }
  unfold get_available_account in *.
  destruct (available_from now 0 (accounts p)) as [| a r] eqn:Ea; [contradiction |].
  pose proof (max_by_from_in (fun ia => calculate_score settings now (snd ia)) a r) as Hin.
  destruct (max_by_from (fun ia => calculate_score settings now (snd ia)) a r) as [j acc].
  rewrite <- Ea in Hin. apply available_from_spec in Hin.
  destruct Hin as [j' [-> [Hn Hv]]]. exists j', acc. simpl. auto.
Qed.

Lemma pool_status_available_selects_available_witness :
  max_daily_operations_per_account default_settings = 100%Z
  /\ available_accounts (get_pool_status now0 (pool_of [cooling_account; account_C])) = 1%nat
  /\ selection_raises default_settings now0 (pool_of [cooling_account; account_C]) = false
  /\ exists i acc, get_available_account default_settings now0 (pool_of [cooling_account; account_C]) = Some i
                /\ nth_error (accounts (pool_of [cooling_account; account_C])) i = Some acc
                /\ is_available now0 acc = true.
Proof.
  split; [reflexivity |]. split; [vm_compute; reflexivity |].
  apply pool_status_available_selects_available; vm_compute; discriminate.
Defined.

(** X3. In the result of get_pool_status the per-status counts add up to the total number of accounts, the number of available accounts is at most the number of ACTIVE accounts, and total_operations_today is the sum of the accounts' operations_today. *)
Theorem get_pool_status_counts (now : datetime) (p : AccountPool.pool) :
  list_sum (map snd (status_breakdown (get_pool_status now p)))
    = total_accounts (get_pool_status now p)
  /\ (available_accounts (get_pool_status now p)
      <= List.length (filter (fun acc => AccountStatus_eqb (status acc) ACTIVE) (accounts p)))%nat
  /\ total_operations_today (get_pool_status now p)
     = fold_right Z.add 0 (map operations_today (accounts p)).
Proof.
  unfold get_pool_status; simpl. rewrite fold_count. simpl.
  split; [| split].
  - induction (accounts p) as [| a l IH]; simpl; [reflexivity |].
    destruct (status a); simpl in *; lia.
  - induction (accounts p) as [| a l IH]; simpl; [lia |].
    destruct (is_available now a) eqn:Ev.
    + rewrite (is_available_active _ _ Ev). simpl. lia.
    + destruct (AccountStatus_eqb (status a) ACTIVE); simpl; lia.
  - assert (G : forall l s, fold_left (fun s acc => s + operations_today acc) l s
                            = s + fold_right Z.add 0 (map operations_today l)).
    { induction l as [| a l IH]; intro s; simpl; [lia | rewrite IH; lia]. }
    rewrite G. lia.
Qed.

Lemma add_account_result (session_dir : string) (created_at_default : datetime)
    (test_login : string -> login_outcome) (u pw : string) (px : option string)
    (p : AccountPool.pool) :
  (fst (add_account session_dir created_at_default test_login u pw px p) = true
   <-> (forall acc, In acc (accounts p) -> username acc <> u) /\ test_login u = LoginOk)
  /\ (fst (add_account session_dir created_at_default test_login u pw px p) = false ->
      snd (add_account session_dir created_at_default test_login u pw px p) = p)
  /\ (fst (add_account session_dir created_at_default test_login u pw px p) = true ->
      snd (add_account session_dir created_at_default test_login u pw px p)
      = _save_pool (mkPool (app (accounts p) [new_account session_dir created_at_default u pw px])
                           (clients p) (saved p))).
Proof.
  unfold add_account.
  destruct (existsb (fun acc => String.eqb (username acc) u) (accounts p)) eqn:Ex.
  - simpl. split; [| split; [reflexivity | discriminate]].
    split; [discriminate |]. intros [H _]. apply existsb_exists in Ex.
    destruct Ex as [acc [Hin He]]. apply String.eqb_eq in He. exfalso. exact (H acc Hin He).
  - assert (Hn : forall acc, In acc (accounts p) -> username acc <> u).
    { intros acc Hin He.
      assert (E : existsb (fun acc => String.eqb (username acc) u) (accounts p) = true)
        by (apply existsb_exists; exists acc; split; [exact Hin | apply String.eqb_eq; exact He]).
      congruence. }
    unfold _test_account_login. simpl.
    destruct (test_login u) eqn:Et; simpl;
      (split; [split; [intro H; split; [exact Hn | try reflexivity; discriminate H]
                      | intros [_ H]; try reflexivity; discriminate H] |
               split; [intro H; try reflexivity; discriminate H | intro H; try reflexivity; discriminate H]]).
Qed.

(** X4. add_account returns True exactly when no account of the pool has the username and the test login succeeds. On False the pool is unchanged; on True the new account is appended and the pool is saved. *)
Theorem add_account_outcome (session_dir : string) (created_at_default : datetime)
    (test_login : string -> login_outcome) (u pw : string) (px : option string)
    (p : AccountPool.pool) :
  (fst (add_account session_dir created_at_default test_login u pw px p) = true
   <-> (forall acc, In acc (accounts p) -> username acc <> u) /\ test_login u = LoginOk)
  /\ (fst (add_account session_dir created_at_default test_login u pw px p) = false ->
      snd (add_account session_dir created_at_default test_login u pw px p) = p)
  /\ (fst (add_account session_dir created_at_default test_login u pw px p) = true ->
      snd (add_account session_dir created_at_default test_login u pw px p)
      = _save_pool (mkPool (app (accounts p) [new_account session_dir created_at_default u pw px])
                           (clients p) (saved p))).
Proof. apply add_account_result. Qed.

Lemma remove_first_none (u : string) (l : list InstagramAccount) :
  (forall acc, In acc l -> username acc <> u) -> remove_first u l = None.
Proof.
  induction l as [| a l IH]; intro H; simpl; [reflexivity |].
  destruct (String.eqb (username a) u) eqn:E.
  - apply String.eqb_eq in E. exfalso. exact (H a (or_introl eq_refl) E).
  - rewrite IH; [reflexivity |]. intros acc Hin. apply H. right. exact Hin.
Qed.

Lemma remove_first_app (u : string) (pre post : list InstagramAccount) (acc : InstagramAccount) :
  (forall b, In b pre -> username b <> u) -> username acc = u ->
  remove_first u (app pre (acc :: post)) = Some (app pre post).
Proof.
  induction pre as [| a pre IH]; intros H Ha; simpl.
  - rewrite Ha, String.eqb_refl. reflexivity.
  - destruct (String.eqb (username a) u) eqn:E.
    + apply String.eqb_eq in E. exfalso. exact (H a (or_introl eq_refl) E).
    + rewrite IH; [reflexivity | | exact Ha]. intros b Hb. apply H. right. exact Hb.
Qed.

Lemma find_username_none (u : string) (l : list InstagramAccount) :
  (forall acc, In acc l -> username acc <> u) ->
  find (fun acc => String.eqb (username acc) u) l = None.
Proof.
  induction l as [| a l IH]; intro H; simpl; [reflexivity |].
  destruct (String.eqb (username a) u) eqn:E.
  - apply String.eqb_eq in E. exfalso. exact (H a (or_introl eq_refl) E).
  - apply IH. intros acc Hin. apply H. right. exact Hin.
Qed.

Lemma find_username_app (u : string) (pre post : list InstagramAccount) (acc : InstagramAccount) :
  (forall b, In b pre -> username b <> u) -> username acc = u ->
  find (fun a => String.eqb (username a) u) (app pre (acc :: post)) = Some acc.
Proof.
  induction pre as [| a pre IH]; intros H Ha; simpl.
  - rewrite Ha, String.eqb_refl. reflexivity.
  - destruct (String.eqb (username a) u) eqn:E.
    + apply String.eqb_eq in E. exfalso. exact (H a (or_introl eq_refl) E).
    + apply IH; [| exact Ha]. intros b Hb. apply H. right. exact Hb.
Qed.

Lemma remove_account_result (fs : string -> file_removal) (u : string) (p : AccountPool.pool) :
  ((forall acc, In acc (accounts p) -> username acc <> u) -> remove_account fs u p = (Ret false, p))
  /\ (forall pre acc post,
        accounts p = app pre (acc :: post) ->
        (forall b, In b pre -> username b <> u) -> username acc = u ->
        (forall msg, fs (session_file acc) <> RemoveFails msg) ->
        remove_account fs u p
        = (Ret true, _save_pool (mkPool (app pre post)
                                        (filter (fun v => negb (String.eqb u v)) (clients p))
                                        (saved p))))
  /\ (forall pre acc post msg,
        accounts p = app pre (acc :: post) ->
        (forall b, In b pre -> username b <> u) -> username acc = u ->
        fs (session_file acc) = RemoveFails msg ->
        remove_account fs u p
        = (Raise (OSError msg),
           mkPool (accounts p) (filter (fun v => negb (String.eqb u v)) (clients p)) (saved p))).
Proof.
  unfold remove_account, bind, get, modify, ret, raise. split; [| split].
  - intro H. rewrite find_username_none by exact H. reflexivity.
  - intros pre acc post Hp Hpre Ha Hfs.
    rewrite Hp, find_username_app, remove_first_app by assumption.
    destruct (fs (session_file acc)) as [| | msg] eqn:E;
      [reflexivity | reflexivity | exfalso; exact (Hfs msg eq_refl)].
  - intros pre acc post msg Hp Hpre Ha Hfs.
    rewrite Hp, find_username_app, remove_first_app by assumption.
    rewrite Hfs, <- Hp. reflexivity.
Qed.

(** X5. remove_account returns False and leaves the pool unchanged when no account has the username. Otherwise it drops the username's cached client and then removes the first matching account's session file: if that works or there is no file, the account is removed and the pool saved; if os.remove raises an OSError, the exception escapes, the account stays in the list and the pool is not saved. *)
Theorem remove_account_spec (fs : string -> file_removal) (u : string) (p : AccountPool.pool) :
  ((forall acc, In acc (accounts p) -> username acc <> u) -> remove_account fs u p = (Ret false, p))
  /\ (forall pre acc post,
        accounts p = app pre (acc :: post) ->
        (forall b, In b pre -> username b <> u) -> username acc = u ->
        (forall msg, fs (session_file acc) <> RemoveFails msg) ->
        remove_account fs u p
        = (Ret true, _save_pool (mkPool (app pre post)
                                        (filter (fun v => negb (String.eqb u v)) (clients p))
                                        (saved p))))
  /\ (forall pre acc post msg,
        accounts p = app pre (acc :: post) ->
        (forall b, In b pre -> username b <> u) -> username acc = u ->
        fs (session_file acc) = RemoveFails msg ->
        remove_account fs u p
        = (Raise (OSError msg),
           mkPool (accounts p) (filter (fun v => negb (String.eqb u v)) (clients p)) (saved p))).
Proof. apply remove_account_result. Qed.

Lemma new_account_username (session_dir : string) (created_at_default : datetime)
    (u pw : string) (px : option string) :
  username (new_account session_dir created_at_default u pw px) = u.
Proof. reflexivity. Qed.

(** X6. After a successful add_account, remove_account of the same username returns True and gives back the original account list, provided os.remove does not fail on the new account's session file; the client cache loses any entry for that username. *)
Theorem add_then_remove_account (fs : string -> file_removal) (session_dir : string)
    (created_at_default : datetime) (test_login : string -> login_outcome) (u pw : string)
    (px : option string) (p : AccountPool.pool) :
  fst (add_account session_dir created_at_default test_login u pw px p) = true ->
  (forall msg, fs (session_file (new_account session_dir created_at_default u pw px))
               <> RemoveFails msg) ->
  fst (remove_account fs u (snd (add_account session_dir created_at_default test_login u pw px p)))
    = Ret true
  /\ accounts (snd (remove_account fs u
                      (snd (add_account session_dir created_at_default test_login u pw px p))))
     = accounts p
  /\ clients (snd (remove_account fs u
                     (snd (add_account session_dir created_at_default test_login u pw px p))))
     = filter (fun v => negb (String.eqb u v)) (clients p).
Proof.
  intros Hok Hfs.
  destruct (add_account_result session_dir created_at_default test_login u pw px p)
    as [[Hiff _] [_ Hsnd]].
  destruct (Hiff Hok) as [Hn _].
  rewrite (Hsnd Hok).
  rewrite (proj1 (proj2 (remove_account_result fs u _)) (accounts p)
             (new_account session_dir created_at_default u pw px) []).
  - simpl. rewrite app_nil_r. auto.
  - reflexivity.
  - exact Hn.
  - reflexivity.
  - exact Hfs.
Qed.

Lemma add_then_remove_account_witness :
  fst (add_account default_session_dir created0 (fun _ => LoginOk) "carol"%string "pw"%string None
         (pool_of [account_A 0])) = true
  /\ accounts (snd (remove_account (fun _ => NoSessionFile) "carol"%string
                      (snd (add_account default_session_dir created0 (fun _ => LoginOk)
                              "carol"%string "pw"%string None (pool_of [account_A 0])))))
     = [account_A 0].
Proof.
  split; [vm_compute; reflexivity |].
  apply (add_then_remove_account (fun _ => NoSessionFile) default_session_dir created0
           (fun _ => LoginOk) "carol"%string "pw"%string None (pool_of [account_A 0])).
  - vm_compute. reflexivity.
  - intros msg. discriminate.
Defined.

Lemma NoDup_snoc {A} (l : list A) (x : A) : NoDup l -> ~ In x l -> NoDup (app l [x]).
Proof.
  induction l as [| a l IH]; intros H Hx; simpl; [constructor; [intros [] | constructor] |].
  inversion H as [| ? ? Ha Hl]; subst. constructor.
  - rewrite in_app_iff. intros [Hin | [Hin | []]]; [exact (Ha Hin) | apply Hx; left; symmetry; exact Hin].
  - apply IH; [exact Hl | intro Hin; apply Hx; right; exact Hin].
Qed.

(** X7. If the usernames of the pool are distinct, they are still distinct after add_account, whatever its outcome. *)
Theorem add_account_unique_usernames (session_dir : string) (created_at_default : datetime)
    (test_login : string -> login_outcome) (u pw : string) (px : option string)
    (p : AccountPool.pool) :
  NoDup (map username (accounts p)) ->
  NoDup (map username
           (accounts (snd (add_account session_dir created_at_default test_login u pw px p)))).
Proof.
  intro H.
  destruct (add_account_result session_dir created_at_default test_login u pw px p)
    as [[Hiff _] [Hfalse Htrue]].
  destruct (fst (add_account session_dir created_at_default test_login u pw px p)) eqn:E.
  - rewrite (Htrue eq_refl). simpl. rewrite map_app. simpl.
    destruct (Hiff eq_refl) as [Hn _].
    apply NoDup_snoc; [exact H |]. intro Hin. apply in_map_iff in Hin.
    destruct Hin as [acc [Ha Hin]]. exact (Hn acc Hin Ha).
  - rewrite (Hfalse eq_refl). exact H.
Qed.

Lemma add_account_unique_usernames_witness :
  NoDup (map username (accounts (pool_of [account_A 0; account_B 0])))
  /\ NoDup (map username
              (accounts (snd (add_account default_session_dir created0 (fun _ => LoginOk)
                                "account_a"%string "pw"%string None
                                (pool_of [account_A 0; account_B 0]))))).
Proof.
  assert (H : NoDup (map username (accounts (pool_of [account_A 0; account_B 0])))).
  { simpl. constructor; [simpl; intros [H | []]; discriminate H | constructor; [intros [] | constructor]]. }
  split; [exact H |].
  exact (add_account_unique_usernames default_session_dir created0 (fun _ => LoginOk)
           "account_a"%string "pw"%string None (pool_of [account_A 0; account_B 0]) H).
Defined.

(** X8. With the default settings (120-minute cooldown, 100 daily operations), _is_account_available_fallback gives the same answer as InstagramAccount.is_available for every account and time. *)
Theorem fallback_matches_is_available (now : datetime) (acc : InstagramAccount) :
  _is_account_available_fallback default_settings now acc = is_available now acc.
Proof.
  unfold _is_account_available_fallback, is_available. simpl.
  destruct (AccountStatus_eqb (status acc) ACTIVE); [| reflexivity]. simpl.
  destruct (last_used acc) as [lu |];
    destruct (100 <=? operations_today acc); [| | reflexivity | reflexivity].
  - destruct (to_us now - to_us lu <? minutes_us 120); reflexivity.
  - destruct (to_us now - to_us lu <? minutes_us 120); reflexivity.
Qed.

(** X9. If an account is available at some time, it is still available at every later time as long as the account itself does not change. *)
Theorem is_available_persists (now now' : datetime) (acc : InstagramAccount) :
  is_available now acc = true -> to_us now <= to_us now' -> is_available now' acc = true.
Proof.
  unfold is_available. destruct (AccountStatus_eqb (status acc) ACTIVE); [| discriminate]. simpl.
  destruct (last_used acc) as [lu |]; [| tauto].
  destruct (to_us now - to_us lu <? minutes_us 120) eqn:E; [discriminate |].
  intros H Hle. apply Z.ltb_ge in E.
  replace (to_us now' - to_us lu <? minutes_us 120) with false; [exact H |].
  symmetry. apply Z.ltb_ge. lia.
Qed.

Lemma is_available_persists_witness :
  is_available now0 account_C = true /\ to_us now0 <= to_us (at_time 2024 8 6 9 0)
  /\ is_available (at_time 2024 8 6 9 0) account_C = true.
Proof.
  assert (H1 : is_available now0 account_C = true) by (vm_compute; reflexivity).
  assert (H2 : to_us now0 <= to_us (at_time 2024 8 6 9 0)) by (vm_compute; discriminate).
  exact (conj H1 (conj H2 (is_available_persists now0 (at_time 2024 8 6 9 0) account_C H1 H2))).
Defined.

(** X10. After mark_account_used on an ACTIVE account whose operation count stays below the daily limits, the account is available again exactly from 120 minutes after the time of use. *)
Theorem mark_account_used_cooldown_window (settings : Settings) (now : datetime) (i : nat)
    (success : bool) (p : AccountPool.pool) (acc : InstagramAccount) :
  nth_error (accounts p) i = Some acc ->
  status acc = ACTIVE ->
  operations_today acc + 1 < 100 ->
  operations_today acc + 1 < max_daily_operations_per_account settings ->
  exists acc',
    nth_error (accounts (mark_account_used settings now i success p)) i = Some acc'
    /\ forall now', is_available now' acc' = true <-> minutes_us 120 <= to_us now' - to_us now.
Proof.
  intros Hn Hs Hops Hmax.
  exists (mark_account_used_acc settings now success acc).
  unfold mark_account_used, update_account. rewrite Hn. simpl.
  split; [eapply nth_error_replace_nth_same; eassumption |].
  intro now'.
  assert (E : mark_account_used_acc settings now success acc
              = update_health_score (mark_used now acc) success).
  { unfold mark_account_used_acc.
    replace (max_daily_operations_per_account settings
             <=? operations_today (update_health_score (mark_used now acc) success)) with false;
      [reflexivity |].
    symmetry. apply Z.leb_gt. destruct success; simpl; lia. }
  rewrite E. unfold is_available.
  destruct success; simpl; rewrite Hs; simpl;
    (replace (100 <=? operations_today acc + 1) with false by (symmetry; apply Z.leb_gt; lia));
    destruct (to_us now' - to_us now <? minutes_us 120) eqn:Et;
    [apply Z.ltb_lt in Et | apply Z.ltb_ge in Et | apply Z.ltb_lt in Et | apply Z.ltb_ge in Et];
    split; intro H; solve [discriminate H | lia | reflexivity].
Qed.

Lemma mark_account_used_cooldown_window_witness :
  exists acc',
    nth_error (accounts (mark_account_used default_settings now0 0 true (pool_of [account_A 0]))) 0
      = Some acc'
    /\ forall now', is_available now' acc' = true <-> minutes_us 120 <= to_us now' - to_us now0.
Proof.
  apply (mark_account_used_cooldown_window default_settings now0 0 true (pool_of [account_A 0])
           (account_A 0)); vm_compute; reflexivity.
Defined.

(** X11. When there is no working cached client and the login fails with a challenge, a login-required error or another error, get_client returns False, sets the account to CHALLENGE, LOGIN_REQUIRED or DEAD with a failure health update, leaves the other accounts alone and saves the pool. get_available_account never picks that account afterwards. *)
Theorem get_client_failure (gw : gateway) (i : nat) (p : AccountPool.pool)
    (acc : InstagramAccount) (s : AccountStatus) :
  nth_error (accounts p) i = Some acc ->
  existsb (String.eqb (username acc)) (clients p) && gw_get_timeline_feed gw (username acc)
    = false ->
  (gw_login gw (username acc) = ClientChallenge /\ s = CHALLENGE
   \/ gw_login gw (username acc) = ClientLoginRequired /\ s = LOGIN_REQUIRED
   \/ gw_login gw (username acc) = ClientError /\ s = DEAD) ->
  exists p',
    get_client gw i p = (Ret false, p')
    /\ nth_error (accounts p') i = Some (set_status (update_health_score acc false) s)
    /\ (forall j, j <> i -> nth_error (accounts p') j = nth_error (accounts p) j)
    /\ saved p' = app (saved p) [accounts p']
    /\ (forall settings now, get_available_account settings now p' <> Some i).
Proof.
  intros Hn Hc Hl.
  set (p1 := if existsb (String.eqb (username acc)) (clients p)
             then mkPool (accounts p)
                    (filter (fun v => negb (String.eqb (username acc) v)) (clients p)) (saved p)
             else p).
  assert (Hp1 : accounts p1 = accounts p /\ saved p1 = saved p)
    by (unfold p1; destruct (existsb _ _); split; reflexivity).
  exists (_save_pool (update_account p1 i (fun a => set_status (update_health_score a false) s))).
  assert (Hn1 : nth_error (accounts p1) i = Some acc) by (rewrite (proj1 Hp1); exact Hn).
  assert (Hget : get_client gw i p
                 = (Ret false, _save_pool (update_account p1 i
                                 (fun a => set_status (update_health_score a false) s)))).
  { unfold get_client, get, bind, ret, modify. rewrite Hn. cbv zeta. rewrite Hc.
    unfold p1. destruct (existsb (String.eqb (username acc)) (clients p));
      destruct Hl as [[Ho ->] | [[Ho ->] | [Ho ->]]]; rewrite Ho; reflexivity. }
  rewrite Hget. split; [reflexivity |].
  unfold update_account. rewrite Hn1. simpl.
  split; [eapply nth_error_replace_nth_same; eassumption |].
  split; [intros j Hj; rewrite nth_error_replace_nth_other by exact Hj; rewrite (proj1 Hp1); reflexivity |].
  split; [rewrite (proj2 Hp1); reflexivity |].
  intros settings now Hsel.
  destruct (get_available_account_some settings now _ i Hsel) as [acc' [Hn' [Hs' _]]].
  simpl in Hn'. rewrite (nth_error_replace_nth_same _ _ _ acc Hn1) in Hn'.
  injection Hn' as <-. simpl in Hs'.
  destruct Hl as [[_ ->] | [[_ ->] | [_ ->]]]; destruct acc; simpl in Hs'; discriminate.
Qed.


Lemma get_client_failure_witness :
  exists p',
    get_client challenge_gateway 0 (pool_of [account_A 0]) = (Ret false, p')
    /\ nth_error (accounts p') 0 = Some (set_status (update_health_score (account_A 0) false) CHALLENGE)
    /\ (forall j, j <> 0%nat -> nth_error (accounts p') j = nth_error (accounts (pool_of [account_A 0])) j)
    /\ saved p' = app (saved (pool_of [account_A 0])) [accounts p']
    /\ (forall settings now, get_available_account settings now p' <> Some 0%nat).
Proof.
  apply get_client_failure; [reflexivity | reflexivity | left; split; reflexivity].
Defined.

Lemma health_check_account_idem (settings : Settings) (now : datetime)
    (test_login : string -> login_outcome) (acc : InstagramAccount) :
  health_check_account settings now test_login (health_check_account settings now test_login acc)
  = health_check_account settings now test_login acc.
Proof.
  destruct acc as [u pw px sf st lu ops h tops terr cr].
  unfold health_check_account, _test_account_login.
  destruct lu as [lu |]; cbn -[Qlt_le_dec].
  - destruct (date_lt lu now) eqn:Ed; cbn -[Qlt_le_dec];
    destruct (minutes_us (account_cooldown_minutes settings) <=? to_us now - to_us lu) eqn:Ec;
    destruct st; cbn -[Qlt_le_dec]; rewrite ?Ed, ?Ec; cbn -[Qlt_le_dec]; try reflexivity;
    destruct (Qlt_le_dec 50 h); cbn -[Qlt_le_dec]; try reflexivity;
    destruct (test_login u) eqn:Et; cbn -[Qlt_le_dec]; rewrite ?Ed, ?Ec; cbn -[Qlt_le_dec];
    try reflexivity;
    destruct (Qlt_le_dec 50 h); try contradiction; cbn; rewrite ?Et; try reflexivity;
    match goal with H1 : (50 < h)%Q, H2 : (h <= 50)%Q |- _ => exfalso; exact (Qlt_not_le _ _ H1 H2) end.
  - destruct st; cbn -[Qlt_le_dec]; try reflexivity;
    destruct (Qlt_le_dec 50 h); cbn -[Qlt_le_dec]; try reflexivity;
    destruct (test_login u) eqn:Et; cbn -[Qlt_le_dec]; try reflexivity;
    destruct (Qlt_le_dec 50 h); cbn; rewrite ?Et; try reflexivity;
    match goal with H1 : (50 < h)%Q, H2 : (h <= 50)%Q |- _ => exfalso; exact (Qlt_not_le _ _ H1 H2) end.
Qed.

(** X13. Running health_check twice at the same time gives the same accounts as running it once. *)
Theorem health_check_idempotent (settings : Settings) (now : datetime)
    (test_login : string -> login_outcome) (p : AccountPool.pool) :
  accounts (health_check settings now test_login (health_check settings now test_login p))
  = accounts (health_check settings now test_login p).
Proof.
  unfold health_check, _save_pool. simpl. rewrite map_map.
  apply map_ext. intro acc. apply health_check_account_idem.
Qed.

Lemma health_check_account_frame (settings : Settings) (now : datetime)
    (test_login : string -> login_outcome) (acc : InstagramAccount) :
  let acc' := health_check_account settings now test_login acc in
  username acc' = username acc /\ password acc' = password acc /\ proxy acc' = proxy acc
  /\ session_file acc' = session_file acc /\ last_used acc' = last_used acc
  /\ health_score acc' = health_score acc /\ total_operations acc' = total_operations acc
  /\ total_errors acc' = total_errors acc /\ created_at acc' = created_at acc
  /\ (operations_today acc' = operations_today acc \/ operations_today acc' = 0)
  /\ (status acc = DEAD -> status acc' = DEAD)
  /\ (status acc' = COOLDOWN -> status acc = COOLDOWN)
  /\ ((health_score acc <= 50)%Q -> (status acc = CHALLENGE \/ status acc = LOGIN_REQUIRED) ->
      status acc' = status acc).
Proof.
  destruct acc as [u pw px sf st lu ops h tops terr cr].
  unfold health_check_account, _test_account_login. cbv zeta.
  destruct lu as [lu |]; cbn -[Qlt_le_dec];
  [destruct (date_lt lu now); cbn -[Qlt_le_dec];
   destruct (minutes_us (account_cooldown_minutes settings) <=? to_us now - to_us lu) | ];
  destruct st; cbn -[Qlt_le_dec];
  try (destruct (Qlt_le_dec 50 h) as [Hh | Hh]; cbn -[Qlt_le_dec];
       [destruct (test_login u); cbn -[Qlt_le_dec] |]);
  repeat split; try (left; reflexivity); try (right; reflexivity);
  try (intro H; discriminate H); try (intros _ _; reflexivity);
  try (intros H1 _; exfalso; exact (Qlt_not_le _ _ Hh H1)).
  all: intros _ [H | H]; discriminate H.
Qed.


Lemma pure_ret {A} (a : A) : pure_state (ret a).
Proof. intro p. reflexivity. Qed.
Lemma pure_raise {A} (e : exn) : pure_state (@raise A e).
Proof. intro p. reflexivity. Qed.
Lemma pure_get : pure_state get.
Proof. intro p. reflexivity. Qed.
Lemma pure_bind {A B} (m : M A) (k : A -> M B) :
  pure_state m -> (forall a, pure_state (k a)) -> pure_state (bind m k).
Proof.
  intros Hm Hk p. specialize (Hm p). unfold bind.
  destruct (m p) as [[a | e] p']; simpl in *; subst; [apply Hk | reflexivity].
Qed.
Lemma pure_try {A} (m : M A) (h : exn -> M A) :
  pure_state m -> (forall e, pure_state (h e)) -> pure_state (try_except m h).
Proof.
  intros Hm Hh p. specialize (Hm p). unfold try_except.
  destruct (m p) as [[a | e] p']; simpl in *; subst; [reflexivity | apply Hh].
Qed.

Ltac pure_tac :=
  match goal with
  | H : pure_state ?m |- pure_state ?m => exact H
  | |- pure_state (ret _) => apply pure_ret
  | |- pure_state (raise _) => apply pure_raise
  | |- pure_state get => apply pure_get
  | |- pure_state (bind _ _) => apply pure_bind; [pure_tac | intro; pure_tac]
  | |- pure_state (try_except _ _) => apply pure_try; [pure_tac | intro; pure_tac]
  | |- pure_state (if ?b then _ else _) => destruct b; pure_tac
  | |- pure_state (match ?x with _ => _ end) => destruct x; pure_tac
  | |- pure_state (let _ := _ in _) => cbv zeta; pure_tac
  | |- pure_state _ =>
      progress unfold _random_delay, reraise_login, _get_user_info_safe,
        _collect_stories_safe, _collect_feed_posts_safe, _download_file_safe,
        _download_carousel_post_safe, convert_collection_result_to_response; pure_tac
  end.

Lemma download_stories_pure (gw : gateway) (stories : list story) :
  pure_state (_download_stories_safe gw stories).
Proof. induction stories as [| s r IH]; simpl; pure_tac. Qed.

Lemma download_feed_pure (gw : gateway) (posts : list media) :
  pure_state (_download_feed_posts_safe gw posts).
Proof. induction posts as [| s r IH]; simpl; pure_tac. Qed.

Section Keeps.

(** A relation between the pool before and after a step, reflexive and
    transitive. *)
Variable R : AccountPool.pool -> AccountPool.pool -> Prop.
Hypothesis R_refl : forall p, R p p.
Hypothesis R_trans : forall p1 p2 p3, R p1 p2 -> R p2 p3 -> R p1 p3.

Lemma keeps_pure {A} (m : M A) : pure_state m -> keeps R m.
Proof. intros H p. rewrite H. apply R_refl. Qed.

Lemma keeps_modify (f : AccountPool.pool -> AccountPool.pool) :
  (forall p, R p (f p)) -> keeps R (modify f).
Proof. intros H p. apply H. Qed.

Lemma keeps_bind {A B} (m : M A) (k : A -> M B) :
  keeps R m -> (forall a, keeps R (k a)) -> keeps R (bind m k).
Proof.
  intros Hm Hk p. specialize (Hm p). unfold bind.
  destruct (m p) as [[a | e] p']; simpl in *; [| exact Hm].
  exact (R_trans _ _ _ Hm (Hk a p')).
Qed.

Lemma keeps_try {A} (m : M A) (h : exn -> M A) :
  keeps R m -> (forall e, keeps R (h e)) -> keeps R (try_except m h).
Proof.
  intros Hm Hh p. specialize (Hm p). unfold try_except.
  destruct (m p) as [[a | e] p']; simpl in *; [exact Hm |].
  exact (R_trans _ _ _ Hm (Hh e p')).
Qed.

End Keeps.

Ltac keeps_tac leaf :=
  match goal with
  | H : keeps ?R ?m |- keeps ?R ?m => exact H
  | |- keeps _ (bind _ _) =>
      apply keeps_bind; [assumption .. | keeps_tac leaf | intro; keeps_tac leaf]
  | |- keeps _ (try_except _ _) =>
      apply keeps_try; [assumption .. | keeps_tac leaf | intro; keeps_tac leaf]
  | |- keeps _ (modify _) => apply keeps_modify; leaf
  | |- keeps _ (if ?b then _ else _) => destruct b; keeps_tac leaf
  | |- keeps _ (match ?x with _ => _ end) => destruct x; keeps_tac leaf
  | |- keeps _ (let _ := _ in _) => cbv zeta; keeps_tac leaf
  | |- keeps _ (get_client _ _) => unfold get_client; keeps_tac leaf
  | |- keeps _ ?m =>
      apply keeps_pure; [assumption .. |
        first [ pure_tac | apply download_stories_pure | apply download_feed_pure ]]
  end.

Lemma bind_get {A} (k : AccountPool.pool -> M A) (p : AccountPool.pool) :
  bind get k p = k p p.
Proof. reflexivity. Qed.


Lemma length_replace_nth {A} (l : list A) i x : List.length (replace_nth l i x) = List.length l.
Proof.
  revert i; induction l as [| a l IH]; intros [| i]; simpl; auto.
Qed.

Lemma frame_update_account (i : nat) (p : AccountPool.pool) f :
  frame_except i p (update_account p i f).
Proof.
  unfold update_account, frame_except. destruct (nth_error (accounts p) i); simpl.
  - split; [apply length_replace_nth | intros j Hj; apply nth_error_replace_nth_other, Hj].
  - split; reflexivity.
Qed.

(** X16. collect_user_media keeps the number of accounts and changes no account other than the one get_available_account picks at the start. *)
Theorem collect_user_media_frame (gw : gateway) (settings : Settings) (now : datetime)
    (user : pyarg) (include_stories include_feed : bool) (max_feed_posts : Z)
    (p : AccountPool.pool) :
  List.length (accounts (snd (collect_user_media gw settings now user include_stories
                                include_feed max_feed_posts p)))
  = List.length (accounts p)
  /\ forall j, get_available_account settings now p <> Some j ->
     nth_error (accounts (snd (collect_user_media gw settings now user include_stories
                                include_feed max_feed_posts p))) j
     = nth_error (accounts p) j.
Proof.
  unfold collect_user_media.
  destruct (valid_username user) as [u |]; [| split; reflexivity].
  rewrite bind_get.
  destruct (selection_raises settings now p); [split; reflexivity |].
  destruct (get_available_account settings now p) as [i |] eqn:Hsel; [| split; reflexivity].
  match goal with
  | |- context [snd (?m p)] =>
      assert (Hk : keeps (frame_except i) m)
  end.
  { assert (Hrefl : forall q, frame_except i q q) by (intro q; split; reflexivity).
    assert (Htrans : forall q1 q2 q3, frame_except i q1 q2 -> frame_except i q2 q3 ->
                                      frame_except i q1 q3).
    { intros q1 q2 q3 [H1 H1'] [H2 H2']. split; [congruence |].
      intros j Hj. rewrite H2', H1'; auto. }
    keeps_tac ltac:(intro q; first
        [ split; reflexivity
        | apply frame_update_account
        | unfold mark_account_used; apply frame_update_account
        ]). }
  destruct (Hk p) as [Hl Hn]. split; [exact Hl |].
  intros j Hj. apply Hn. intro E. apply Hj. rewrite E. reflexivity.
Qed.


Lemma update_health_score_range (acc : InstagramAccount) (success : bool) :
  (0 <= health_score acc <= 100)%Q ->
  (0 <= health_score (update_health_score acc success) <= 100)%Q.
Proof.
  intros [H0 H1]. destruct success; simpl.
  - rewrite py_min_Qmin. split; [apply Q.min_glb; lra | apply Q.le_min_l].
  - rewrite py_max_Qmax. split; [apply Q.le_max_l | apply Q.max_lub; lra].
Qed.

Lemma in_replace_nth {A} (l : list A) i (x y : A) :
  In y (replace_nth l i x) -> In y l \/ y = x.
Proof.
  revert i; induction l as [| a l IH]; intros [| i]; simpl; try tauto.
  - intros [<- | H]; [right; reflexivity | left; right; exact H].
  - intros [<- | H]; [left; left; reflexivity |].
    destruct (IH i H); [left; right; assumption | right; assumption].
Qed.

Lemma health_ok_update_account (p : AccountPool.pool) (i : nat) f :
  (forall a, (0 <= health_score a <= 100)%Q -> (0 <= health_score (f a) <= 100)%Q) ->
  health_ok p -> health_ok (update_account p i f).
Proof.
  intros Hf Hp. unfold update_account.
  destruct (nth_error (accounts p) i) as [a |] eqn:Ha; [| exact Hp].
  intros acc Hin. simpl in Hin. destruct (in_replace_nth _ _ _ _ Hin) as [H | ->].
  - apply Hp, H.
  - apply Hf, Hp. exact (nth_error_In _ _ Ha).
Qed.

Lemma health_ok_mark_account_used settings now i success p :
  health_ok p -> health_ok (mark_account_used settings now i success p).
Proof.
  apply health_ok_update_account. intros a Ha.
  rewrite health_score_mark_account_used_acc. apply update_health_score_range. exact Ha.
Qed.

Lemma remove_first_incl (u : string) (l r : list InstagramAccount) :
  remove_first u l = Some r -> forall x, In x r -> In x l.
Proof.
  revert r; induction l as [| a l IH]; intros r H x Hx; simpl in H; [discriminate |].
  destruct (String.eqb (username a) u).
  - injection H as <-. right. exact Hx.
  - destruct (remove_first u l) as [r' |] eqn:E; simpl in H; [| discriminate].
    injection H as <-. destruct Hx as [<- | Hx]; [left; reflexivity | right; exact (IH r' eq_refl x Hx)].
Qed.

Lemma health_ok_save (p : AccountPool.pool) : health_ok p -> health_ok (_save_pool p).
Proof. exact (fun H => H). Qed.

Lemma health_score_set_status (a : InstagramAccount) (s : AccountStatus) :
  health_score (set_status a s) = health_score a.
Proof. reflexivity. Qed.

Ltac health_leaf :=
  let Hq := fresh "Hq" in
  intros ? Hq; unfold mark_account_used in *; try apply health_ok_save;
  first
    [ exact Hq
    | apply health_ok_update_account; [| exact Hq];
      let a := fresh "a" in let Ha := fresh "Ha" in
      intros a Ha;
      rewrite ?health_score_set_status, ?health_score_mark_account_used_acc;
      first [ exact Ha | apply update_health_score_range; exact Ha ] ].

Lemma collect_user_media_health (gw : gateway) (settings : Settings) (now : datetime)
    (user : pyarg) (include_stories include_feed : bool) (max_feed_posts : Z) :
  keeps (fun p p' => health_ok p -> health_ok p')
    (collect_user_media gw settings now user include_stories include_feed max_feed_posts).
Proof.
  assert (Hrefl : forall q, health_ok q -> health_ok q) by auto.
  assert (Htrans : forall q1 q2 q3 : AccountPool.pool,
             (health_ok q1 -> health_ok q2) -> (health_ok q2 -> health_ok q3) ->
             health_ok q1 -> health_ok q3) by auto.
  unfold collect_user_media.
  keeps_tac health_leaf.
Qed.

Lemma health_ok_get_client (gw : gateway) (i : nat) :
  keeps (fun p p' => health_ok p -> health_ok p') (get_client gw i).
Proof.
  assert (Hrefl : forall q, health_ok q -> health_ok q) by auto.
  assert (Htrans : forall q1 q2 q3 : AccountPool.pool,
             (health_ok q1 -> health_ok q2) -> (health_ok q2 -> health_ok q3) ->
             health_ok q1 -> health_ok q3) by auto.
  keeps_tac health_leaf.
Qed.

Lemma collect_user_content_health (gw : gateway) (settings : Settings) (now : datetime)
    (user : pyarg) (include_stories include_feed : bool) (max_feed_posts : Z) :
  keeps (fun p p' => health_ok p -> health_ok p')
    (collect_user_content gw settings now user include_stories include_feed max_feed_posts).
Proof.
  assert (Hrefl : forall q, health_ok q -> health_ok q) by auto.
  assert (Htrans : forall q1 q2 q3 : AccountPool.pool,
             (health_ok q1 -> health_ok q2) -> (health_ok q2 -> health_ok q3) ->
             health_ok q1 -> health_ok q3) by auto.
  pose proof (collect_user_media_health gw settings now user include_stories include_feed
                max_feed_posts).
  unfold collect_user_content.
  keeps_tac health_leaf.
Qed.

Lemma route_collect_health (gw : gateway) (settings : Settings) (now : datetime)
    (username : string) (include_stories include_feed : bool) (max_feed_posts : Z) :
  keeps (fun p p' => health_ok p -> health_ok p')
    (route_collect gw settings now username include_stories include_feed max_feed_posts).
Proof.
  assert (Hrefl : forall q, health_ok q -> health_ok q) by auto.
  assert (Htrans : forall q1 q2 q3 : AccountPool.pool,
             (health_ok q1 -> health_ok q2) -> (health_ok q2 -> health_ok q3) ->
             health_ok q1 -> health_ok q3) by auto.
  unfold route_collect.
  destruct (check_username username) as [d | c]; [keeps_tac health_leaf |].
  pose proof (collect_user_content_health gw settings now (PyStr c) include_stories include_feed
                max_feed_posts).
  keeps_tac health_leaf.
Qed.

(** X15. Every account's health_score stays between 0 and 100 through mark_account_used, get_client, health_check, add_account, remove_account, collect_user_media, the collection service and the collection route, when it starts there. *)
Theorem health_range_invariant :
  (forall settings now i success p,
     health_ok p -> health_ok (mark_account_used settings now i success p))
  /\ (forall gw i p, health_ok p -> health_ok (snd (get_client gw i p)))
  /\ (forall settings now test_login p,
        health_ok p -> health_ok (health_check settings now test_login p))
  /\ (forall session_dir created_at_default test_login u pw px p,
        health_ok p ->
        health_ok (snd (add_account session_dir created_at_default test_login u pw px p)))
  /\ (forall fs u p, health_ok p -> health_ok (snd (remove_account fs u p)))
  /\ (forall gw settings now user include_stories include_feed max_feed_posts p,
        health_ok p ->
        health_ok (snd (collect_user_media gw settings now user include_stories include_feed
                          max_feed_posts p)))
  /\ (forall gw settings now user include_stories include_feed max_feed_posts p,
        health_ok p ->
        health_ok (snd (collect_user_content gw settings now user include_stories include_feed
                          max_feed_posts p)))
  /\ (forall gw settings now username include_stories include_feed max_feed_posts p,
        health_ok p ->
        health_ok (snd (route_collect gw settings now username include_stories include_feed
                          max_feed_posts p))).
Proof.
  split; [intros; apply health_ok_mark_account_used; assumption |].
  split; [intros gw i p; apply health_ok_get_client |].
  split.
  { intros settings now test_login p Hp acc Hin. unfold health_check, _save_pool in Hin.
    simpl in Hin. apply in_map_iff in Hin. destruct Hin as [a [<- Ha]].
    destruct (health_check_account_frame settings now test_login a)
      as [_ [_ [_ [_ [_ [Hh _]]]]]].
    rewrite Hh. apply Hp, Ha. }
  split.
  { intros session_dir created_at_default test_login u pw px p Hp.
    unfold add_account.
    destruct (existsb _ _); [exact Hp |]. unfold _test_account_login.
    destruct (test_login _); simpl; try exact Hp.
    intros acc Hin. simpl in Hin. apply in_app_or in Hin.
    destruct Hin as [Hin | [<- | []]]; [apply Hp, Hin | simpl; lra]. }
  split.
  { intros fs u p Hp. unfold remove_account, bind, get, modify, ret, raise.
    destruct (find _ (accounts p)) as [account |]; [| exact Hp].
    destruct (remove_first u (accounts p)) as [r |] eqn:E; [| exact Hp].
    destruct (fs (session_file account)); intros acc Hin; apply Hp;
      unfold _save_pool in Hin; simpl in Hin;
      first [exact Hin | exact (remove_first_incl u _ _ E acc Hin)]. }
  split; [intros; apply collect_user_media_health; assumption |].
  split; [intros; apply collect_user_content_health; assumption |].
  intros; apply route_collect_health; assumption.
Qed.


Lemma download_file_safe_spec (gw : gateway) (pk mt : Z) (p : AccountPool.pool) :
  exists o, _download_file_safe gw pk mt p = (Ret o, p)
            /\ forall f, o = Some f -> mf_id f = PkId pk /\ file_ok f.
Proof.
  unfold _download_file_safe, try_except.
  destruct (download_sync gw pk mt) as [[tf err] t].
  destruct err as [e |].
  - destruct (truthy e); [destruct (contains _ _) |];
      (exists None; split; [reflexivity | discriminate]).
  - destruct tf as [b |]; [destruct t as [t |] |];
      try (exists None; split; [reflexivity | discriminate]).
    exists (Some (mkMediaFile (PkId pk) t b (List.length b))). split; [reflexivity |].
    intros f [= <-]. split; reflexivity.
Qed.

Lemma download_stories_spec (gw : gateway) (stories : list story) (p : AccountPool.pool) :
  exists fs, _download_stories_safe gw stories p = (Ret fs, p)
             /\ (List.length fs <= List.length stories)%nat
             /\ forall f, In f fs ->
                file_ok f /\ exists s, In s stories /\ mf_id f = PkId (story_pk s).
Proof.
  induction stories as [| s r IH].
  - exists []. split; [reflexivity |]. split; [simpl; lia | intros f []].
  - destruct IH as [fs [Hr [Hl Hf]]].
    destruct (download_file_safe_spec gw (story_pk s) (story_media_type s) p) as [o [Ho Hoo]].
    cbn [_download_stories_safe]. unfold bind at 1, try_except at 1. unfold bind at 1.
    rewrite Ho. cbn [ret]. unfold bind at 1. rewrite Hr. unfold ret.
    destruct o as [f |]; simpl.
    + exists (f :: fs). split; [reflexivity |]. split; [simpl; lia |].
      intros g [<- | Hg].
      * destruct (Hoo f eq_refl) as [Hid Hok]. split; [exact Hok |]. exists s. split; [left; reflexivity | exact Hid].
      * destruct (Hf g Hg) as [Hok [s' [Hs' Hid]]]. split; [exact Hok |]. exists s'. split; [right; exact Hs' | exact Hid].
    + exists fs. split; [reflexivity |]. split; [simpl; lia |].
      intros g Hg. destruct (Hf g Hg) as [Hok [s' [Hs' Hid]]]. split; [exact Hok |]. exists s'. split; [right; exact Hs' | exact Hid].
Qed.

Lemma download_sync_ok (gw : gateway) (r : resource) :
  (resource_media_type r = 1 \/ resource_media_type r = 2) ->
  (exists b, gw_download gw (resource_pk r) = GOk b) ->
  exists b t, download_sync gw (resource_pk r) (resource_media_type r) = (Some b, None, Some t).
Proof.
  intros Ht [b Hb]. unfold download_sync. rewrite Hb.
  destruct Ht as [-> | ->]; simpl; eauto.
Qed.

Lemma carousel_items_spec (gw : gateway) (pk : Z) (rs : list resource) (i : Z) :
  (forall f, In f (download_carousel_items gw pk i rs) -> file_ok f)
  /\ exists ks,
       map mf_id (download_carousel_items gw pk i rs) = map (CarouselId pk) ks
       /\ Sorted Z.lt ks
       /\ Forall (fun k => i + 1 <= k <= i + Z.of_nat (List.length rs)) ks
       /\ ((forall r, In r rs -> exists b t,
              download_sync gw (resource_pk r) (resource_media_type r) = (Some b, None, Some t)) ->
           ks = map (fun n => i + Z.of_nat n) (seq 1 (List.length rs))).
Proof.
  revert i; induction rs as [| r rs IH]; intro i.
  - split; [intros f [] |]. exists []. simpl. repeat split; auto.
  - destruct (IH (i + 1)) as [Hok [ks [Hids [Hs [Hb Hall]]]]].
    assert (Hb' : Forall (fun k => i + 1 <= k <= i + Z.of_nat (List.length (r :: rs))) ks).
    { eapply Forall_impl; [| exact Hb]. simpl. intros k Hk. lia. }
    cbn [download_carousel_items].
    destruct (download_sync gw (resource_pk r) (resource_media_type r)) as [[tf err] t] eqn:Ed.
    destruct err as [e |]; [| destruct tf as [b |]; [destruct t as [t |] |]].
    + split; [exact Hok |]. exists ks. repeat split; auto.
      intro H. destruct (H r (or_introl eq_refl)) as [b [t' Hr]]. congruence.
    + split.
      * intros f [<- | Hf]; [reflexivity | apply Hok, Hf].
      * exists ((i + 1) :: ks). simpl. rewrite Hids. repeat split.
        -- constructor; [exact Hs |]. destruct ks as [| k ks']; constructor.
           inversion Hb; subst. lia.
        -- constructor; [lia | exact Hb'].
        -- intro H. rewrite (Hall (fun r' Hr' => H r' (or_intror Hr'))).
           f_equal; try lia; rewrite <- (seq_shift (List.length rs) 1), map_map;
           apply map_ext; intro n; lia.
    + split; [exact Hok |]. exists ks. repeat split; auto.
      intro H. destruct (H r (or_introl eq_refl)) as [b' [t' Hr]]. congruence.
    + split; [exact Hok |]. exists ks. repeat split; auto.
      intro H. destruct (H r (or_introl eq_refl)) as [b' [t' Hr]]. congruence.
Qed.

Lemma download_feed_spec (gw : gateway) (posts : list media) (p : AccountPool.pool) :
  exists fs, _download_feed_posts_safe gw posts p = (Ret fs, p)
             /\ forall f, In f fs ->
                file_ok f
                /\ exists post, In post posts
                   /\ (mf_id f = PkId (media_pk post) /\ media_media_type post <> 8
                       \/ exists k, mf_id f = CarouselId (media_pk post) k
                                    /\ media_media_type post = 8).
Proof.
  induction posts as [| post r IH].
  - exists []. split; [reflexivity | intros f []].
  - destruct IH as [fs [Hr Hf]].
    assert (Hget : exists got : list MediaFile,
               (if media_media_type post =? 8 then
                  fs <- _download_carousel_post_safe gw post ;; ret (Some fs)
                else
                  mf <- _download_file_safe gw (media_pk post) (media_media_type post) ;;
                  ret (Some (match mf with Some f => [f] | None => [] end))) p
               = (Ret (Some got), p)
               /\ forall f, In f got ->
                  file_ok f
                  /\ (mf_id f = PkId (media_pk post) /\ media_media_type post <> 8
                      \/ exists k, mf_id f = CarouselId (media_pk post) k
                                   /\ media_media_type post = 8)).
    { destruct (media_media_type post =? 8) eqn:E8.
      - apply Z.eqb_eq in E8.
        exists (download_carousel_items gw (media_pk post) 0 (media_resources post)).
        split; [reflexivity |].
        destruct (carousel_items_spec gw (media_pk post) (media_resources post) 0)
          as [Hok [ks [Hids _]]].
        intros f Hin. split; [apply Hok, Hin |]. right.
        assert (Hm : In (mf_id f) (map (CarouselId (media_pk post)) ks))
          by (rewrite <- Hids; apply in_map, Hin).
        apply in_map_iff in Hm. destruct Hm as [k [Hk _]]. exists k. split; [auto | exact E8].
      - apply Z.eqb_neq in E8.
        destruct (download_file_safe_spec gw (media_pk post) (media_media_type post) p)
          as [o [Ho Hoo]].
        exists (match o with Some f => [f] | None => [] end).
        unfold bind. rewrite Ho. split; [reflexivity |].
        destruct o as [f |]; [| intros g []].
        intros g [<- | []]. destruct (Hoo f eq_refl) as [Hid Hok].
        split; [exact Hok | left; split; assumption]. }
    destruct Hget as [got [Hg Hgot]].
    exists (app got fs).
    cbn [_download_feed_posts_safe]. unfold bind at 1, try_except at 1.
    rewrite Hg. unfold bind at 1. rewrite Hr. split; [reflexivity |].
    intros f Hin. apply in_app_or in Hin. destruct Hin as [Hin | Hin].
    + destruct (Hgot f Hin) as [Hok Hid]. split; [exact Hok |].
      exists post. split; [left; reflexivity | exact Hid].
    + destruct (Hf f Hin) as [Hok [post' [Hp' Hid]]]. split; [exact Hok |].
      exists post'. split; [right; exact Hp' | exact Hid].
Qed.

(** X17. _download_stories_safe and _download_feed_posts_safe never raise and do not touch the pool. Every file they return has a size equal to its number of bytes and comes from one of the given stories or posts, with the carousel id form exactly for carousel posts; stories give at most one file each. *)
Theorem download_helpers_never_raise (gw : gateway) (p : AccountPool.pool) :
  (forall stories,
     exists fs, _download_stories_safe gw stories p = (Ret fs, p)
                /\ (List.length fs <= List.length stories)%nat
                /\ forall f, In f fs ->
                   size_bytes f = List.length (binary_data f)
                   /\ exists s, In s stories /\ mf_id f = PkId (story_pk s))
  /\ (forall posts,
        exists fs, _download_feed_posts_safe gw posts p = (Ret fs, p)
                   /\ forall f, In f fs ->
                      size_bytes f = List.length (binary_data f)
                      /\ exists post, In post posts
                         /\ (mf_id f = PkId (media_pk post) /\ media_media_type post <> 8
                             \/ exists k, mf_id f = CarouselId (media_pk post) k
                                          /\ media_media_type post = 8)).
Proof.
  split; [intro s; apply download_stories_spec | intro s; apply download_feed_spec].
Qed.

(** X18. _download_carousel_post_safe never raises. Its files carry the post id with item indices that strictly increase and lie between 1 and the number of resources; when every resource is a photo or video that downloads, the indices are exactly 1 to that number. *)
Theorem carousel_item_numbering (gw : gateway) (post : media) (p : AccountPool.pool) :
  let items := download_carousel_items gw (media_pk post) 0 (media_resources post) in
  _download_carousel_post_safe gw post p = (Ret items, p)
  /\ (forall f, In f items -> size_bytes f = List.length (binary_data f))
  /\ exists ks,
       map mf_id items = map (CarouselId (media_pk post)) ks
       /\ Sorted Z.lt ks
       /\ Forall (fun k => 1 <= k <= Z.of_nat (List.length (media_resources post))) ks
       /\ ((forall r, In r (media_resources post) ->
              (resource_media_type r = 1 \/ resource_media_type r = 2)
              /\ exists b, gw_download gw (resource_pk r) = GOk b) ->
           ks = map Z.of_nat (seq 1 (List.length (media_resources post)))).
Proof.
  intro items. split; [reflexivity |].
  destruct (carousel_items_spec gw (media_pk post) (media_resources post) 0)
    as [Hok [ks [Hids [Hs [Hb Hall]]]]].
  split; [exact Hok |]. exists ks. split; [exact Hids |]. split; [exact Hs |].
  split; [eapply Forall_impl; [| exact Hb]; simpl; intros k Hk; lia |].
  intro H. rewrite Hall.
  - apply map_ext. intro n. lia.
  - intros r Hr. destruct (H r Hr) as [Ht Hd]. apply download_sync_ok; assumption.
Qed.


Lemma post_ret {A} (Q : A -> Prop) (a : A) : Q a -> post_ok Q (ret a).
Proof. intros H p a' p' E. injection E as <- <-. exact H. Qed.

Lemma post_raise {A} (Q : A -> Prop) (e : exn) : post_ok Q (raise e).
Proof. intros p a p' E. discriminate E. Qed.

Lemma post_bind {A B} (Q1 : A -> Prop) (Q : B -> Prop) (m : M A) (k : A -> M B) :
  post_ok Q1 m -> (forall a, Q1 a -> post_ok Q (k a)) -> post_ok Q (bind m k).
Proof.
  intros Hm Hk p b p' E. unfold bind in E.
  destruct (m p) as [[a | e] p1] eqn:Em; [| discriminate E].
  exact (Hk a (Hm p a p1 Em) p1 b p' E).
Qed.

Lemma post_any {A} (m : M A) : post_ok (fun _ => True) m.
Proof. intros p a p' _. exact I. Qed.

Lemma post_try {A} (Q : A -> Prop) (m : M A) (h : exn -> M A) :
  post_ok Q m -> (forall e, post_ok Q (h e)) -> post_ok Q (try_except m h).
Proof.
  intros Hm Hh p a p' E. unfold try_except in E.
  destruct (m p) as [[a' | e] p1] eqn:Em.
  - injection E as <- <-. exact (Hm p a' p1 Em).
  - exact (Hh e p1 a p' E).
Qed.

Lemma post_download_stories (gw : gateway) (stories : list story) :
  post_ok (Forall file_ok) (_download_stories_safe gw stories).
Proof.
  intros p fs p' E. destruct (download_stories_spec gw stories p) as [fs' [E' [_ Hf]]].
  rewrite E' in E. injection E as <- _. apply Forall_forall. intros f Hin. apply (Hf f Hin).
Qed.

Lemma post_download_feed (gw : gateway) (posts : list media) :
  post_ok (Forall file_ok) (_download_feed_posts_safe gw posts).
Proof.
  intros p fs p' E. destruct (download_feed_spec gw posts p) as [fs' [E' Hf]].
  rewrite E' in E. injection E as <- _. apply Forall_forall. intros f Hin. apply (Hf f Hin).
Qed.

Ltac files_tac :=
  match goal with
  | |- post_ok _ (ret _) => apply post_ret; constructor
  | |- post_ok _ (try_except _ _) => apply post_try; [files_tac | intro; files_tac]
  | |- post_ok _ (bind _ _) => eapply post_bind; [apply post_any | intros ? _; files_tac]
  | |- post_ok _ (if ?b then _ else _) => destruct b; files_tac
  | |- post_ok _ (match ?x with _ => _ end) => destruct x; files_tac
  | |- post_ok _ (_download_stories_safe _ _) => apply post_download_stories
  | |- post_ok _ (_download_feed_posts_safe _ _) => apply post_download_feed
  end.

Ltac post_tac leaf :=
  match goal with
  | H : post_ok ?Q ?m |- post_ok ?Q ?m => exact H
  | |- post_ok _ (ret _) => apply post_ret; leaf
  | |- post_ok _ (raise _) => apply post_raise
  | |- post_ok _ (try_except _ _) => apply post_try; [post_tac leaf | intro; post_tac leaf]
  | |- post_ok ?Q (bind ?m _) =>
      first
        [ apply post_bind with (Q1 := Forall file_ok);
          [solve [files_tac] | let H := fresh "Hfiles" in intros ? H; post_tac leaf]
        | apply post_bind with
            (Q1 := fun s : (_ + _)%type => match s with inl _ => True | inr r => Q r end);
          [solve [post_tac leaf] | let H := fresh "Hstep" in intros ? H; post_tac leaf]
        | eapply post_bind; [apply post_any | intros ? _; post_tac leaf] ]
  | |- post_ok _ (if ?b then _ else _) => destruct b; post_tac leaf
  | |- post_ok _ (match ?x with _ => _ end) => destruct x; post_tac leaf
  | |- post_ok _ (let _ := _ in _) => cbv zeta; post_tac leaf
  | |- ?G => idtac "STUCK" G; fail 100
  end.


Ltac err_leaf := simpl in *; first [exact I | assumption | discriminate | congruence | intros ?; discriminate].

Lemma collect_user_media_error_set (gw : gateway) (settings : Settings) (now : datetime)
    (user : pyarg) (include_stories include_feed : bool) (max_feed_posts : Z) :
  post_ok (fun r => cr_username r = user
                    /\ (cr_success r = false -> cr_error_message r <> None)
                    /\ (cr_success r = true -> cr_account_used r <> None))
    (collect_user_media gw settings now user include_stories include_feed max_feed_posts).
Proof.
  unfold collect_user_media.
  post_tac ltac:(simpl in *; first [exact I | assumption
                                   | split; [reflexivity | split; intro Hx; discriminate]]).
Qed.

Lemma collect_user_media_no_account (gw : gateway) (settings : Settings) (now : datetime)
    (user : pyarg) (include_stories include_feed : bool) (max_feed_posts : Z)
    (p p' : AccountPool.pool) (r : CollectionResult) :
  collect_user_media gw settings now user include_stories include_feed max_feed_posts p = (Ret r, p') ->
  cr_error_message r = Some NoAccountAvailable ->
  get_available_account settings now p = None.
Proof.
  unfold collect_user_media. intros H Hna.
  destruct (valid_username user).
  2: { injection H as <- _. discriminate Hna. }
  rewrite bind_get in H.
  destruct (get_available_account settings now p) as [i |] eqn:E; [exfalso | reflexivity].
  revert H.
  match goal with
  | |- ?m p = _ -> _ =>
      assert (Hp : post_ok (fun r => cr_error_message r <> Some NoAccountAvailable) m)
        by (cbv zeta; post_tac err_leaf)
  end.
  intro H. exact (Hp _ _ _ H Hna).
Qed.

Lemma filter_length_zero {A} (f : A -> bool) (l : list A) :
  List.length (filter f l) = 0%nat <-> forall x, In x l -> f x = false.
Proof.
  induction l as [| a l IH]; simpl; [split; [tauto | reflexivity] |].
  destruct (f a) eqn:E; simpl.
  - split; [discriminate | intro H; rewrite (H a (or_introl eq_refl)) in E; discriminate].
  - rewrite IH. split.
    + intros H x [<- | Hin]; [exact E | apply H, Hin].
    + intros H x Hin. apply H. right. exact Hin.
Qed.

Lemma active_count_zero (l : list InstagramAccount) :
  (List.length (filter (fun acc => AccountStatus_eqb (status acc) ACTIVE) l) =? 0)%nat = true
  <-> forall acc, In acc l -> status acc <> ACTIVE.
Proof.
  rewrite Nat.eqb_eq, filter_length_zero. split.
  - intros H acc Hin E. specialize (H acc Hin). rewrite E in H. discriminate.
  - intros H acc Hin. destruct (AccountStatus_eqb (status acc) ACTIVE) eqn:E; [| reflexivity].
    apply AccountStatus_eqb_eq in E. exfalso. exact (H acc Hin E).
Qed.

Lemma collect_user_media_raise (gw : gateway) (settings : Settings) (now : datetime)
    (user : pyarg) (include_stories include_feed : bool) (max_feed_posts : Z)
    (p p1 : AccountPool.pool) (e : exn) :
  collect_user_media gw settings now user include_stories include_feed max_feed_posts p
    = (Raise e, p1) ->
  e = ZeroDivisionError "division by zero"%string /\ p1 = p
  /\ selection_raises settings now p = true.
Proof.
  destruct (Z.eq_dec (max_daily_operations_per_account settings) 0) as [Hz | Hz].
  2: { intro H. destruct (collect_user_media_noraise gw settings now user include_stories
                            include_feed max_feed_posts Hz p) as [a [p2 E]].
       rewrite E in H. discriminate H. }
  unfold collect_user_media. destruct (valid_username user) as [u |]; [| discriminate].
  rewrite bind_get. destruct (selection_raises settings now p) eqn:Hs.
  - intro H. injection H as <- <-. auto.
  - match goal with
    | |- ?m p = _ -> _ =>
        assert (Hn : noraise m) by (cbv zeta; noraise_tac)
    end.
    destruct (Hn p) as [a [p2 E]]. intro H. rewrite E in H. discriminate H.
Qed.

Lemma collect_user_content_result (gw : gateway) (settings : Settings) (now : datetime)
    (user : pyarg) (include_stories include_feed : bool) (max_feed_posts : Z)
    (p : AccountPool.pool) :
  exists r p',
    collect_user_content gw settings now user include_stories include_feed max_feed_posts p
      = (Ret r, p')
    /\ (((forall acc, In acc (accounts p) -> status acc <> ACTIVE)
         /\ r = ErrorResponse user (Some "Nenhuma conta disponível no pool"%string)
                  "NO_ACCOUNTS_AVAILABLE"
         /\ p' = p)
        \/ ((exists acc, In acc (accounts p) /\ status acc = ACTIVE)
            /\ exists res,
                 collect_user_media gw settings now user include_stories include_feed
                   max_feed_posts p = (Ret res, p')
                 /\ cr_username res = user
                 /\ ((cr_success res = false
                      /\ exists e, cr_error_message res = Some e /\ e <> NoAccountAvailable
                         /\ r = ErrorResponse user (Some (error_message_text e)) "COLLECTION_FAILED")
                     \/ (cr_success res = true /\ r = _build_success_response_safe res user)))
        \/ (selection_raises settings now p = true
            /\ r = ErrorResponse user (Some "Erro interno: division by zero"%string)
                     "INTERNAL_ERROR"
            /\ p' = p)).
Proof.
  unfold collect_user_content. rewrite bind_get.
  destruct (List.length (filter (fun acc => AccountStatus_eqb (status acc) ACTIVE) (accounts p)) =? 0)%nat
    eqn:E.
  - do 2 eexists. split; [reflexivity |]. left.
    split; [apply (proj1 (active_count_zero _)), E | split; reflexivity].
  - assert (Hact : exists acc, In acc (accounts p) /\ status acc = ACTIVE).
    { destruct (get_available_account settings now p) as [i |] eqn:Eg.
      - destruct (get_available_account_some _ _ _ _ Eg) as [acc [Hn [Hs _]]].
        exists acc. split; [exact (nth_error_In _ _ Hn) | exact Hs].
      - pose proof (proj2 (active_count_zero (accounts p))
                      (proj1 (get_available_account_none settings now p) Eg)) as E'.
        rewrite E' in E. discriminate. }
    destruct (collect_user_media gw settings now user include_stories include_feed
                max_feed_posts p) as [[res | ex] p1] eqn:Hres.
    2: { destruct (collect_user_media_raise gw settings now user include_stories include_feed
                     max_feed_posts p p1 ex Hres) as [-> [-> Hsel]].
         unfold try_except, bind at 1. unfold bind at 1. rewrite Hres.
         do 2 eexists. split; [reflexivity |]. right. right.
         split; [exact Hsel | split; reflexivity]. }
    pose proof (collect_user_media_error_set gw settings now user include_stories include_feed
                  max_feed_posts p res p1 Hres) as [Hu [Herr _]].
    unfold try_except, bind at 1. unfold bind at 1. rewrite Hres.
    unfold ret at 1. cbv beta iota. destruct (cr_success res) eqn:Es; simpl.
    + do 2 eexists. split; [reflexivity |]. right. left. split; [exact Hact |].
      exists res. split; [reflexivity |]. split; [exact Hu |]. right. split; [exact Es | reflexivity].
    + destruct (cr_error_message res) as [e |] eqn:Ee; [| exfalso; exact (Herr eq_refl eq_refl)].
      do 2 eexists. split; [reflexivity |]. right. left. split; [exact Hact |].
      exists res. split; [reflexivity |]. split; [exact Hu |]. left.
      split; [exact Es |]. exists e. split; [exact Ee |]. split; [| reflexivity].
      intros ->. apply (collect_user_media_no_account _ _ _ _ _ _ _ _ _ _ Hres) in Ee.
      pose proof (proj1 (get_available_account_none settings now p) Ee) as Hn. destruct Hact as [acc [Hin Hs]].
      exact (Hn acc Hin Hs).
Qed.

(** Error texts other than the no-account one. *)
Lemma error_message_text_no_account (e : error_message) :
  e <> NoAccountAvailable -> error_message_text e <> "Nenhuma conta disponível no pool"%string.
Proof. destruct e; simpl; intros H; [discriminate | congruence | discriminate ..]. Qed.

(** X19. collect_user_content never raises, and every error response names the requested user and has an error text. NO_ACCOUNTS_AVAILABLE comes only when no account is ACTIVE, and INTERNAL_ERROR 'Erro interno: division by zero' only when the daily limit is 0 and an account is available, both with the pool unchanged; otherwise the code is COLLECTION_FAILED, with a text other than the no-account message. *)
Theorem collect_user_content_error_codes (gw : gateway) (settings : Settings) (now : datetime)
    (user : pyarg) (include_stories include_feed : bool) (max_feed_posts : Z)
    (p : AccountPool.pool) :
  exists r p',
    collect_user_content gw settings now user include_stories include_feed max_feed_posts p
      = (Ret r, p')
    /\ match r with
       | ErrorResponse u err code =>
           u = user /\ err <> None
           /\ ((code = "NO_ACCOUNTS_AVAILABLE"%string /\ p' = p
                /\ forall acc, In acc (accounts p) -> status acc <> ACTIVE)
               \/ (code = "INTERNAL_ERROR"%string
                   /\ err = Some "Erro interno: division by zero"%string /\ p' = p
                   /\ max_daily_operations_per_account settings = 0%Z
                   /\ exists acc, In acc (accounts p) /\ is_available now acc = true)
               \/ (code = "COLLECTION_FAILED"%string
                   /\ err <> Some "Nenhuma conta disponível no pool"%string
                   /\ exists acc, In acc (accounts p) /\ status acc = ACTIVE))
       | SuccessResponse u _ _ _ _ => u = user
       end.
Proof.
  destruct (collect_user_content_result gw settings now user include_stories include_feed
              max_feed_posts p)
    as [r [p' [E [[Hnone [-> ->]]
                 | [[Hact [res [_ [_ [[_ [e [_ [He ->]]]] | [_ ->]]]]]] | [Hsel [-> ->]]]]]]].
  - exists (ErrorResponse user (Some "Nenhuma conta disponível no pool"%string)
              "NO_ACCOUNTS_AVAILABLE"), p.
    split; [exact E |]. split; [reflexivity |]. split; [discriminate |].
    left. auto.
  - exists (ErrorResponse user (Some (error_message_text e)) "COLLECTION_FAILED"), p'.
    split; [exact E |]. split; [reflexivity |]. split; [discriminate |].
    right. right. split; [reflexivity |]. split; [| exact Hact].
    intro Heq. injection Heq as Heq. exact (error_message_text_no_account e He Heq).
  - exists (_build_success_response_safe res user), p'. split; [exact E | reflexivity].
  - exists (ErrorResponse user (Some "Erro interno: division by zero"%string) "INTERNAL_ERROR"), p.
    split; [exact E |]. split; [reflexivity |]. split; [discriminate |].
    right. left. split; [reflexivity |]. split; [reflexivity |]. split; [reflexivity |].
    exact (proj1 (selection_raises_spec settings now p) Hsel).
Qed.





(** * The username checks of the route *)



Ltac all_chars := intros [[] [] [] [] [] [] [] []]; vm_compute.

Lemma user_char_not_space (c : ascii) : user_char c = true -> is_space c = false.
Proof. revert c; all_chars; congruence. Qed.

Lemma user_char_lower (c : ascii) : user_char c = true -> lower_char c = c.
Proof. revert c; all_chars; congruence. Qed.

Lemma user_char_not_at (c : ascii) : user_char c = true -> Ascii.eqb "@"%char c = false.
Proof. revert c; all_chars; congruence. Qed.

Lemma user_char_range (c : ascii) :
  user_char c = true ->
  (97 <= nat_of_ascii c <= 122 \/ 48 <= nat_of_ascii c <= 57 \/ c = "_"%char \/ c = "."%char)%nat.
Proof.
  revert c; all_chars; intro H;
    first [ discriminate H | left; lia | right; left; lia
          | right; right; left; reflexivity | right; right; right; reflexivity ].
Qed.

Lemma lower_char_user_char (d : ascii) :
  is_alnum_char (lower_char d) || Ascii.eqb (lower_char d) "_"%char
  || Ascii.eqb (lower_char d) "."%char = true ->
  user_char (lower_char d) = true.
Proof. revert d; all_chars; congruence. Qed.

Lemma user_char_alnum (c : ascii) :
  user_char c = true -> Ascii.eqb c "_"%char = false -> Ascii.eqb c "."%char = false ->
  is_alnum_char c = true.
Proof. revert c; all_chars; congruence. Qed.

Lemma lstrip_by_in (f : ascii -> bool) (s : string) (c : ascii) :
  In c (list_ascii_of_string (lstrip_by f s)) -> In c (list_ascii_of_string s).
Proof.
  induction s as [| d r IH]; simpl; [tauto |].
  destruct (f d); simpl; [intro H; right; exact (IH H) | exact (fun H => H)].
Qed.

Lemma lower_in (s : string) (c : ascii) : In c (list_ascii_of_string (lower s)) -> exists d, c = lower_char d.
Proof.
  induction s as [| d r IH]; simpl; [tauto |].
  intros [<- | H]; [exists d; reflexivity | exact (IH H)].
Qed.

Lemma remove_char_in (a c : ascii) (s : string) :
  In c (list_ascii_of_string s) -> c <> a -> In c (list_ascii_of_string (remove_char a s)).
Proof.
  induction s as [| d r IH]; simpl; [tauto |].
  intros [-> | H] Hne.
  - destruct (Ascii.eqb_spec c a); [contradiction | left; reflexivity].
  - destruct (Ascii.eqb d a); [| right]; exact (IH H Hne).
Qed.

Lemma remove_char_sub (a c : ascii) (s : string) :
  In c (list_ascii_of_string (remove_char a s)) -> In c (list_ascii_of_string s).
Proof.
  induction s as [| d r IH]; simpl; [tauto |].
  destruct (Ascii.eqb d a); simpl; [intro H; right; exact (IH H) |].
  intros [<- | H]; [left; reflexivity | right; exact (IH H)].
Qed.

Lemma all_alnum_in (s : string) (c : ascii) :
  all_alnum s = true -> In c (list_ascii_of_string s) -> is_alnum_char c = true.
Proof.
  induction s as [| d r IH]; simpl; [tauto |].
  intros H [<- | Hin]; apply andb_prop in H; [exact (proj1 H) | exact (IH (proj2 H) Hin)].
Qed.

Lemma lstrip_by_id (f : ascii -> bool) (s : string) :
  (forall c, In c (list_ascii_of_string s) -> f c = false) -> lstrip_by f s = s.
Proof. destruct s as [| c r]; simpl; [reflexivity |]. intro H. rewrite (H c (or_introl eq_refl)). reflexivity. Qed.

Lemma rstrip_by_id (f : ascii -> bool) (s : string) :
  (forall c, In c (list_ascii_of_string s) -> f c = false) -> rstrip_by f s = s.
Proof.
  induction s as [| c r IH]; simpl; [reflexivity |].
  intro H. rewrite IH by (intros d Hd; apply H; right; exact Hd).
  destruct r; [rewrite (H c (or_introl eq_refl)) |]; reflexivity.
Qed.

Lemma lower_id (s : string) : (forall c, In c (list_ascii_of_string s) -> lower_char c = c) -> lower s = s.
Proof.
  induction s as [| c r IH]; simpl; [reflexivity |].
  intro H. rewrite (H c (or_introl eq_refl)), IH by (intros d Hd; apply H; right; exact Hd).
  reflexivity.
Qed.

Lemma check_username_chars (username clean : string) :
  check_username username = inr clean ->
  clean = lstrip_by (Ascii.eqb "@"%char) (lower (strip username))
  /\ (forall c, In c (list_ascii_of_string clean) -> user_char c = true)
  /\ (exists c, In c (list_ascii_of_string clean) /\ is_alnum_char c = true)
  /\ isalnum (remove_char "." (remove_char "_" clean)) = true.
Proof.
  unfold check_username.
  destruct (negb (truthy username) || negb (truthy (strip username))); [discriminate |].
  set (cl := lstrip_by (Ascii.eqb "@"%char) (lower (strip username))).
  destruct (isalnum (remove_char "." (remove_char "_" cl))) eqn:Ha; simpl; [| discriminate].
  intros [= <-]. pose proof Ha as Hisal. unfold isalnum in Ha. apply andb_prop in Ha.
  destruct Ha as [Ht Ha].
  split; [reflexivity |]. split; [| split; [| exact Hisal]].
  - intros c Hc.
    destruct (lower_in _ _ (lstrip_by_in _ _ _ Hc)) as [d ->].
    apply lower_char_user_char.
    destruct (Ascii.eqb_spec (lower_char d) "_"%char) as [-> | Hu]; [reflexivity |].
    destruct (Ascii.eqb_spec (lower_char d) "."%char) as [-> | Hd]; [reflexivity |].
    rewrite (all_alnum_in _ _ Ha (remove_char_in _ _ _ (remove_char_in _ _ _ Hc Hu) Hd)).
    reflexivity.
  - destruct (remove_char "." (remove_char "_" cl)) as [| c r] eqn:Er; [discriminate Ht |].
    exists c. split.
    + apply (remove_char_sub "_"%char), (remove_char_sub "."%char). rewrite Er. left. reflexivity.
    + apply (all_alnum_in _ _ Ha). left. reflexivity.
Qed.

(** X21. An ASCII username the route accepts is cleaned to a non-empty string of lowercase letters, digits, '_' and '.', with at least one letter or digit, and the cleaned username is accepted unchanged. *)
Theorem check_username_accepted (username clean : string) :
  is_ascii username = true ->
  check_username username = inr clean ->
  clean <> EmptyString
  /\ (forall c, In c (list_ascii_of_string clean) ->
       (97 <= nat_of_ascii c <= 122 \/ 48 <= nat_of_ascii c <= 57
        \/ c = "_"%char \/ c = "."%char)%nat)
  /\ (exists c, In c (list_ascii_of_string clean) /\ is_alnum_char c = true)
  /\ check_username clean = inr clean.
Proof.
  intros _ H. destruct (check_username_chars _ _ H) as [Hcl [Hch [[c [Hc Hal]] Hisal]]].
  split; [intros ->; destruct Hc |].
  split; [intros d Hd; apply user_char_range, Hch, Hd |].
  split; [exists c; split; assumption |].
  assert (Hs : strip clean = clean).
  { unfold strip. rewrite lstrip_by_id, rstrip_by_id; [reflexivity | |];
      intros d Hd; apply user_char_not_space, Hch, Hd. }
  assert (Hl : lower clean = clean) by (apply lower_id; intros d Hd; apply user_char_lower, Hch, Hd).
  assert (Hat : lstrip_by (Ascii.eqb "@"%char) clean = clean)
    by (apply lstrip_by_id; intros d Hd; apply user_char_not_at, Hch, Hd).
  unfold check_username. rewrite Hs, Hl, Hat, Hisal.
  destruct clean as [| c0 r0]; [destruct Hc | reflexivity].
Qed.

Lemma check_username_accepted_witness :
  is_ascii "  @Cristiano_7 "%string = true
  /\ check_username "  @Cristiano_7 "%string = inr "cristiano_7"%string
  /\ "cristiano_7"%string <> EmptyString
  /\ (forall c, In c (list_ascii_of_string "cristiano_7") ->
       (97 <= nat_of_ascii c <= 122 \/ 48 <= nat_of_ascii c <= 57
        \/ c = "_"%char \/ c = "."%char)%nat)
  /\ (exists c, In c (list_ascii_of_string "cristiano_7") /\ is_alnum_char c = true)
  /\ check_username "cristiano_7"%string = inr "cristiano_7"%string.
Proof.
  assert (H : check_username "  @Cristiano_7 "%string = inr "cristiano_7"%string)
    by (vm_compute; reflexivity).
  assert (Ha : is_ascii "  @Cristiano_7 "%string = true) by (vm_compute; reflexivity).
  split; [exact Ha |]. split; [exact H |]. exact (check_username_accepted _ _ Ha H).
Defined.


Lemma pool_status_available_active (now : datetime) (p : AccountPool.pool) :
  available_accounts (get_pool_status now p) <> 0%nat ->
  exists acc, In acc (accounts p) /\ status acc = ACTIVE.
Proof.
  unfold get_pool_status. simpl. rewrite fold_count. simpl. intro H.
  destruct (filter (is_available now) (accounts p)) as [| a r] eqn:Ef; [contradiction |].
  assert (Ha : In a (filter (is_available now) (accounts p))) by (rewrite Ef; left; reflexivity).
  apply filter_In in Ha. exists a. split; [exact (proj1 Ha) | exact (is_available_active _ _ (proj2 Ha))].
Qed.



(** X23. When a valid username's collection succeeds with at least one story or post file, the route answers HTTP 500, because convert_collection_result_to_response applies base64.b64encode to the binary data the service has already turned into a base64 str. *)
Theorem route_collect_files_internal_error (gw : gateway) (settings : Settings)
    (now : datetime) (username clean : string) (include_stories include_feed : bool)
    (max_feed_posts : Z) (p p' : AccountPool.pool) (res : CollectionResult) :
  check_username username = inr clean ->
  available_accounts (get_pool_status now p) <> 0%nat ->
  collect_user_media gw settings now (PyStr clean) include_stories include_feed max_feed_posts p
    = (Ret res, p') ->
  cr_success res = true ->
  app (cr_stories res) (cr_feed_posts res) <> [] ->
  route_collect gw settings now username include_stories include_feed max_feed_posts p
  = (Ret (HTTPError 500
            "Erro interno do servidor: a bytes-like object is required, not 'str'"%string), p').
Proof.
  intros Ec Ea Hres Hs Hne.
  unfold route_collect. rewrite Ec, bind_get.
  destruct (Nat.eqb_spec (available_accounts (get_pool_status now p)) 0) as [E0 | _];
    [contradiction |].
  apply pool_status_available_active in Ea.
  destruct (collect_user_content_result gw settings now (PyStr clean) include_stories include_feed
              max_feed_posts p)
    as [r [p1 [E [[Hnone _] | [[_ [res' [Hres' [_ [[Hs' _] | [_ ->]]]]]] | [Hsel _]]]]]].
  - exfalso. destruct Ea as [acc [Hin Hst]]. exact (Hnone acc Hin Hst).
  - rewrite Hres in Hres'. injection Hres' as <- _. rewrite Hs in Hs'. discriminate Hs'.
  - rewrite Hres in Hres'. injection Hres' as <- <-.
    unfold bind at 1. rewrite E. unfold _build_success_response_safe. cbv beta iota.
    unfold convert_collection_result_to_response. rewrite <- map_app.
    destruct (app (cr_stories res) (cr_feed_posts res)); [contradiction | reflexivity].
  - exfalso. unfold collect_user_media in Hres.
    destruct (valid_username (PyStr clean)); [| injection Hres as <- _; discriminate Hs].
    rewrite bind_get in Hres. cbv beta in Hres. rewrite Hsel in Hres. discriminate Hres.
Qed.

Lemma route_collect_files_internal_error_witness :
  exists res p',
    collect_user_media media_gateway default_settings now0 (PyStr "target") true true 10
      (pool_of [fresh_account]) = (Ret res, p')
    /\ check_username "target"%string = inr "target"%string
    /\ available_accounts (get_pool_status now0 (pool_of [fresh_account])) <> 0%nat
    /\ cr_success res = true
    /\ app (cr_stories res) (cr_feed_posts res) <> []
    /\ route_collect media_gateway default_settings now0 "target" true true 10
         (pool_of [fresh_account])
       = (Ret (HTTPError 500
                 "Erro interno do servidor: a bytes-like object is required, not 'str'"%string), p').
Proof.
  do 2 eexists.
  match goal with |- ?E = ?R /\ _ =>
    assert (H : E = R) by (vm_compute; reflexivity) end.
  assert (Hc : check_username "target"%string = inr "target"%string) by (vm_compute; reflexivity).
  assert (Ha : available_accounts (get_pool_status now0 (pool_of [fresh_account])) <> 0%nat)
    by (vm_compute; discriminate).
  split; [exact H |]. split; [exact Hc |]. split; [exact Ha |].
  split; [vm_compute; reflexivity |]. split; [vm_compute; discriminate |].
  apply (route_collect_files_internal_error media_gateway default_settings now0 "target" "target"
           true true 10 (pool_of [fresh_account]) _ _ Hc Ha H);
    [vm_compute; reflexivity | vm_compute; discriminate].
Defined.

(** * Loading the pool file *)

Lemma map_option_all_or_nothing {A B} (f : A -> option B) (l : list A) :
  ((exists x, In x l /\ f x = None) /\ map_option f l = None)
  \/ (exists ys, map_option f l = Some ys /\ Forall2 (fun x y => f x = Some y) l ys).
Proof.
  induction l as [| x r IH]; simpl.
  - right. exists []. split; [reflexivity | constructor].
  - destruct (f x) as [y |] eqn:Ef.
    + destruct IH as [[[z [Hz Hfz]] Hn] | [ys [Hs Hall]]].
      * left. split; [exists z; split; [right; exact Hz | exact Hfz] |]. rewrite Hn. reflexivity.
      * right. exists (y :: ys). rewrite Hs. split; [reflexivity | constructor; assumption].
    + left. split; [exists x; split; [left; reflexivity | exact Ef] | reflexivity].
Qed.

(** X24. _load_pool either builds one account from every entry of the pool file, in order, or, when some entry cannot be turned into an account, leaves the pool empty. *)
Theorem load_pool_all_or_nothing (created_at_default : datetime) (items : list json) :
  ((exists j, In j items /\ account_of_json created_at_default j = None)
   /\ _load_pool created_at_default (Document (JArr items)) = [])
  \/ Forall2 (fun j acc => account_of_json created_at_default j = Some acc)
       items (_load_pool created_at_default (Document (JArr items))).
Proof.
  unfold _load_pool, accounts_of_document.
  destruct (map_option_all_or_nothing (account_of_json created_at_default) items)
    as [[Hx Hn] | [ys [Hs Hall]]].
  - left. rewrite Hn. split; [exact Hx | reflexivity].
  - right. rewrite Hs. exact Hall.
Qed.

(** X25. An entry of the pool file with only username, password and session_file gives an account with no proxy, status ACTIVE, no last use, zero counters, health 100 and the default creation time. *)
Theorem account_of_json_defaults (created_at_default : datetime)
    (kvs : list (string * json)) (u pw sf : string) :
  lookup "username" kvs = Some (JStr u) ->
  lookup "password" kvs = Some (JStr pw) ->
  lookup "session_file" kvs = Some (JStr sf) ->
  (forall k, In k ["proxy"; "status"; "last_used"; "operations_today"; "health_score";
                   "total_operations"; "total_errors"; "created_at"]%string ->
             lookup k kvs = None) ->
  account_of_json created_at_default (JObj kvs)
  = Some (mkAccount u pw None sf ACTIVE None 0 100 0 0 created_at_default).
Proof.
  intros Hu Hp Hs Hk. simpl.
  rewrite Hu, Hp, Hs, !Hk by (simpl; tauto). reflexivity.
Qed.

Lemma account_of_json_defaults_witness :
  let kvs := [("session_file", JStr "data/sessions/dana_session.json");
              ("username", JStr "old"); ("password", JStr "pw"); ("note", JInt 3);
              ("username", JStr "dana")]%string in
  (lookup "username" kvs = Some (JStr "dana")
   /\ lookup "password" kvs = Some (JStr "pw")
   /\ lookup "session_file" kvs = Some (JStr "data/sessions/dana_session.json"))%string
  /\ account_of_json created0 (JObj kvs)
     = Some (mkAccount "dana" "pw" None "data/sessions/dana_session.json" ACTIVE None 0 100 0 0
               created0).
Proof.
  intro kvs. split; [split; [| split]; reflexivity |].
  apply account_of_json_defaults; [reflexivity .. |].
  intros k Hk. simpl in Hk.
  repeat (destruct Hk as [<- | Hk]; [reflexivity |]). destruct Hk.
Defined.

(** * The daily health check, account by account *)

Lemma nth_error_map_some {A B} (f : A -> B) (l : list A) (i : nat) (x : A) :
  nth_error l i = Some x -> nth_error (map f l) i = Some (f x).
Proof. intro H. rewrite nth_error_map, H. reflexivity. Qed.

(** X14. health_check keeps the number of accounts and the client cache and saves the pool once. For each account it changes only the status and operations_today (kept or reset to 0); a DEAD account stays DEAD, no account is put into COOLDOWN, and a CHALLENGE or LOGIN_REQUIRED account with health at most 50 keeps its status. *)
Theorem health_check_frame (settings : Settings) (now : datetime)
    (test_login : string -> login_outcome) (p : AccountPool.pool) :
  List.length (accounts (health_check settings now test_login p)) = List.length (accounts p)
  /\ clients (health_check settings now test_login p) = clients p
  /\ saved (health_check settings now test_login p)
     = app (saved p) [accounts (health_check settings now test_login p)]
  /\ forall i acc, nth_error (accounts p) i = Some acc ->
     exists acc', nth_error (accounts (health_check settings now test_login p)) i = Some acc'
       /\ username acc' = username acc /\ password acc' = password acc
       /\ proxy acc' = proxy acc /\ session_file acc' = session_file acc
       /\ last_used acc' = last_used acc /\ health_score acc' = health_score acc
       /\ total_operations acc' = total_operations acc /\ total_errors acc' = total_errors acc
       /\ created_at acc' = created_at acc
       /\ (operations_today acc' = operations_today acc \/ operations_today acc' = 0)
       /\ (status acc = DEAD -> status acc' = DEAD)
       /\ (status acc' = COOLDOWN -> status acc = COOLDOWN)
       /\ ((health_score acc <= 50)%Q -> (status acc = CHALLENGE \/ status acc = LOGIN_REQUIRED) ->
           status acc' = status acc).
Proof.
  unfold health_check, _save_pool; simpl.
  split; [apply length_map |]. split; [reflexivity |]. split; [reflexivity |].
  intros i acc H. exists (health_check_account settings now test_login acc).
  split; [exact (nth_error_map_some _ _ _ _ H) |].
  exact (health_check_account_frame settings now test_login acc).
Qed.

Lemma filter_neq_absent (u : string) (l : list string) :
  existsb (String.eqb u) l = false -> filter (fun v => negb (String.eqb u v)) l = l.
Proof.
  induction l as [| v l IH]; simpl; [reflexivity |].
  destruct (String.eqb u v); simpl; [discriminate | intro H; rewrite IH by exact H; reflexivity].
Qed.

(** X12. get_client returns True with the pool unchanged when the cached client still works. Otherwise, after a successful login, it caches the new client in place of any old one and leaves the accounts unchanged without saving. *)
Theorem get_client_success (gw : gateway) (i : nat) (p : AccountPool.pool)
    (acc : InstagramAccount) :
  nth_error (accounts p) i = Some acc ->
  (existsb (String.eqb (username acc)) (clients p) && gw_get_timeline_feed gw (username acc)
     = true ->
   get_client gw i p = (Ret true, p))
  /\ (existsb (String.eqb (username acc)) (clients p) && gw_get_timeline_feed gw (username acc)
        = false ->
      gw_login gw (username acc) = ClientOk ->
      get_client gw i p
      = (Ret true, mkPool (accounts p)
                     (username acc :: filter (fun v => negb (String.eqb (username acc) v)) (clients p))
                     (saved p))).
Proof.
  intro Hn. unfold get_client. rewrite bind_get, Hn. cbv zeta.
  split; intro Hc; rewrite Hc; [reflexivity |].
  intro Hl. rewrite Hl.
  destruct (existsb (String.eqb (username acc)) (clients p)) eqn:Ex; simpl.
  - reflexivity.
  - rewrite filter_neq_absent by exact Ex. reflexivity.
Qed.

Lemma get_client_success_witness :
  nth_error (accounts (mkPool [fresh_account] ["collector"%string; "other"%string] [])) 0
    = Some fresh_account
  /\ get_client login_required_lookup_gateway 0
       (mkPool [fresh_account] ["collector"%string; "other"%string] [])
     = (Ret true, mkPool [fresh_account] ["collector"%string; "other"%string] []).
Proof.
  assert (Hn : nth_error (accounts (mkPool [fresh_account] ["collector"%string; "other"%string] []))
                 0 = Some fresh_account) by reflexivity.
  split; [exact Hn |].
  apply (proj1 (get_client_success login_required_lookup_gateway 0
                  (mkPool [fresh_account] ["collector"%string; "other"%string] []) fresh_account Hn)).
  vm_compute. reflexivity.
Defined.
